(** * Monocle's Gerrit crawler: [monocle/gerrit/review.py]

    A shallow embedding of [ReviewesFetcher] (the paginated fetch [get] and
    the event extraction [extract_objects]) and the properties its
    specification states about it.

    Modelling conventions.
    - Python [str] values are [string]s over [ascii]: the embedding is
      about ASCII text.  On it the character classes of [re] ([\d], [\s],
      [.]) are the ASCII ones; on a [str] with other characters Python's
      [\d] also takes the decimal digits of other scripts, and such texts
      have no counterpart here.
    - [strftime] is the C library's, as CPython calls it on Linux: [%Y]
      does not pad the year, so only the years from 1000 on are written
      with the four digits that [strptime] reads back.
    - A raised exception is the [Raise] branch of [result]; evaluation
      order is the order of the monadic binds.
    - The dictionaries the extractor builds are association lists
      ([pydict]) with Python's update-or-append assignment.
    - The raw JSON records are records whose fields are [option]s: [None]
      is an absent key.  A present key holds a value of the type Gerrit's
      REST schema gives it. *)

From Stdlib Require Import List String Ascii ZArith Lia Bool Arith.
From Stdlib Require Import DecimalString DecimalPos DecimalZ.
Import ListNotations.

Open Scope Z_scope.
Open Scope list_scope.

Infix "+:+" := String.append (at level 60, right associativity).

(** ** Exceptions *)

Inductive exn : Type :=
| KeyError (key : string)
| IndexError
| TypeError
| ValueError
| StopIteration.

Inductive result (A : Type) : Type :=
| Ok (a : A)
| Raise (e : exn).
Arguments Ok {A} a.
Arguments Raise {A} e.

Definition bind {A B} (m : result A) (k : A -> result B) : result B :=
  match m with
  | Ok a => k a
  | Raise e => Raise e
  end.

Notation "x <- m ;; k" := (bind m (fun x => k))
  (at level 61, m at next level, right associativity).

(** [d[key]] on a record field that may be absent. *)
Definition getitem {A} (key : string) (field : option A) : result A :=
  match field with
  | Some a => Ok a
  | None => Raise (KeyError key)
  end.

Fixpoint mapM {A B} (f : A -> result B) (l : list A) : result (list B) :=
  match l with
  | [] => Ok []
  | a :: l' => b <- f a ;; bs <- mapM f l' ;; Ok (b :: bs)
  end.

(** ** Python values and dictionaries *)

#[local] Unset Elimination Schemes.
Inductive pyval : Type :=
| VNone
| VBool (b : bool)
| VInt (z : Z)
| VStr (s : string)
| VList (l : list pyval)
| VDict (d : list (string * pyval)).
#[local] Set Elimination Schemes.

Definition pydict := list (string * pyval).

Fixpoint dict_get (k : string) (d : pydict) : option pyval :=
  match d with
  | [] => None
  | (k', v) :: d' => if String.eqb k k' then Some v else dict_get k d'
  end.

(** [d[k] = v]: replaces the value of an existing key in place, appends a
    new key. *)
Fixpoint dict_set (k : string) (v : pyval) (d : pydict) : pydict :=
  match d with
  | [] => [(k, v)]
  | (k', v') :: d' =>
      if String.eqb k k' then (k, v) :: d' else (k', v') :: dict_set k v d'
  end.

(** [d.update(other)] *)
Definition dict_update (d other : pydict) : pydict :=
  fold_left (fun acc kv => dict_set (fst kv) (snd kv) acc) other d.

(** A dict display [{k1: v1, ...}]. *)
Definition dict_of (kvs : pydict) : pydict := dict_update [] kvs.

(** [d.get(k)] *)
Definition dict_get_default (k : string) (d : pydict) : pyval :=
  match dict_get k d with
  | Some v => v
  | None => VNone
  end.

(** [d[k]] *)
Definition dict_getitem (k : string) (d : pydict) : result pyval :=
  getitem k (dict_get k d).

Definition has_key (k : string) (d : pydict) : bool :=
  match dict_get k d with Some _ => true | None => false end.

(** ** Strings *)

Definition LF : ascii := ascii_of_nat 10.
Definition NL : string := String LF EmptyString.

(** [\d] on ASCII text: the digits [0] to [9]. *)
Definition is_digit (c : ascii) : bool :=
  let n := nat_of_ascii c in (48 <=? n)%nat && (n <=? 57)%nat.

Definition in_range (lo hi : ascii) (c : ascii) : bool :=
  let n := nat_of_ascii c in
  (nat_of_ascii lo <=? n)%nat && (n <=? nat_of_ascii hi)%nat.

(** [\s] *)
Definition is_space (c : ascii) : bool :=
  let n := nat_of_ascii c in
  (n =? 32)%nat || ((9 <=? n)%nat && (n <=? 13)%nat)
  || ((28 <=? n)%nat && (n <=? 31)%nat).

Definition lower (c : ascii) : ascii :=
  let n := nat_of_ascii c in
  if (65 <=? n)%nat && (n <=? 90)%nat then ascii_of_nat (n + 32) else c.

(** [str(n)] and ["%s" % n] for an [int]. *)
Definition str_int (z : Z) : string := NilZero.string_of_int (Z.to_int z).

(** ["%s" % x] where [x] comes from [d.get(key)] on a string field. *)
Definition str_opt (o : option string) : string :=
  match o with
  | Some s => s
  | None => "None"
  end.

(** [s.startswith(p)] *)
Definition startswith (p s : string) : bool := String.prefix p s.

(** [s.replace(c, by)] for a one-character [c]. *)
Fixpoint replace (c : ascii) (by_ : string) (s : string) : string :=
  match s with
  | EmptyString => EmptyString
  | String x s' =>
      if Ascii.eqb x c then by_ +:+ replace c by_ s'
      else String x (replace c by_ s')
  end.

(** [s[:-n]] for [n > 0]. *)
Definition drop_last (n : nat) (s : string) : string :=
  substring 0 (String.length s - n) s.

(** [s.split(sep)] for a one-character separator: never empty. *)
Fixpoint split (sep : ascii) (s : string) : list string :=
  match s with
  | EmptyString => [EmptyString]
  | String x s' =>
      if Ascii.eqb x sep then EmptyString :: split sep s'
      else match split sep s' with
           | [] => [String x EmptyString]
           | w :: ws => String x w :: ws
           end
  end.

(** [sep.join(l)] *)
Definition join (sep : string) (l : list string) : string :=
  String.concat sep l.

Definition hex_char (n : nat) : ascii :=
  if (n <? 10)%nat then ascii_of_nat (48 + n) else ascii_of_nat (87 + n).

Definition printable (c : ascii) : bool :=
  let n := nat_of_ascii c in
  ((32 <=? n)%nat && (n <? 127)%nat)
  || ((161 <=? n)%nat && negb (n =? 173)%nat).

Fixpoint contains_char (c : ascii) (s : string) : bool :=
  match s with
  | EmptyString => false
  | String x s' => Ascii.eqb x c || contains_char c s'
  end.

Fixpoint escape (quote : ascii) (s : string) : string :=
  match s with
  | EmptyString => EmptyString
  | String c s' =>
      let n := nat_of_ascii c in
      (if Ascii.eqb c quote || (n =? 92)%nat
       then String (ascii_of_nat 92) (String c EmptyString)
       else if (n =? 10)%nat then String (ascii_of_nat 92) "n"
       else if (n =? 13)%nat then String (ascii_of_nat 92) "r"
       else if (n =? 9)%nat then String (ascii_of_nat 92) "t"
       else if printable c then String c EmptyString
       else String (ascii_of_nat 92)
              (String "x" (String (hex_char (n / 16))
                 (String (hex_char (n mod 16)) EmptyString))))
      +:+ escape quote s'
  end.

(** [repr(s)] for a [str]. *)
Definition repr_str (s : string) : string :=
  let quote : ascii :=
    if contains_char "'" s && negb (contains_char (ascii_of_nat 34) s)
    then ascii_of_nat 34 else "'"%char in
  String quote (escape quote s +:+ String quote EmptyString).

Fixpoint py_repr (v : pyval) : string :=
  match v with
  | VNone => "None"
  | VBool true => "True"
  | VBool false => "False"
  | VInt z => str_int z
  | VStr s => repr_str s
  | VList l => "[" +:+ join ", " (map py_repr l) +:+ "]"
  | VDict d =>
      "{" +:+ join ", "
                (map (fun kv => match kv with
                                | (k, x) => repr_str k +:+ ": " +:+ py_repr x
                                end) d) +:+ "}"
  end.

(** ["%s" % v] *)
Definition py_str (v : pyval) : string :=
  match v with
  | VStr s => s
  | _ => py_repr v
  end.

(** [v == s] for a string literal [s]. *)
Definition eq_str (v : pyval) (s : string) : bool :=
  match v with
  | VStr s' => String.eqb s' s
  | _ => false
  end.

(** [s + v] for a string literal [s]. *)
Definition str_add (s : string) (v : pyval) : result string :=
  match v with
  | VStr s' => Ok (s +:+ s')
  | _ => Raise TypeError
  end.

(** ** Regular expressions: the fragment of [re] the crawler and
    [datetime.strptime] use, with [re]'s backtracking order. *)

Module Re.

Inductive regex : Type :=
| Eps
| Lit (c : ascii)
| LitI (c : ascii)                 (* a literal under IGNORECASE *)
| Class (f : ascii -> bool)
| Seq (r1 r2 : regex)
| Alt (r1 r2 : regex)
| Opt (r : regex)                  (* greedy [?] *)
| Plus (f : ascii -> bool)         (* greedy [+] on a character class *)
| Group (name : string) (r : regex).

Definition captures := list (string * string).
Definition mstate := (captures * string)%type.

(** The ways [f+] can match at the head of [s], longest first: the list of
    what is left of [s]. *)
Fixpoint plus_class (f : ascii -> bool) (s : string) : list string :=
  match s with
  | String c s' => if f c then plus_class f s' ++ [s'] else []
  | EmptyString => []
  end.

Definition consumed (s rest : string) : string :=
  substring 0 (String.length s - String.length rest) s.

(** All the matches of [r] at the head of the subject, in the order the
    backtracking matcher tries them. *)
Fixpoint run (r : regex) (st : mstate) : list mstate :=
  match r with
  | Eps => [st]
  | Lit c =>
      match snd st with
      | String c' s' => if Ascii.eqb c c' then [(fst st, s')] else []
      | EmptyString => []
      end
  | LitI c =>
      match snd st with
      | String c' s' =>
          if Ascii.eqb (lower c) (lower c') then [(fst st, s')] else []
      | EmptyString => []
      end
  | Class f =>
      match snd st with
      | String c' s' => if f c' then [(fst st, s')] else []
      | EmptyString => []
      end
  | Seq r1 r2 => flat_map (run r2) (run r1 st)
  | Alt r1 r2 => run r1 st ++ run r2 st
  | Opt r' => run r' st ++ [st]
  | Plus f => map (fun rest => (fst st, rest)) (plus_class f (snd st))
  | Group name r' =>
      map (fun st' => ((name, consumed (snd st) (snd st')) :: fst st', snd st'))
          (run r' st)
  end.

(** [pattern.match(s)]: the first match at the start of [s], as the named
    groups and the unmatched rest. *)
Definition re_match (r : regex) (s : string) : option mstate :=
  hd_error (run r (([] : captures), s)).

Definition matches (r : regex) (s : string) : bool :=
  match re_match r s with Some _ => true | None => false end.

Fixpoint group (name : string) (c : captures) : option string :=
  match c with
  | [] => None
  | (n, v) :: c' => if String.eqb name n then Some v else group name c'
  end.

(** A literal string. *)
Fixpoint lits (s : string) : regex :=
  match s with
  | EmptyString => Eps
  | String c s' => Seq (Lit c) (lits s')
  end.

Definition digit : regex := Class is_digit.
Definition range (lo hi : ascii) : regex := Class (in_range lo hi).

(** The words a regex matches, without the order. *)
Fixpoint lang (r : regex) (w : string) : Prop :=
  match r with
  | Eps => w = EmptyString
  | Lit c => w = String c EmptyString
  | LitI c => exists c', lower c = lower c' /\ w = String c' EmptyString
  | Class f => exists c, f c = true /\ w = String c EmptyString
  | Seq r1 r2 => exists w1 w2, w = w1 +:+ w2 /\ lang r1 w1 /\ lang r2 w2
  | Alt r1 r2 => lang r1 w \/ lang r2 w
  | Opt r' => lang r' w \/ w = EmptyString
  | Plus f =>
      w <> EmptyString /\
      forall c, In c (list_ascii_of_string w) -> f c = true
  | Group _ r' => lang r' w
  end.

End Re.

(** ** [datetime]: [strptime], [strftime] and subtraction, for the
    directives the crawler's formats use. *)

Module Datetime.
Import Re.

Record datetime : Type := mkDatetime {
  year : Z; month : Z; day : Z;
  hour : Z; minute : Z; second : Z
}.

Definition is_leap (y : Z) : bool :=
  (y mod 4 =? 0) && (negb (y mod 100 =? 0) || (y mod 400 =? 0)).

Definition days_in_month (y m : Z) : Z :=
  if m =? 2 then (if is_leap y then 29 else 28)
  else if (m =? 4) || (m =? 6) || (m =? 9) || (m =? 11) then 30
  else 31.

Definition days_before_year (y : Z) : Z :=
  let p := y - 1 in p * 365 + p / 4 - p / 100 + p / 400.

Definition days_before_month (y m : Z) : Z :=
  fold_left (fun acc k => acc + days_in_month y (Z.of_nat k))
            (seq 1 (Z.to_nat (m - 1))) 0.

Definition toordinal (d : datetime) : Z :=
  days_before_year (year d) + days_before_month (year d) (month d) + day d.

(** The [datetime] constructor's range checks. *)
Definition valid (d : datetime) : bool :=
  (1 <=? year d) && (year d <=? 9999)
  && (1 <=? month d) && (month d <=? 12)
  && (1 <=? day d) && (day d <=? days_in_month (year d) (month d))
  && (0 <=? hour d) && (hour d <=? 23)
  && (0 <=? minute d) && (minute d <=? 59)
  && (0 <=? second d) && (second d <=? 59).

(** The seconds from the start of day 0 of the proleptic calendar. *)
Definition timestamp (d : datetime) : Z :=
  toordinal d * 86400 + hour d * 3600 + minute d * 60 + second d.

(** [int((a - b).total_seconds())] *)
Definition diff_seconds (a b : datetime) : Z :=
  (toordinal a - toordinal b) * 86400
  + ((hour a * 3600 + minute a * 60 + second a)
     - (hour b * 3600 + minute b * 60 + second b)).

(** The regex of one directive, as [_strptime.TimeRE] has it. *)
Definition directive (d : ascii) : regex :=
  if Ascii.eqb d "Y" then
    Group "Y" (Seq digit (Seq digit (Seq digit digit)))
  else if Ascii.eqb d "m" then
    Group "m" (Alt (Seq (Lit "1") (range "0" "2"))
              (Alt (Seq (Lit "0") (range "1" "9")) (range "1" "9")))
  else if Ascii.eqb d "d" then
    Group "d" (Alt (Seq (Lit "3") (range "0" "1"))
              (Alt (Seq (range "1" "2") digit)
              (Alt (Seq (Lit "0") (range "1" "9"))
              (Alt (range "1" "9") (Seq (Lit " ") (range "1" "9"))))))
  else if Ascii.eqb d "H" then
    Group "H" (Alt (Seq (Lit "2") (range "0" "3"))
              (Alt (Seq (range "0" "1") digit) digit))
  else if Ascii.eqb d "M" then
    Group "M" (Alt (Seq (range "0" "5") digit) digit)
  else if Ascii.eqb d "S" then
    Group "S" (Alt (Seq (Lit "6") (range "0" "1"))
              (Alt (Seq (range "0" "5") digit) digit))
  else Class (fun _ => false).

(** The regex of a format: a directive, [\s+] for a blank, the character
    itself (case ignored) otherwise. *)
Fixpoint pattern (fmt : string) : regex :=
  match fmt with
  | EmptyString => Eps
  | String c rest =>
      if Ascii.eqb c "%" then
        match rest with
        | String d rest' => Seq (directive d) (pattern rest')
        | EmptyString => Class (fun _ => false)
        end
      else if is_space c then Seq (Plus is_space) (pattern rest)
      else Seq (LitI c) (pattern rest)
  end.

(** [int(s)] on what a directive's group holds: digits, after an optional
    blank. *)
Fixpoint int_digits (acc : Z) (s : string) : result Z :=
  match s with
  | EmptyString => Ok acc
  | String c s' =>
      if is_digit c
      then int_digits (10 * acc + (Z.of_nat (nat_of_ascii c) - 48)) s'
      else Raise ValueError
  end.

Definition py_int (s : string) : result Z :=
  match s with
  | EmptyString => Raise ValueError
  | String c s' =>
      if is_space c then
        match s' with
        | EmptyString => Raise ValueError
        | _ => int_digits 0 s'
        end
      else int_digits 0 s
  end.

Definition field (name : string) (default : Z) (c : captures) : result Z :=
  match group name c with
  | Some s => py_int s
  | None => Ok default
  end.

(** [datetime.strptime(data, fmt)] *)
Definition strptime (data fmt : string) : result datetime :=
  match re_match (pattern fmt) data with
  | None => Raise ValueError
  | Some (found, rest) =>
      match rest with
      | String _ _ => Raise ValueError       (* unconverted data remains *)
      | EmptyString =>
          y <- field "Y" 1900 found ;;
          m <- field "m" 1 found ;;
          d <- field "d" 1 found ;;
          H <- field "H" 0 found ;;
          M <- field "M" 0 found ;;
          S <- field "S" 0 found ;;
          let dt := mkDatetime y m d H M S in
          if valid dt then Ok dt else Raise ValueError
      end
  end.

Definition digit_char (z : Z) : ascii := ascii_of_nat (48 + Z.to_nat z).

Definition pad2 (z : Z) : string :=
  String (digit_char (z / 10 mod 10)) (String (digit_char (z mod 10)) "").

(** The four-digit form [YYYY] of a year, as ISO 8601 writes it.  This is
    what [%Y] must read back ([directive "Y"] takes exactly four digits);
    it is what [%Y] writes only for the years from 1000 on. *)
Definition pad4 (z : Z) : string :=
  String (digit_char (z / 1000 mod 10))
    (String (digit_char (z / 100 mod 10)) (pad2 z)).

(** [dt.strftime(fmt)], as CPython does it through the C library:
    [%Y] is the year in decimal without padding (year 999 is written
    [999]), the other fields are two digits wide. *)
Fixpoint strftime (fmt : string) (dt : datetime) : string :=
  match fmt with
  | EmptyString => EmptyString
  | String c rest =>
      if Ascii.eqb c "%" then
        match rest with
        | String d rest' =>
            (if Ascii.eqb d "Y" then str_int (year dt)
             else if Ascii.eqb d "m" then pad2 (month dt)
             else if Ascii.eqb d "d" then pad2 (day dt)
             else if Ascii.eqb d "H" then pad2 (hour dt)
             else if Ascii.eqb d "M" then pad2 (minute dt)
             else if Ascii.eqb d "S" then pad2 (second dt)
             else String c (String d EmptyString))
            +:+ strftime rest' dt
        | EmptyString => String c EmptyString
        end
      else String c (strftime rest dt)
  end.

(** The text of [dt] in the layout [fmt] with the year in its four-digit
    form: the timestamps Gerrit sends and the ISO dates the crawler
    stores are of this shape.  It is not a function of the program. *)
Fixpoint iso_text (fmt : string) (dt : datetime) : string :=
  match fmt with
  | EmptyString => EmptyString
  | String c rest =>
      if Ascii.eqb c "%" then
        match rest with
        | String d rest' =>
            (if Ascii.eqb d "Y" then pad4 (year dt)
             else if Ascii.eqb d "m" then pad2 (month dt)
             else if Ascii.eqb d "d" then pad2 (day dt)
             else if Ascii.eqb d "H" then pad2 (hour dt)
             else if Ascii.eqb d "M" then pad2 (minute dt)
             else if Ascii.eqb d "S" then pad2 (second dt)
             else String c (String d EmptyString))
            +:+ iso_text rest' dt
        | EmptyString => String c EmptyString
        end
      else String c (iso_text rest dt)
  end.

End Datetime.


(** ** The raw records of Gerrit's REST API *)

Record AccountInfo : Type := mkAccount {
  account_name : option string;            (* 'name' *)
  account_id : option Z;                   (* '_account_id' *)
  account_other : list (string * pyval)    (* the keys the crawler ignores *)
}.

Record ApprovalInfo : Type := mkApproval {
  vote_name : option string;               (* 'name' *)
  vote_account_id : option Z;              (* '_account_id' *)
  vote_value : option Z;                   (* 'value' *)
  vote_date : option string                (* 'date' *)
}.

Record LabelInfo : Type := mkLabel {
  label_all : option (list ApprovalInfo)   (* 'all' *)
}.

Record ChangeMessageInfo : Type := mkMessage {
  msg_id : option string;                  (* 'id' *)
  msg_message : option string;             (* 'message' *)
  msg_date : option string;                (* 'date' *)
  msg_author : option AccountInfo          (* 'author' *)
}.

Record FileInfo : Type := mkFile {
  lines_inserted : option Z;
  lines_deleted : option Z
}.

Record CommitInfo : Type := mkCommit {
  commit_message : option string           (* 'message' *)
}.

Record RevisionInfo : Type := mkRevision {
  rev_files : option (list (string * FileInfo));   (* 'files' *)
  rev_commit : option CommitInfo                   (* 'commit' *)
}.

Record ChangeInfo : Type := mkChange {
  r_id : option string;                    (* 'id' *)
  r_number : option Z;                     (* '_number' *)
  r_branch : option string;
  r_project : option string;
  r_owner : option AccountInfo;
  r_subject : option string;
  r_updated : option string;
  r_created : option string;
  r_submitted : option string;
  r_mergeable : option pyval;
  r_status : option string;
  r_assignee : option AccountInfo;
  r_insertions : option Z;
  r_deletions : option Z;
  r_revisions : option (list (string * RevisionInfo));
  r_submitter : option AccountInfo;
  r_messages : option (list ChangeMessageInfo);
  r_labels : option (list (string * LabelInfo));
  r_more_changes : option bool             (* '_more_changes' *)
}.

(** Truth value of [d.get(key)] for a string, a dict and a boolean. *)
Definition truthy_str (o : option string) : bool :=
  match o with
  | Some (String _ _) => true
  | _ => false
  end.

Definition truthy_account (o : option AccountInfo) : bool :=
  match o with
  | Some a =>
      match account_name a, account_id a, account_other a with
      | None, None, [] => false
      | _, _, _ => true
      end
  | None => false
  end.

Definition truthy_bool (o : option bool) : bool :=
  match o with
  | Some true => true
  | _ => false
  end.

(** [d[key]] on a dict held as an association list. *)
Fixpoint assoc {A} (key : string) (d : list (string * A)) : option A :=
  match d with
  | [] => None
  | (k, v) :: d' => if String.eqb key k then Some v else assoc key d'
  end.

(** ** [ReviewesFetcher] *)

Record ReviewesFetcher : Type := mkFetcher {
  base_url : string;
  repository_prefix : string
}.

Definition status_map : list (string * string) :=
  [("NEW", "OPEN"); ("MERGED", "MERGED"); ("ABANDONED", "CLOSED")]%string.

Definition not_blank (c : ascii) : bool := negb (Ascii.eqb c " ").
Definition sign (c : ascii) : bool := Ascii.eqb c "+" || Ascii.eqb c "-".
Definition not_newline (c : ascii) : bool := negb (Ascii.eqb c LF).

(** [re.compile(r"Patch Set \d+:( [^ ]+[+-]\d+)?\n\n.+")] *)
Definition message_re : Re.regex :=
  Re.Seq (Re.lits "Patch Set ")
 (Re.Seq (Re.Plus is_digit)
 (Re.Seq (Re.Lit ":")
 (Re.Seq (Re.Opt (Re.Seq (Re.Lit " ")
                 (Re.Seq (Re.Plus not_blank)
                 (Re.Seq (Re.Class sign) (Re.Plus is_digit)))))
 (Re.Seq (Re.Lit LF)
 (Re.Seq (Re.Lit LF) (Re.Plus not_newline)))))).

Definition convert_date_for_db (str_date : string) : result string :=
  dt <- Datetime.strptime (drop_last 10 str_date) "%Y-%m-%d %H:%M:%S" ;;
  Ok (Datetime.strftime "%Y-%m-%dT%H:%M:%SZ" dt).

Definition convert_date_for_query (str_date : string) : result string :=
  let str_date := replace "T" " " str_date in
  let str_date := replace "Z" "" str_date in
  dt <- Datetime.strptime str_date "%Y-%m-%d %H:%M:%S" ;;
  Ok (Datetime.strftime "%Y-%m-%d" dt).

(** *** [get]: the paginated fetch

    The HTTP collaborator ([requests.get] followed by [json.loads] of the
    body without its first four characters) is a queue of decoded pages,
    served one per request; a request on an empty queue raises. *)

Definition last_item {A} (l : list A) : option A := hd_error (rev l).

Definition options : list string :=
  ["MESSAGES"; "DETAILED_ACCOUNTS"; "DETAILED_LABELS";
   "CURRENT_REVISION"; "CURRENT_FILES"; "CURRENT_COMMIT"]%string.

Definition request_params (self : ReviewesFetcher) (updated_since : string)
  : string :=
  fold_left (fun acc option => acc +:+ "&o=" +:+ option) options
    ("?q=after:" +:+ updated_since +:+ "+project:" +:+ repository_prefix self).

Definition count : Z := 100.

Definition urlpath (self : ReviewesFetcher) (params : string)
    (start_after : Z) : string :=
  base_url self +:+ "/changes/" +:+ params
  +:+ "&n=" +:+ str_int count +:+ "&start=" +:+ str_int start_after.

(** The [while True] loop: [responses] are the pages the collaborator
    still has to serve, [queries] the URLs requested so far. *)
Fixpoint get_loop (self : ReviewesFetcher) (params : string)
    (responses : list (list ChangeInfo)) (start_after : Z)
    (reviews : list ChangeInfo) (queries : list string)
  : result (list ChangeInfo) * list string :=
  let queries := queries ++ [urlpath self params start_after] in
  match responses with
  | [] => (Raise StopIteration, queries)
  | _reviewes :: responses' =>
      match _reviewes with
      | _ :: _ =>
          let reviews := reviews ++ _reviewes in
          match last_item reviews with
          | Some r =>
              if truthy_bool (r_more_changes r)
              then get_loop self params responses'
                     (Z.of_nat (List.length reviews)) reviews queries
              else (Ok reviews, queries)
          | None => (Raise IndexError, queries)
          end
      | [] => (Ok reviews, queries)
      end
  end.

Definition get (self : ReviewesFetcher) (responses : list (list ChangeInfo))
    (updated_since : string) : result (list ChangeInfo) * list string :=
  match convert_date_for_query updated_since with
  | Raise e => (Raise e, [])
  | Ok updated_since =>
      get_loop self (request_params self updated_since) responses 0 [] []
  end.

(** *** [extract_objects] *)

Definition strptime_val (v : pyval) (format : string)
  : result Datetime.datetime :=
  match v with
  | VStr s => Datetime.strptime s format
  | _ => Raise TypeError
  end.

Definition timedelta (start end_ : pyval) : result Z :=
  let format := "%Y-%m-%dT%H:%M:%SZ"%string in
  start <- strptime_val start format ;;
  end_ <- strptime_val end_ format ;;
  Ok (Datetime.diff_seconds start end_).

Definition insert_change_attributes (obj change : pydict) : result pydict :=
  prefix <- dict_getitem "repository_prefix" change ;;
  fullname <- dict_getitem "repository_fullname" change ;;
  shortname <- dict_getitem "repository_shortname" change ;;
  number <- dict_getitem "number" change ;;
  fullname_and_number <- dict_getitem "repository_fullname_and_number" change ;;
  author <- dict_getitem "author" change ;;
  created_at <- dict_getitem "created_at" change ;;
  Ok (dict_update obj
        [("repository_prefix", prefix);
         ("repository_fullname", fullname);
         ("repository_shortname", shortname);
         ("number", number);
         ("repository_fullname_and_number", fullname_and_number);
         ("on_author", author);
         ("on_created_at", created_at)]%string).

(** ["%s/%s" % (a.get('name'), a['_account_id'])] *)
Definition account_str (a : AccountInfo) : result string :=
  uid <- getitem "_account_id" (account_id a) ;;
  Ok (str_opt (account_name a) +:+ "/" +:+ str_int uid).

(** [list(review['revisions'].values())[0]] *)
Definition first_revision (review : ChangeInfo) : result RevisionInfo :=
  revisions <- getitem "revisions" (r_revisions review) ;;
  match revisions with
  | (_, rev) :: _ => Ok rev
  | [] => Raise IndexError
  end.

Definition file_details (entry : string * FileInfo) : pyval :=
  let (path, details) := entry in
  VDict [("additions", VInt (match lines_inserted details with
                             | Some n => n | None => 0 end));
         ("deletions", VInt (match lines_deleted details with
                             | Some n => n | None => 0 end));
         ("path", VStr path)]%string.

(** The dict display that starts [extract_pr_objects]. *)
Definition change_display (self : ReviewesFetcher) (review : ChangeInfo)
  : result pydict :=
  id <- getitem "id" (r_id review) ;;
  number <- getitem "_number" (r_number review) ;;
  target_branch <- getitem "branch" (r_branch review) ;;
  branch <- getitem "branch" (r_branch review) ;;
  project <- getitem "project" (r_project review) ;;
  let repository_prefix := hd EmptyString (split "/" project) in
  let repository_shortname := join "/" (tl (split "/" project)) in
  let url := base_url self +:+ "/" +:+ str_int number in
  owner <- getitem "owner" (r_owner review) ;;
  author <- account_str owner ;;
  title <- getitem "subject" (r_subject review) ;;
  updated <- getitem "updated" (r_updated review) ;;
  updated_at <- convert_date_for_db updated ;;
  created <- getitem "created" (r_created review) ;;
  created_at <- convert_date_for_db created ;;
  merged_at <- (if truthy_str (r_submitted review)
                then match r_submitted review with
                     | Some submitted =>
                         d <- convert_date_for_db submitted ;; Ok (VStr d)
                     | None => Raise TypeError
                     end
                else Ok VNone) ;;
  let mergeable :=
    match r_mergeable review with
    | Some v => eq_str v "true"
    | None => false
    end in
  status <- getitem "status" (r_status review) ;;
  state <- getitem status (assoc status status_map) ;;
  assignees <- (if truthy_account (r_assignee review)
                then match r_assignee review with
                     | Some assignee =>
                         a <- account_str assignee ;; Ok [VStr a]
                     | None => Raise TypeError
                     end
                else Ok []) ;;
  additions <- getitem "insertions" (r_insertions review) ;;
  deletions <- getitem "deletions" (r_deletions review) ;;
  rev1 <- first_revision review ;;
  files1 <- getitem "files" (rev_files rev1) ;;
  rev2 <- first_revision review ;;
  files2 <- getitem "files" (rev_files rev2) ;;
  rev3 <- first_revision review ;;
  commit <- getitem "commit" (rev_commit rev3) ;;
  text <- getitem "message" (commit_message commit) ;;
  Ok (dict_of
        [("type", VStr "Change");
         ("id", VStr id);
         ("number", VInt number);
         ("target_branch", VStr target_branch);
         ("branch", VStr branch);
         ("repository_prefix", VStr repository_prefix);
         ("repository_fullname", VStr project);
         ("repository_shortname", VStr repository_shortname);
         ("url", VStr url);
         ("author", VStr author);
         ("title", VStr title);
         ("updated_at", VStr updated_at);
         ("created_at", VStr created_at);
         ("merged_at", merged_at);
         ("mergeable", VBool mergeable);
         ("state", VStr state);
         ("labels", VList []);
         ("assignees", VList assignees);
         ("additions", VInt additions);
         ("deletions", VInt deletions);
         ("commit_count", VInt 1);
         ("changed_files", VInt (Z.of_nat (List.length files1)));
         ("changes_files_details", VList (map file_details files2));
         ("text", VStr text)]%string).

(** The assignments that follow the display, up to
    [objects.append(change)]. *)
Definition close_change (review : ChangeInfo) (change : pydict)
  : result pydict :=
  fullname <- dict_getitem "repository_fullname" change ;;
  number <- dict_getitem "number" change ;;
  let change :=
    dict_set "repository_fullname_and_number"
      (VStr (py_str fullname +:+ "#" +:+ py_str number)) change in
  state <- dict_getitem "state" change ;;
  change <- (if eq_str state "CLOSED"
             then updated_at <- dict_getitem "updated_at" change ;;
                  Ok (dict_set "closed_at" updated_at change)
             else Ok change) ;;
  state <- dict_getitem "state" change ;;
  change <- (if eq_str state "MERGED"
             then merged_at <- dict_getitem "merged_at" change ;;
                  Ok (dict_set "closed_at" merged_at change)
             else Ok change) ;;
  state <- dict_getitem "state" change ;;
  change <- (if eq_str state "CLOSED" || eq_str state "MERGED"
             then closed_at <- dict_getitem "closed_at" change ;;
                  created_at <- dict_getitem "created_at" change ;;
                  duration <- timedelta closed_at created_at ;;
                  Ok (dict_set "duration" (VInt duration) change)
             else Ok change) ;;
  state <- dict_getitem "state" change ;;
  if eq_str state "MERGED"
  then match r_submitter review with
       | Some submitter =>
           merged_by <- account_str submitter ;;
           Ok (dict_set "merged_by" (VStr merged_by) change)
       | None => Ok change
       end
  else Ok (dict_set "merged_by" VNone change).

Definition event (type id : string) (created_at author : pyval) : pydict :=
  dict_of [("type", VStr type);
           ("id", VStr id);
           ("created_at", created_at);
           ("author", author)]%string.

Definition created_event (change : pydict) (objects : list pydict)
  : result (list pydict) :=
  id <- dict_getitem "id" change ;;
  id <- str_add "CCE" id ;;
  created_at <- dict_getitem "created_at" change ;;
  author <- dict_getitem "author" change ;;
  obj <- insert_change_attributes
           (event "ChangeCreatedEvent" id created_at author) change ;;
  Ok (objects ++ [obj]).

Definition closed_event (change : pydict) (objects : list pydict)
  : result (list pydict) :=
  state <- dict_getitem "state" change ;;
  if eq_str state "MERGED" || eq_str state "CLOSED" then
    state <- dict_getitem "state" change ;;
    let type := if eq_str state "MERGED"
                then "ChangeMergedEvent"%string
                else "ChangeAbandonedEvent"%string in
    id <- dict_getitem "id" change ;;
    id <- str_add "CCLE" id ;;
    created_at <- dict_getitem "closed_at" change ;;
    let author := dict_get_default "merged_by" change in
    obj <- insert_change_attributes (event type id created_at author) change ;;
    Ok (objects ++ [obj])
  else Ok objects.

(** The event of a message, for both kinds of message event. *)
Definition message_event (type : string) (comment : ChangeMessageInfo)
    (change : pydict) : result pydict :=
  id <- getitem "id" (msg_id comment) ;;
  date <- getitem "date" (msg_date comment) ;;
  created_at <- convert_date_for_db date ;;
  author <- getitem "author" (msg_author comment) ;;
  author <- account_str author ;;
  insert_change_attributes
    (event type id (VStr created_at) (VStr author)) change.

(** The body of [for comment in review['messages']]. *)
Definition message_step (change : pydict) (comment : ChangeMessageInfo)
    (objects : list pydict) : result (list pydict) :=
  message <- getitem "message" (msg_message comment) ;;
  if startswith "Uploaded patch set " message then
    obj <- message_event "ChangeCommitPushedEvent" comment change ;;
    Ok (objects ++ [obj])
  else if Re.matches message_re message then
    obj <- message_event "ChangeCommentedEvent" comment change ;;
    Ok (objects ++ [obj])
  else Ok objects.

Fixpoint for_messages (change : pydict) (messages : list ChangeMessageInfo)
    (objects : list pydict) : result (list pydict) :=
  match messages with
  | [] => Ok objects
  | comment :: rest =>
      objects <- message_step change comment objects ;;
      for_messages change rest objects
  end.

(** The [approval] of a vote: the label, then the value with its sign. *)
Definition approval (label : string) (value : Z) : string :=
  label +:+ (if negb (startswith "-" (str_int value))
             then "+" +:+ str_int value
             else str_int value).

(** The body of [for _review in review['labels'][label].get('all', [])]. *)
Definition review_step (change : pydict) (label : string)
    (_review : ApprovalInfo) (objects : list pydict)
  : result (list pydict) :=
  match vote_date _review, vote_value _review with
  | Some date, Some value =>
      id_date <- convert_date_for_db date ;;
      id_account <- getitem "_account_id" (vote_account_id _review) ;;
      let id := id_date +:+ "_" +:+ label +:+ "_" +:+ str_int value
                +:+ "_" +:+ str_int id_account in
      created_at <- convert_date_for_db date ;;
      author_account <- getitem "_account_id" (vote_account_id _review) ;;
      let author := str_opt (vote_name _review) +:+ "/"
                    +:+ str_int author_account in
      let obj := dict_set "approval" (VStr (approval label value))
                   (event "ChangeReviewedEvent" id
                      (VStr created_at) (VStr author)) in
      obj <- insert_change_attributes obj change ;;
      Ok (objects ++ [obj])
  | _, _ => Ok objects
  end.

Fixpoint for_reviews (change : pydict) (label : string)
    (votes : list ApprovalInfo) (objects : list pydict)
  : result (list pydict) :=
  match votes with
  | [] => Ok objects
  | _review :: rest =>
      objects <- review_step change label _review objects ;;
      for_reviews change label rest objects
  end.

(** [for label in review['labels']], over the keys of the label map. *)
Fixpoint for_labels (change : pydict) (labels : list (string * LabelInfo))
    (keys : list string) (objects : list pydict) : result (list pydict) :=
  match keys with
  | [] => Ok objects
  | label :: rest =>
      info <- getitem label (assoc label labels) ;;
      let votes := match label_all info with
                   | Some l => l
                   | None => []
                   end in
      objects <- for_reviews change label votes objects ;;
      for_labels change labels rest objects
  end.

Definition extract_pr_objects (self : ReviewesFetcher) (review : ChangeInfo)
  : result (list pydict) :=
  let objects : list pydict := [] in
  change <- change_display self review ;;
  change <- close_change review change ;;
  let objects := objects ++ [change] in
  objects <- created_event change objects ;;
  objects <- closed_event change objects ;;
  messages <- getitem "messages" (r_messages review) ;;
  objects <- for_messages change messages objects ;;
  labels <- getitem "labels" (r_labels review) ;;
  objects <- for_labels change labels (map fst labels) objects ;;
  Ok objects.

(** The loop of [extract_objects]: the objects so far and the records
    [log.exception] has reported, with what they raised. *)
Fixpoint extract_loop (self : ReviewesFetcher) (reviewes : list ChangeInfo)
    (objects : list pydict) (log : list (ChangeInfo * exn))
  : list pydict * list (ChangeInfo * exn) :=
  match reviewes with
  | [] => (objects, log)
  | review :: rest =>
      match extract_pr_objects self review with
      | Ok objs => extract_loop self rest (objects ++ objs) log
      | Raise e => extract_loop self rest objects (log ++ [(review, e)])
      end
  end.

Definition extract_objects (self : ReviewesFetcher)
    (reviewes : list ChangeInfo) : list pydict * list (ChangeInfo * exn) :=
  extract_loop self reviewes [] [].

(** ** Sample records *)

Definition alice : AccountInfo := mkAccount (Some "Alice"%string) (Some 7) [].
Definition rf : ReviewesFetcher :=
  mkFetcher "https://review.example.org" "zuul".

Definition sample_revisions : list (string * RevisionInfo) :=
  [("abc"%string,
    mkRevision (Some [("README"%string, mkFile (Some 3) None)])
               (Some (mkCommit (Some "Fix it"%string))))].

Definition sample_change (status : string) (submitted : option string)
    (submitter : option AccountInfo) (messages : list ChangeMessageInfo)
    (labels : list (string * LabelInfo)) : ChangeInfo :=
  mkChange (Some "zuul~master~I42"%string) (Some 42) (Some "master"%string)
    (Some "zuul/zuul"%string) (Some alice) (Some "Fix it"%string)
    (Some "2020-04-09 10:15:30.000000000"%string)
    (Some "2020-04-08 10:15:30.000000000"%string)
    submitted (Some (VBool true)) (Some status) None (Some 3) (Some 1)
    (Some sample_revisions) submitter (Some messages) (Some labels) None.

(** * Properties *)

(** ** Generic lemmas *)

Lemma bind_ok {A B} (m : result A) (k : A -> result B) (b : B) :
  bind m k = Ok b -> exists a, m = Ok a /\ k a = Ok b.
Proof.
  destruct m as [a|e]; simpl; intros H; [eauto | discriminate].
Qed.

Lemma getitem_ok {A} (key : string) (o : option A) (a : A) :
  getitem key o = Ok a -> o = Some a.
Proof. destruct o; simpl; congruence. Qed.

(** Inverts the successful run of a chain of binds in hypothesis [H]. *)
Ltac inv_bind H :=
  let a := fresh "x" in
  let Ha := fresh "E" in
  apply bind_ok in H; destruct H as (a & Ha & H).

Lemma append_assoc (a b c : string) : (a +:+ b) +:+ c = a +:+ b +:+ c.
Proof. induction a; simpl; congruence. Qed.

Lemma append_nil_r (a : string) : a +:+ EmptyString = a.
Proof. induction a; simpl; congruence. Qed.

Lemma length_append (a b : string) :
  String.length (a +:+ b) = (String.length a + String.length b)%nat.
Proof. induction a; simpl; congruence. Qed.

Lemma substring_append (w rest : string) :
  substring 0 (String.length w) (w +:+ rest) = w.
Proof.
  induction w; simpl.
  - destruct rest; reflexivity.
  - now rewrite IHw.
Qed.

Lemma last_item_app {A} (l : list A) (a : A) : last_item (l ++ [a]) = Some a.
Proof. unfold last_item. now rewrite rev_app_distr. Qed.

Lemma last_item_app_cons {A} (l1 l2 : list A) (a : A) :
  last_item (l1 ++ a :: l2) = last_item (a :: l2).
Proof.
  unfold last_item. rewrite rev_app_distr. simpl.
  destruct (rev l2) as [|b r] eqn:E; simpl; [reflexivity|].
  reflexivity.
Qed.

(** ** Pagination *)

Section Pagination.

Variable self : ReviewesFetcher.
Variable params : string.

(** A page after which [get] asks for another one: it is not empty and its
    last record has a true [_more_changes]. *)
Definition more_pages (page : list ChangeInfo) : bool :=
  match last_item page with
  | Some r => truthy_bool (r_more_changes r)
  | None => false
  end.

(** The URLs of the requests for [pages], the first one at [start]. *)
Fixpoint page_urls (start : Z) (pages : list (list ChangeInfo))
  : list string :=
  match pages with
  | [] => []
  | page :: rest =>
      urlpath self params start
      :: page_urls (start + Z.of_nat (List.length page)) rest
  end.

Lemma more_pages_nonempty (page : list ChangeInfo) :
  more_pages page = true -> page <> [].
Proof. intros H ->. discriminate. Qed.

Lemma get_loop_spec (pre : list (list ChangeInfo)) :
  forall (last : list ChangeInfo) (extra : list (list ChangeInfo))
         (reviews : list ChangeInfo) (queries : list string),
    Forall (fun page => more_pages page = true) pre ->
    more_pages last = false ->
    get_loop self params (pre ++ last :: extra)
      (Z.of_nat (List.length reviews)) reviews queries
    = (Ok (reviews ++ List.concat (pre ++ [last])),
       queries ++ page_urls (Z.of_nat (List.length reviews)) (pre ++ [last])).
Proof.
  induction pre as [|page pre IH]; intros last extra reviews queries Hpre Hlast.
  - simpl. destruct last as [|r last'].
    + now rewrite !app_nil_r.
    + rewrite app_nil_r.
      unfold more_pages in Hlast.
      rewrite last_item_app_cons.
      destruct (last_item (r :: last')) as [r'|] eqn:E.
      * now rewrite Hlast.
      * unfold last_item in E. simpl in E.
        destruct (rev last'); discriminate.
  - inversion Hpre as [|? ? Hpage Hpre']; subst.
    simpl. destruct page as [|r page']; [discriminate|].
    unfold more_pages in Hpage.
    rewrite last_item_app_cons.
    destruct (last_item (r :: page')) as [r'|]; [|discriminate].
    rewrite Hpage.
    rewrite (IH last extra (reviews ++ r :: page')
               (queries ++ [urlpath self params (Z.of_nat (List.length reviews))]))
      by assumption.
    rewrite length_app, Nat2Z.inj_add.
    now rewrite <- !app_assoc.
Qed.

Lemma get_loop_exhausted (pages : list (list ChangeInfo)) :
  forall (start : Z) (reviews : list ChangeInfo) (queries : list string),
    Forall (fun page => more_pages page = true) pages ->
    fst (get_loop self params pages start reviews queries)
    = Raise StopIteration.
Proof.
  induction pages as [|page pages IH]; intros start reviews queries H.
  - reflexivity.
  - inversion H as [|? ? Hpage Hrest]; subst.
    simpl. destruct page as [|r page']; [discriminate|].
    unfold more_pages in Hpage.
    rewrite last_item_app_cons.
    destruct (last_item (r :: page')) as [r'|]; [|discriminate].
    rewrite Hpage. now apply IH.
Qed.

Lemma page_urls_length (pages : list (list ChangeInfo)) :
  forall start, List.length (page_urls start pages) = List.length pages.
Proof. induction pages; intros; simpl; congruence. Qed.

Lemma page_urls_nth (pages : list (list ChangeInfo)) :
  forall (start : Z) (k : nat),
    (k < List.length pages)%nat ->
    nth_error (page_urls start pages) k
    = Some (urlpath self params
              (start + Z.of_nat (List.length (List.concat (firstn k pages))))).
Proof.
  induction pages as [|page pages IH]; intros start k Hk; simpl in Hk.
  - lia.
  - destruct k as [|k]; simpl.
    + now rewrite Z.add_0_r.
    + rewrite IH by lia.
      rewrite length_app, Nat2Z.inj_add. now rewrite Z.add_assoc.
Qed.

End Pagination.

Lemma urlpath_count (self : ReviewesFetcher) (params : string) (start : Z) :
  urlpath self params start
  = base_url self +:+ "/changes/" +:+ params
    +:+ "&n=100&start=" +:+ str_int start.
Proof. reflexivity. Qed.

(** ** The matcher finds exactly the words of the regex *)

Module ReFacts.
Import Re.

Definition all_chars (f : ascii -> bool) (w : string) : Prop :=
  forall c, In c (list_ascii_of_string w) -> f c = true.

Lemma all_chars_cons (f : ascii -> bool) (c : ascii) (w : string) :
  all_chars f (String c w) <-> f c = true /\ all_chars f w.
Proof.
  unfold all_chars; simpl; split.
  - intros H; split; [apply H; now left | intros x Hx; apply H; now right].
  - intros [Hc Hw] x [<-|Hx]; auto.
Qed.

Lemma all_chars_nil (f : ascii -> bool) : all_chars f EmptyString.
Proof. intros c []. Qed.

Lemma all_chars_app (f : ascii -> bool) (a b : string) :
  all_chars f (a +:+ b) <-> all_chars f a /\ all_chars f b.
Proof.
  induction a as [|c a IH]; simpl.
  - split; [intros H; split; [apply all_chars_nil | exact H] | tauto].
  - rewrite !all_chars_cons, IH. tauto.
Qed.

Lemma plus_class_in (f : ascii -> bool) (s rest : string) :
  In rest (plus_class f s) <->
  exists w, w <> EmptyString /\ all_chars f w /\ s = w +:+ rest.
Proof.
  revert rest; induction s as [|c s IH]; intros rest; simpl.
  - split; [tauto|]. intros (w & Hw & _ & E).
    destruct w; [congruence | discriminate].
  - destruct (f c) eqn:Hc.
    + rewrite in_app_iff, IH; simpl. split.
      * intros [(w & Hw & Hf & ->) | [<- | []]].
        -- exists (String c w). split; [discriminate|].
           split; [now apply all_chars_cons | reflexivity].
        -- exists (String c EmptyString). split; [discriminate|].
           split; [apply all_chars_cons; split; [exact Hc | apply all_chars_nil]
                  | reflexivity].
      * intros (w & Hw & Hf & E).
        destruct w as [|c' w]; [congruence|].
        simpl in E. injection E as <- ->.
        apply all_chars_cons in Hf. destruct Hf as [_ Hf].
        destruct w as [|c2 w]; [right; left; reflexivity|].
        left. exists (String c2 w). split; [discriminate | split; auto].
    + split; [intros []|]. intros (w & Hw & Hf & E).
      destruct w as [|c' w]; [congruence|].
      simpl in E. injection E as <- ->.
      apply all_chars_cons in Hf. destruct Hf as [Hf _]. congruence.
Qed.

Lemma run_sound (r : regex) :
  forall caps s caps' rest,
    In (caps', rest) (run r (caps, s)) ->
    exists w, s = w +:+ rest /\ lang r w.
Proof.
  induction r as [| c | c | f | r1 IH1 r2 IH2 | r1 IH1 r2 IH2 | r IH | f
                 | name r IH];
    intros caps s caps' rest H; simpl in H.
  - destruct H as [H|[]]. injection H as _ <-. now exists EmptyString.
  - destruct s as [|c' s]; [destruct H|].
    destruct (Ascii.eqb c c') eqn:E; [|destruct H].
    apply Ascii.eqb_eq in E. subst c'.
    destruct H as [H|[]]. injection H as _ <-.
    now exists (String c EmptyString).
  - destruct s as [|c' s]; [destruct H|].
    destruct (Ascii.eqb (lower c) (lower c')) eqn:E; [|destruct H].
    apply Ascii.eqb_eq in E.
    destruct H as [H|[]]. injection H as _ <-.
    exists (String c' EmptyString). split; [reflexivity|].
    simpl. eauto.
  - destruct s as [|c' s]; [destruct H|].
    destruct (f c') eqn:E; [|destruct H].
    destruct H as [H|[]]. injection H as _ <-.
    exists (String c' EmptyString). split; [reflexivity|].
    simpl. eauto.
  - apply in_flat_map in H. destruct H as ([caps1 s1] & H1 & H2).
    apply IH1 in H1. destruct H1 as (w1 & -> & L1).
    apply IH2 in H2. destruct H2 as (w2 & -> & L2).
    exists (w1 +:+ w2). split; [now rewrite append_assoc|].
    simpl. eauto.
  - apply in_app_iff in H. destruct H as [H|H].
    + apply IH1 in H. destruct H as (w & -> & L). exists w. simpl. auto.
    + apply IH2 in H. destruct H as (w & -> & L). exists w. simpl. auto.
  - apply in_app_iff in H. destruct H as [H|[H|[]]].
    + apply IH in H. destruct H as (w & -> & L). exists w. simpl. auto.
    + injection H as _ <-. exists EmptyString. simpl. auto.
  - apply in_map_iff in H. destruct H as (rest' & E & H).
    injection E as _ ->.
    apply plus_class_in in H. destruct H as (w & Hw & Hf & ->).
    exists w. simpl. auto.
  - apply in_map_iff in H. destruct H as ([caps1 s1] & E & H).
    simpl in E. injection E as _ ->.
    apply IH in H. destruct H as (w & -> & L). exists w. simpl. auto.
Qed.

Lemma run_complete (r : regex) :
  forall w, lang r w ->
  forall caps rest, exists caps', In (caps', rest) (run r (caps, w +:+ rest)).
Proof.
  induction r as [| c | c | f | r1 IH1 r2 IH2 | r1 IH1 r2 IH2 | r IH | f
                 | name r IH];
    intros w L caps rest; simpl in L.
  - subst w. exists caps. simpl. auto.
  - subst w. exists caps. simpl. rewrite Ascii.eqb_refl. simpl. auto.
  - destruct L as (c' & E & ->). exists caps. simpl.
    rewrite E, Ascii.eqb_refl. simpl. auto.
  - destruct L as (c' & E & ->). exists caps. simpl.
    rewrite E. simpl. auto.
  - destruct L as (w1 & w2 & -> & L1 & L2).
    destruct (IH1 w1 L1 caps (w2 +:+ rest)) as (caps1 & H1).
    destruct (IH2 w2 L2 caps1 rest) as (caps2 & H2).
    exists caps2. simpl. rewrite append_assoc.
    apply in_flat_map. exists (caps1, w2 +:+ rest). auto.
  - destruct L as [L|L].
    + destruct (IH1 w L caps rest) as (caps1 & H1).
      exists caps1. simpl. apply in_app_iff. auto.
    + destruct (IH2 w L caps rest) as (caps1 & H1).
      exists caps1. simpl. apply in_app_iff. auto.
  - destruct L as [L| ->].
    + destruct (IH w L caps rest) as (caps1 & H1).
      exists caps1. simpl. apply in_app_iff. auto.
    + exists caps. simpl. apply in_app_iff. right. simpl. auto.
  - destruct L as [Hw Hf]. exists caps. simpl.
    apply in_map_iff. exists rest. split; [reflexivity|].
    apply plus_class_in. exists w. auto.
  - destruct (IH w L caps rest) as (caps1 & H1).
    eexists. simpl. apply in_map_iff.
    exists (caps1, rest). split; [reflexivity | exact H1].
Qed.

(** [pattern.match(s)] succeeds exactly when [s] starts with a word of the
    pattern. *)
Lemma matches_iff (r : regex) (s : string) :
  matches r s = true <-> exists w rest, s = w +:+ rest /\ lang r w.
Proof.
  unfold matches, re_match. split.
  - destruct (run r _) as [|[caps rest] l] eqn:E; [discriminate|].
    intros _.
    destruct (run_sound r [] s caps rest) as (w & Hs & L).
    { rewrite E. now left. }
    eauto.
  - intros (w & rest & -> & L).
    destruct (run_complete r w L [] rest) as (caps' & H).
    destruct (run r _); [destruct H | reflexivity].
Qed.

Lemma lang_lits (s w : string) : lang (lits s) w <-> w = s.
Proof.
  revert w; induction s as [|c s IH]; intros w; simpl.
  - tauto.
  - split.
    + intros (w1 & w2 & -> & -> & L). apply IH in L. now subst.
    + intros ->. exists (String c EmptyString), s.
      repeat split. now apply IH.
Qed.

End ReFacts.

(** ** The grammar of a comment message, in the specification's words *)

Definition digits (s : string) : Prop :=
  s <> EmptyString /\ ReFacts.all_chars is_digit s.

(** A vote token [<label><sign><digits>]: the label is a non-empty run of
    characters other than the blank. *)
Definition vote_token (s : string) : Prop :=
  exists label sg ds,
    s = label +:+ String sg ds /\
    label <> EmptyString /\ ReFacts.all_chars not_blank label /\
    (sg = "+"%char \/ sg = "-"%char) /\
    digits ds.

(** A non-empty line: characters other than the line feed. *)
Definition nonempty_line (s : string) : Prop :=
  s <> EmptyString /\ ReFacts.all_chars not_newline s.

(** The header [Patch Set <digits>:], optionally a blank and one vote
    token, a blank line, and a non-empty line; anything may follow. *)
Definition comment_grammar (text : string) : Prop :=
  exists n vote line rest,
    text = "Patch Set " +:+ n +:+ ":" +:+ vote +:+ NL +:+ NL +:+ line +:+ rest /\
    digits n /\
    (vote = EmptyString \/ exists token, vote = " " +:+ token /\ vote_token token) /\
    nonempty_line line.

Lemma sign_iff (c : ascii) : sign c = true <-> c = "+"%char \/ c = "-"%char.
Proof.
  unfold sign. rewrite orb_true_iff, !Ascii.eqb_eq. tauto.
Qed.

Lemma message_re_lang (w : string) :
  Re.lang message_re w <->
  exists n vote line,
    w = "Patch Set " +:+ n +:+ ":" +:+ vote +:+ NL +:+ NL +:+ line /\
    digits n /\
    (vote = EmptyString \/ exists token, vote = " " +:+ token /\ vote_token token) /\
    nonempty_line line.
Proof.
  unfold message_re. cbn [Re.lang]. split.
  - intros (w1 & w2 & -> & L1 & n & w3 & -> & Hn & w4 & w5 & -> & -> &
            vote & w6 & -> & Hv & w7 & w8 & -> & -> & w9 & line & -> & -> & Hl).
    apply ReFacts.lang_lits in L1. subst w1.
    exists n, vote, line. split; [reflexivity|].
    split; [exact Hn|]. split; [|exact Hl].
    destruct Hv as [(b & w10 & -> & -> & label & w11 & -> & Hlabel & s1 & ds
                     & -> & (sg & Hsg & ->) & Hds) | ->].
    + right. exists (label +:+ String sg ds). split; [reflexivity|].
      exists label, sg, ds. split; [reflexivity|].
      destruct Hlabel as [Hl1 Hl2].
      apply sign_iff in Hsg. repeat split; tauto.
    + now left.
  - intros (n & vote & line & -> & Hn & Hv & Hl).
    exists "Patch Set "%string, (n +:+ ":" +:+ vote +:+ NL +:+ NL +:+ line).
    split; [reflexivity|]. split; [now apply ReFacts.lang_lits|].
    exists n, (":" +:+ vote +:+ NL +:+ NL +:+ line).
    split; [reflexivity|]. split; [exact Hn|].
    exists ":"%string, (vote +:+ NL +:+ NL +:+ line).
    split; [reflexivity|]. split; [reflexivity|].
    exists vote, (NL +:+ NL +:+ line).
    split; [reflexivity|]. split.
    + destruct Hv as [-> | (token & -> & label & sg & ds & -> & Hl1 & Hl2 & Hsg & Hds)].
      * now right.
      * left. exists " "%string, (label +:+ String sg ds).
        split; [reflexivity|]. split; [reflexivity|].
        exists label, (String sg ds). split; [reflexivity|].
        split; [split; assumption|].
        exists (String sg EmptyString), ds. split; [reflexivity|].
        split; [|exact Hds].
        exists sg. split; [now apply sign_iff | reflexivity].
    + exists NL, (NL +:+ line). split; [reflexivity|]. split; [reflexivity|].
      exists NL, line. split; [reflexivity|]. split; [reflexivity|exact Hl].
Qed.

(** The compiled pattern accepts exactly the texts of the grammar. *)
Lemma message_re_grammar (text : string) :
  Re.matches message_re text = true <-> comment_grammar text.
Proof.
  rewrite ReFacts.matches_iff. split.
  - intros (w & rest & -> & L). apply message_re_lang in L.
    destruct L as (n & vote & line & -> & Hn & Hv & Hl).
    exists n, vote, line, rest. split; [|auto].
    now rewrite !append_assoc.
  - intros (n & vote & line & rest & -> & Hn & Hv & Hl).
    exists ("Patch Set " +:+ n +:+ ":" +:+ vote +:+ NL +:+ NL +:+ line), rest.
    split; [now rewrite !append_assoc|].
    apply message_re_lang. exists n, vote, line. auto.
Qed.

(** ** Dictionaries *)

Lemma dict_get_set (k k' : string) (v : pyval) (d : pydict) :
  dict_get k (dict_set k' v d)
  = if String.eqb k k' then Some v else dict_get k d.
Proof.
  induction d as [|[k0 v0] d IH]; simpl.
  - reflexivity.
  - destruct (String.eqb k' k0) eqn:E0; simpl.
    + apply String.eqb_eq in E0. subst k0.
      destruct (String.eqb k k'); reflexivity.
    + rewrite IH. destruct (String.eqb k k0) eqn:E1; [|reflexivity].
      apply String.eqb_eq in E1. subst k0.
      now rewrite String.eqb_sym, E0.
Qed.

Lemma dict_getitem_ok (k : string) (d : pydict) (v : pyval) :
  dict_getitem k d = Ok v -> dict_get k d = Some v.
Proof. apply getitem_ok. Qed.

Arguments Datetime.strptime : simpl never.
Arguments Datetime.strftime : simpl never.
Arguments str_int : simpl never.
Arguments convert_date_for_db : simpl never.
Arguments Re.matches : simpl never.
Arguments String.append : simpl never.
Arguments split : simpl never.
Arguments join : simpl never.

Lemma status_map_cases (status state : string) :
  assoc status status_map = Some state ->
  (status = "NEW" /\ state = "OPEN")%string
  \/ (status = "MERGED" /\ state = "MERGED")%string
  \/ (status = "ABANDONED" /\ state = "CLOSED")%string.
Proof.
  unfold status_map, assoc.
  destruct (String.eqb_spec status "NEW");
    [intros [= <-]; auto|].
  destruct (String.eqb_spec status "MERGED");
    [intros [= <-]; auto|].
  destruct (String.eqb_spec status "ABANDONED");
    [intros [= <-]; auto|].
  discriminate.
Qed.

(** ** The loops only append *)

Ltac step_binds :=
  repeat match goal with
         | |- context [bind ?m _] =>
             destruct m; simpl; try reflexivity
         end.

Lemma created_event_acc (change : pydict) (objects : list pydict) :
  created_event change objects
  = l <- created_event change [] ;; Ok (objects ++ l).
Proof. unfold created_event. step_binds. Qed.

Lemma closed_event_acc (change : pydict) (objects : list pydict) :
  closed_event change objects
  = l <- closed_event change [] ;; Ok (objects ++ l).
Proof.
  unfold closed_event.
  destruct (dict_getitem "state" change) as [state|]; simpl; [|reflexivity].
  destruct (eq_str state "MERGED" || eq_str state "CLOSED"); simpl.
  - step_binds.
  - now rewrite app_nil_r.
Qed.

Lemma message_step_acc (change : pydict) (comment : ChangeMessageInfo)
    (objects : list pydict) :
  message_step change comment objects
  = l <- message_step change comment [] ;; Ok (objects ++ l).
Proof.
  unfold message_step.
  destruct (getitem "message" (msg_message comment)) as [message|]; simpl;
    [|reflexivity].
  destruct (startswith "Uploaded patch set " message).
  - step_binds.
  - destruct (Re.matches message_re message).
    + step_binds.
    + simpl. now rewrite app_nil_r.
Qed.

Lemma for_messages_acc (change : pydict) (messages : list ChangeMessageInfo) :
  forall objects,
    for_messages change messages objects
    = l <- for_messages change messages [] ;; Ok (objects ++ l).
Proof.
  induction messages as [|comment rest IH]; intros objects; simpl.
  - now rewrite app_nil_r.
  - rewrite (message_step_acc change comment objects).
    destruct (message_step change comment []) as [l|e]; simpl; [|reflexivity].
    rewrite (IH (objects ++ l)), (IH l).
    destruct (for_messages change rest []); simpl; [|reflexivity].
    now rewrite app_assoc.
Qed.

Lemma review_step_acc (change : pydict) (label : string)
    (_review : ApprovalInfo) (objects : list pydict) :
  review_step change label _review objects
  = l <- review_step change label _review [] ;; Ok (objects ++ l).
Proof.
  unfold review_step.
  destruct (vote_date _review), (vote_value _review); simpl;
    try (now rewrite app_nil_r).
  step_binds.
Qed.

Lemma for_reviews_acc (change : pydict) (label : string)
    (votes : list ApprovalInfo) :
  forall objects,
    for_reviews change label votes objects
    = l <- for_reviews change label votes [] ;; Ok (objects ++ l).
Proof.
  induction votes as [|vote rest IH]; intros objects; simpl.
  - now rewrite app_nil_r.
  - rewrite (review_step_acc change label vote objects).
    destruct (review_step change label vote []) as [l|e]; simpl; [|reflexivity].
    rewrite (IH (objects ++ l)), (IH l).
    destruct (for_reviews change label rest []); simpl; [|reflexivity].
    now rewrite app_assoc.
Qed.

Lemma for_labels_acc (change : pydict) (labels : list (string * LabelInfo))
    (keys : list string) :
  forall objects,
    for_labels change labels keys objects
    = l <- for_labels change labels keys [] ;; Ok (objects ++ l).
Proof.
  induction keys as [|label rest IH]; intros objects; simpl.
  - now rewrite app_nil_r.
  - destruct (getitem label (assoc label labels)) as [info|]; simpl;
      [|reflexivity].
    rewrite (for_reviews_acc change label _ objects).
    destruct (for_reviews change label _ []) as [l|e]; simpl; [|reflexivity].
    rewrite (IH (objects ++ l)), (IH l).
    destruct (for_labels change labels rest []); simpl; [|reflexivity].
    now rewrite app_assoc.
Qed.

(** What a loop appended is the concatenation, in order, of what each
    round appended. *)
Lemma for_messages_concat (change : pydict)
    (messages : list ChangeMessageInfo) :
  forall out,
    for_messages change messages [] = Ok out ->
    exists ls,
      Forall2 (fun m l => message_step change m [] = Ok l) messages ls /\
      out = List.concat ls.
Proof.
  induction messages as [|comment rest IH]; intros out H; simpl in H.
  - injection H as <-. exists []. split; [constructor | reflexivity].
  - inv_bind H. rewrite for_messages_acc in H. inv_bind H.
    injection H as <-.
    destruct (IH _ E0) as (ls & HF & ->).
    exists (x :: ls). split; [now constructor | reflexivity].
Qed.

Lemma for_reviews_concat (change : pydict) (label : string)
    (votes : list ApprovalInfo) :
  forall out,
    for_reviews change label votes [] = Ok out ->
    exists ls,
      Forall2 (fun v l => review_step change label v [] = Ok l) votes ls /\
      out = List.concat ls.
Proof.
  induction votes as [|vote rest IH]; intros out H; simpl in H.
  - injection H as <-. exists []. split; [constructor | reflexivity].
  - inv_bind H. rewrite for_reviews_acc in H. inv_bind H.
    injection H as <-.
    destruct (IH _ E0) as (ls & HF & ->).
    exists (x :: ls). split; [now constructor | reflexivity].
Qed.

(** The votes [review['labels'][label].get('all', [])] of a label. *)
Definition votes_of (labels : list (string * LabelInfo)) (label : string)
  : list ApprovalInfo :=
  match assoc label labels with
  | Some info => match label_all info with Some l => l | None => [] end
  | None => []
  end.

Lemma for_labels_concat (change : pydict) (labels : list (string * LabelInfo))
    (keys : list string) :
  forall out,
    for_labels change labels keys [] = Ok out ->
    exists ls,
      Forall2 (fun label l =>
                 for_reviews change label (votes_of labels label) [] = Ok l)
              keys ls /\
      out = List.concat ls.
Proof.
  induction keys as [|label rest IH]; intros out H; simpl in H.
  - injection H as <-. exists []. split; [constructor | reflexivity].
  - inv_bind H. apply getitem_ok in E.
    inv_bind H. rewrite for_labels_acc in H. inv_bind H.
    injection H as <-.
    destruct (IH _ E1) as (ls & HF & ->).
    exists (x0 :: ls). split; [|reflexivity].
    constructor; [|exact HF].
    unfold votes_of. now rewrite E.
Qed.

(** Runs the left-hand side of [H] as far as it goes. *)
Ltac exec H :=
  match type of H with
  | ?lhs = _ =>
      let r := eval cbn in lhs in
      let Heq := fresh in
      assert (Heq : lhs = r) by reflexivity;
      rewrite Heq in H; clear Heq
  end.

Lemma timedelta_ok (a b : string) (d : Z) :
  timedelta (VStr a) (VStr b) = Ok d ->
  exists da db,
    Datetime.strptime a "%Y-%m-%dT%H:%M:%SZ" = Ok da /\
    Datetime.strptime b "%Y-%m-%dT%H:%M:%SZ" = Ok db /\
    d = Datetime.diff_seconds da db.
Proof.
  unfold timedelta, strptime_val. intros H.
  apply bind_ok in H. destruct H as (da & Ha & H).
  apply bind_ok in H. destruct H as (db & Hb & H).
  injection H as <-. eauto.
Qed.

Section Anatomy.

Variable self : ReviewesFetcher.
Variable review : ChangeInfo.

(** The shape of a successful extraction. *)
Lemma extract_pr_objects_ok (objs : list pydict) :
  extract_pr_objects self review = Ok objs ->
  exists c0 change created closing messages msg_objs labels label_objs,
    change_display self review = Ok c0 /\
    close_change review c0 = Ok change /\
    created_event change [] = Ok created /\
    closed_event change [] = Ok closing /\
    r_messages review = Some messages /\
    for_messages change messages [] = Ok msg_objs /\
    r_labels review = Some labels /\
    for_labels change labels (map fst labels) [] = Ok label_objs /\
    objs = change :: created ++ closing ++ msg_objs ++ label_objs.
Proof.
  unfold extract_pr_objects. intros H.
  inv_bind H. inv_bind H.
  rewrite created_event_acc in H. inv_bind H. inv_bind E1.
  injection E1 as <-.
  rewrite closed_event_acc in H. inv_bind H. inv_bind E1.
  injection E1 as <-.
  inv_bind H. apply getitem_ok in E1.
  rewrite for_messages_acc in H. inv_bind H. inv_bind E4.
  injection E4 as <-.
  inv_bind H. apply getitem_ok in E4.
  rewrite for_labels_acc in H. inv_bind H. inv_bind E6.
  injection E6 as <-. injection H as <-.
  do 8 eexists. repeat (split; [eassumption|]).
  simpl. now rewrite <- !app_assoc.
Qed.

Definition iso_format : string := "%Y-%m-%dT%H:%M:%SZ".

(** The duration of a change: both dates parse and the field holds their
    difference in seconds. *)
Definition duration_of (change : pydict) (closed_at created_at : string)
  : Prop :=
  exists dc d0,
    Datetime.strptime closed_at iso_format = Ok dc /\
    Datetime.strptime created_at iso_format = Ok d0 /\
    dict_get "duration" change = Some (VInt (Datetime.diff_seconds dc d0)).

Lemma close_change_cases (c0 change : pydict) :
  change_display self review = Ok c0 ->
  close_change review c0 = Ok change ->
  exists id author status state updated_at created_at merged_at,
    r_id review = Some id /\
    r_status review = Some status /\
    assoc status status_map = Some state /\
    dict_get "type" change = Some (VStr "Change") /\
    dict_get "id" change = Some (VStr id) /\
    dict_get "author" change = Some (VStr author) /\
    dict_get "state" change = Some (VStr state) /\
    dict_get "updated_at" change = Some (VStr updated_at) /\
    dict_get "created_at" change = Some (VStr created_at) /\
    dict_get "merged_at" change = Some merged_at /\
    ((state = "OPEN"%string /\
      dict_get "closed_at" change = None /\
      dict_get "duration" change = None /\
      dict_get "merged_by" change = Some VNone)
     \/
     (state = "CLOSED"%string /\
      dict_get "closed_at" change = Some (VStr updated_at) /\
      duration_of change updated_at created_at /\
      dict_get "merged_by" change = Some VNone)
     \/
     (state = "MERGED"%string /\
      truthy_str (r_submitted review) = true /\
      exists merged, merged_at = VStr merged /\
      dict_get "closed_at" change = Some (VStr merged) /\
      duration_of change merged created_at /\
      match r_submitter review with
      | Some submitter =>
          exists by_, account_str submitter = Ok by_ /\
                      dict_get "merged_by" change = Some (VStr by_)
      | None => dict_get "merged_by" change = None
      end)).
Proof.
  unfold change_display. intros H H'.
  repeat inv_bind H.
  injection H as <-.
  repeat match goal with
         | E : getitem _ _ = Ok _ |- _ => apply getitem_ok in E
         end.
  clear E0 E1 E2 E3 E4 E6 E7 E9 E14 E15 E16 E17 E18 E19 E20 E21 E22 E23.
  exists x, x5, x12, x13, x8, x10, x11.
  do 3 (split; [assumption|]).
  destruct (status_map_cases _ _ E13) as [[-> ->]|[[-> ->]|[-> ->]]].
  - exec H'. injection H' as <-.
    repeat (split; [reflexivity|]). left.
    split; [reflexivity|]. split; [reflexivity|]. split; reflexivity.
  - assert (Hm : truthy_str (r_submitted review) = true /\
                 exists merged, x11 = VStr merged).
    { destruct (truthy_str (r_submitted review)).
      - destruct (r_submitted review); [|discriminate].
        inv_bind E11. injection E11 as <-. eauto.
      - injection E11 as <-. exec H'. discriminate. }
    destruct Hm as (Ht & merged & ->).
    exec H'.
    apply bind_ok in H'. destruct H' as (c1 & Hd & H').
    apply bind_ok in Hd. destruct Hd as (duration & Hd & Hc1).
    apply timedelta_ok in Hd. destruct Hd as (dc & d0 & Hdc & Hd0 & ->).
    injection Hc1 as <-. exec H'.
    destruct (r_submitter review) as [submitter|].
    + apply bind_ok in H'. destruct H' as (by_ & Hby & H').
      injection H' as <-.
      repeat (split; [reflexivity|]). right. right.
      split; [reflexivity|]. split; [exact Ht|].
      exists merged. split; [reflexivity|]. split; [reflexivity|].
      split; [|exists by_; split; [assumption | reflexivity]].
      exists dc, d0. split; [assumption|]. split; [assumption | reflexivity].
    + injection H' as <-.
      repeat (split; [reflexivity|]). right. right.
      split; [reflexivity|]. split; [exact Ht|].
      exists merged. split; [reflexivity|]. split; [reflexivity|].
      split; [|reflexivity].
      exists dc, d0. split; [assumption|]. split; [assumption | reflexivity].
  - exec H'.
    apply bind_ok in H'. destruct H' as (c1 & Hd & H').
    apply bind_ok in Hd. destruct Hd as (duration & Hd & Hc1).
    apply timedelta_ok in Hd. destruct Hd as (dc & d0 & Hdc & Hd0 & ->).
    injection Hc1 as <-. exec H'.
    injection H' as <-.
    repeat (split; [reflexivity|]). right. left.
    split; [reflexivity|]. split; [reflexivity|].
    split; [|reflexivity].
    exists dc, d0. split; [assumption|]. split; [assumption | reflexivity].
Qed.

End Anatomy.

(** * The claims *)

(** ** C3 *)

Definition more_record : ChangeInfo :=
  mkChange (Some "a"%string) (Some 1) None None None None None None None None
    None None None None None None None None (Some true).

Definition last_record : ChangeInfo :=
  mkChange (Some "b"%string) (Some 2) None None None None None None None None
    None None None None None None None None None.

(** C3. When the collaborator serves the pages [pre], each ending in a
    record with a true [_more_changes], and then a page [last] that is empty
    or ends in a record without it, [get] returns the concatenation of
    [pre] and [last] in order and makes one request per page, whatever the
    collaborator could still serve ([extra]); the [k]-th request asks for
    [n=100] and for [start] = the number of records of the first [k]
    pages. *)
Theorem get_concatenates_pages
    (self : ReviewesFetcher) (since q : string)
    (pre : list (list ChangeInfo)) (last : list ChangeInfo)
    (extra : list (list ChangeInfo)) :
  convert_date_for_query since = Ok q ->
  Forall (fun page => more_pages page = true) pre ->
  more_pages last = false ->
  exists queries,
    get self (pre ++ last :: extra) since
    = (Ok (List.concat (pre ++ [last])), queries) /\
    List.length queries = S (List.length pre) /\
    forall k, (k <= List.length pre)%nat ->
      nth_error queries k
      = Some (base_url self +:+ "/changes/" +:+ request_params self q
              +:+ "&n=100&start="
              +:+ str_int (Z.of_nat (List.length (List.concat (firstn k pre))))).
Proof.
  intros Hq Hpre Hlast.
  exists (page_urls self (request_params self q) 0 (pre ++ [last])).
  split; [|split].
  - unfold get. rewrite Hq.
    exact (get_loop_spec self (request_params self q) pre last extra [] []
             Hpre Hlast).
  - rewrite page_urls_length, length_app. simpl. lia.
  - intros k Hk.
    rewrite page_urls_nth by (rewrite length_app; simpl; lia).
    rewrite firstn_app.
    replace (k - List.length pre)%nat with 0%nat by lia.
    simpl firstn. rewrite app_nil_r.
    rewrite urlpath_count. reflexivity.
Qed.

Lemma get_concatenates_pages_witness :
  exists queries,
    get rf ([more_record; more_record] :: [last_record] :: [[more_record]])
      "2020-04-08T00:00:00Z"
    = (Ok [more_record; more_record; last_record], queries) /\
    List.length queries = 2%nat.
Proof.
  destruct (get_concatenates_pages rf "2020-04-08T00:00:00Z" "2020-04-08"
              [[more_record; more_record]] [last_record] [[more_record]])
    as (queries & Hget & Hlen & _).
  - vm_compute. reflexivity.
  - repeat constructor.
  - reflexivity.
  - exists queries. split; [exact Hget | exact Hlen].
Defined.

(** ** Events *)

Definition event_keys : list string :=
  ["type"; "id"; "created_at"; "author"; "approval"]%string.

(** [insert_change_attributes] leaves the event's own fields alone. *)
Lemma insert_change_attributes_keeps (obj change obj' : pydict) (k : string) :
  insert_change_attributes obj change = Ok obj' ->
  In k event_keys ->
  dict_get k obj' = dict_get k obj.
Proof.
  unfold insert_change_attributes. intros H Hk.
  repeat inv_bind H. injection H as <-.
  unfold dict_update. cbn [fold_left fst snd].
  unfold event_keys in Hk. cbn [In] in Hk.
  rewrite !dict_get_set.
  repeat (destruct Hk as [<-|Hk]; [reflexivity|]).
  destruct Hk.
Qed.

Lemma message_event_fields (type : string) (comment : ChangeMessageInfo)
    (change obj : pydict) :
  message_event type comment change = Ok obj ->
  exists id date created account author,
    msg_id comment = Some id /\
    msg_date comment = Some date /\
    convert_date_for_db date = Ok created /\
    msg_author comment = Some account /\
    account_str account = Ok author /\
    dict_get "type" obj = Some (VStr type) /\
    dict_get "id" obj = Some (VStr id) /\
    dict_get "created_at" obj = Some (VStr created) /\
    dict_get "author" obj = Some (VStr author).
Proof.
  unfold message_event. intros H.
  apply bind_ok in H. destruct H as (id & Hid & H).
  apply bind_ok in H. destruct H as (date & Hdate & H).
  apply bind_ok in H. destruct H as (created & Hcreated & H).
  apply bind_ok in H. destruct H as (account & Haccount & H).
  apply bind_ok in H. destruct H as (author & Hauthor & H).
  apply getitem_ok in Hid, Hdate, Haccount.
  exists id, date, created, account, author.
  repeat (split; [assumption|]).
  repeat split;
    (rewrite (insert_change_attributes_keeps _ _ _ _ H);
     [reflexivity | unfold event_keys; simpl; tauto]).
Qed.

Lemma app_one_neq {A} (l : list A) (a : A) : l ++ [a] <> l.
Proof.
  intros H. apply (f_equal (@List.length A)) in H.
  rewrite length_app in H. simpl in H. lia.
Qed.

(** ** Sample messages and votes *)

Definition push_message : ChangeMessageInfo :=
  mkMessage (Some "m1"%string) (Some "Uploaded patch set 2."%string)
    (Some "2020-04-08 11:15:31.000000000"%string) (Some alice).

Definition sample_attributes : pydict :=
  [("repository_prefix", VStr "zuul");
   ("repository_fullname", VStr "zuul/zuul");
   ("repository_shortname", VStr "zuul");
   ("number", VInt 42);
   ("repository_fullname_and_number", VStr "zuul/zuul#42");
   ("author", VStr "Alice/7");
   ("created_at", VStr "2020-04-08T10:15:30Z")]%string.

(** One round of the message loop on a text that starts with
    ["Uploaded patch set "]. *)
Lemma message_step_upload
    (change : pydict) (comment : ChangeMessageInfo) (text : string)
    (objects out : list pydict) :
  msg_message comment = Some text ->
  startswith "Uploaded patch set " text = true ->
  message_step change comment objects = Ok out ->
  exists obj id date created account author,
    out = objects ++ [obj] /\
    dict_get "type" obj = Some (VStr "ChangeCommitPushedEvent") /\
    msg_id comment = Some id /\
    dict_get "id" obj = Some (VStr id) /\
    msg_date comment = Some date /\
    convert_date_for_db date = Ok created /\
    dict_get "created_at" obj = Some (VStr created) /\
    msg_author comment = Some account /\
    account_str account = Ok author /\
    dict_get "author" obj = Some (VStr author).
Proof.
  intros Hm Hp H. unfold message_step in H.
  rewrite Hm in H. simpl getitem in H.
  apply bind_ok in H. destruct H as (message & Hmsg & H).
  injection Hmsg as <-. rewrite Hp in H.
  apply bind_ok in H. destruct H as (obj & Hobj & H).
  injection H as <-.
  destruct (message_event_fields _ _ _ _ Hobj)
    as (id & date & created & account & author & H1 & H2 & H3 & H4 & H5
        & H6 & H7 & H8 & H9).
  exists obj, id, date, created, account, author. tauto.
Qed.

Definition vote_with_body : string :=
  "Patch Set 3: Code-Review+2" +:+ NL +:+ NL +:+ "Looks good".

Definition vote_only : string := "Patch Set 3: Code-Review+2".

Definition comment_message (text : string) : ChangeMessageInfo :=
  mkMessage (Some "m2"%string) (Some text)
    (Some "2020-04-08 11:15:31.000000000"%string) (Some alice).

Lemma message_step_comment
    (change : pydict) (comment : ChangeMessageInfo) (text : string)
    (objects out : list pydict) :
  msg_message comment = Some text ->
  startswith "Uploaded patch set " text = false ->
  message_step change comment objects = Ok out ->
  (comment_grammar text <->
   exists obj, out = objects ++ [obj] /\
               dict_get "type" obj = Some (VStr "ChangeCommentedEvent")) /\
  (~ comment_grammar text -> out = objects).
Proof.
  intros Hm Hp H. unfold message_step in H.
  rewrite Hm in H. simpl getitem in H.
  apply bind_ok in H. destruct H as (message & Hmsg & H).
  injection Hmsg as <-. rewrite Hp in H.
  rewrite <- message_re_grammar.
  destruct (Re.matches message_re text).
  - apply bind_ok in H. destruct H as (obj & Hobj & H).
    injection H as <-.
    destruct (message_event_fields _ _ _ _ Hobj)
      as (id & date & created & account & author & _ & _ & _ & _ & _
          & Ht & _).
    split; [|intros Hn; now elim Hn].
    split; [intros _; eauto | reflexivity].
  - injection H as <-.
    split; [|reflexivity].
    split; [discriminate|].
    intros (obj & Hout & _). symmetry in Hout.
    now apply app_one_neq in Hout.
Qed.

(** ** The approval string *)

Lemma pos_to_uint_not_nil (p : positive) : Pos.to_uint p <> Decimal.Nil.
Proof.
  intros H.
  pose proof (DecimalPos.Unsigned.of_to p) as E.
  rewrite H in E. discriminate.
Qed.

(** [str(n)] starts with ["-"] exactly for the negative integers. *)
Lemma str_int_minus (z : Z) : startswith "-" (str_int z) = (z <? 0).
Proof.
  unfold str_int. destruct z as [|p|p].
  - reflexivity.
  - simpl Z.to_int. unfold NilZero.string_of_int, NilZero.string_of_uint.
    pose proof (pos_to_uint_not_nil p) as Hp.
    destruct (Pos.to_uint p) eqn:E; try (now elim Hp); reflexivity.
  - simpl Z.to_int. unfold NilZero.string_of_int.
    unfold startswith. simpl.
    destruct (NilZero.string_of_uint (Pos.to_uint p)); reflexivity.
Qed.

Lemma str_int_neg (z : Z) : z < 0 -> str_int z = "-" +:+ str_int (- z).
Proof.
  destruct z as [|p|p]; try lia. intros _.
  unfold str_int. simpl.
  unfold NilZero.string_of_int, NilZero.string_of_uint.
  pose proof (pos_to_uint_not_nil p) as Hp.
  destruct (Pos.to_uint p); try (now elim Hp); reflexivity.
Qed.

Lemma approval_sign (label : string) (value : Z) :
  approval label value
  = label +:+ (if value <? 0 then "" else "+") +:+ str_int value.
Proof.
  unfold approval. rewrite str_int_minus.
  destruct (value <? 0); reflexivity.
Qed.

Definition cast_vote : ApprovalInfo :=
  mkApproval None (Some 7) (Some (-1))
    (Some "2020-04-08 11:15:31.000000000"%string).

Definition uncast_vote : ApprovalInfo :=
  mkApproval None (Some 7) (Some 1) None.

Lemma review_step_cases
    (change : pydict) (label : string) (_review : ApprovalInfo)
    (objects out : list pydict) :
  review_step change label _review objects = Ok out ->
  match vote_date _review, vote_value _review with
  | Some date, Some value =>
      exists obj created account,
        out = objects ++ [obj] /\
        convert_date_for_db date = Ok created /\
        vote_account_id _review = Some account /\
        dict_get "type" obj = Some (VStr "ChangeReviewedEvent") /\
        dict_get "id" obj
        = Some (VStr (created +:+ "_" +:+ label +:+ "_" +:+ str_int value
                      +:+ "_" +:+ str_int account)) /\
        dict_get "created_at" obj = Some (VStr created) /\
        dict_get "author" obj
        = Some (VStr (str_opt (vote_name _review) +:+ "/" +:+ str_int account)) /\
        dict_get "approval" obj = Some (VStr (approval label value))
  | _, _ => out = objects
  end.
Proof.
  unfold review_step. intros H.
  destruct (vote_date _review) as [date|];
    [|injection H as <-; reflexivity].
  destruct (vote_value _review) as [value|];
    [|injection H as <-; reflexivity].
  apply bind_ok in H. destruct H as (created & Hc & H).
  apply bind_ok in H. destruct H as (account & Ha & H).
  apply bind_ok in H. destruct H as (created' & Hc' & H).
  apply bind_ok in H. destruct H as (account' & Ha' & H).
  apply bind_ok in H. destruct H as (obj & Hobj & H).
  injection H as <-.
  rewrite Hc in Hc'. injection Hc' as <-.
  rewrite Ha in Ha'. injection Ha' as <-.
  apply getitem_ok in Ha.
  exists obj, created, account.
  repeat (split; [first [reflexivity | assumption]|]).
  repeat split;
    (rewrite (insert_change_attributes_keeps _ _ _ _ Hobj);
     [reflexivity | unfold event_keys; simpl; tauto]).
Qed.

(** ** The created and the closing event *)

Lemma str_add_ok (s : string) (v : pyval) (r : string) :
  str_add s v = Ok r -> exists s', v = VStr s' /\ r = s +:+ s'.
Proof.
  destruct v; simpl; try discriminate. intros [= <-]. eauto.
Qed.

Lemma created_event_fields (change : pydict) (out : list pydict) :
  created_event change [] = Ok out ->
  exists obj id,
    out = [obj] /\
    dict_get "id" change = Some (VStr id) /\
    dict_get "type" obj = Some (VStr "ChangeCreatedEvent") /\
    dict_get "id" obj = Some (VStr ("CCE" +:+ id)) /\
    dict_get "created_at" obj = dict_get "created_at" change /\
    dict_get "author" obj = dict_get "author" change.
Proof.
  unfold created_event. intros H.
  apply bind_ok in H. destruct H as (v & Hv & H).
  apply bind_ok in H. destruct H as (id' & Hid & H).
  apply bind_ok in H. destruct H as (created_at & Hc & H).
  apply bind_ok in H. destruct H as (author & Ha & H).
  apply bind_ok in H. destruct H as (obj & Hobj & H).
  injection H as <-.
  apply dict_getitem_ok in Hv, Hc, Ha.
  apply str_add_ok in Hid. destruct Hid as (id & -> & ->).
  exists obj, id. split; [reflexivity|]. split; [assumption|].
  rewrite Hc, Ha.
  repeat split;
    (rewrite (insert_change_attributes_keeps _ _ _ _ Hobj);
     [reflexivity | unfold event_keys; simpl; tauto]).
Qed.

Lemma closed_event_fields (change : pydict) (out : list pydict) :
  closed_event change [] = Ok out ->
  exists state,
    dict_get "state" change = Some state /\
    if eq_str state "MERGED" || eq_str state "CLOSED" then
      exists obj id closed_at,
        out = [obj] /\
        dict_get "id" change = Some (VStr id) /\
        dict_get "closed_at" change = Some closed_at /\
        dict_get "type" obj
        = Some (VStr (if eq_str state "MERGED" then "ChangeMergedEvent"
                      else "ChangeAbandonedEvent")) /\
        dict_get "id" obj = Some (VStr ("CCLE" +:+ id)) /\
        dict_get "created_at" obj = Some closed_at /\
        dict_get "author" obj = Some (dict_get_default "merged_by" change)
    else out = [].
Proof.
  unfold closed_event. intros H.
  apply bind_ok in H. destruct H as (state & Hs & H).
  exists state. split; [now apply dict_getitem_ok|].
  destruct (eq_str state "MERGED" || eq_str state "CLOSED").
  - apply bind_ok in H. destruct H as (state' & Hs' & H).
    rewrite Hs in Hs'. injection Hs' as <-.
    apply bind_ok in H. destruct H as (v & Hv & H).
    apply bind_ok in H. destruct H as (id' & Hid & H).
    apply bind_ok in H. destruct H as (closed_at & Hc & H).
    apply bind_ok in H. destruct H as (obj & Hobj & H).
    injection H as <-.
    apply dict_getitem_ok in Hv, Hc.
    apply str_add_ok in Hid. destruct Hid as (id & -> & ->).
    exists obj, id, closed_at.
    split; [reflexivity|]. split; [assumption|]. split; [assumption|].
    repeat split;
      (rewrite (insert_change_attributes_keeps _ _ _ _ Hobj);
       [reflexivity | unfold event_keys; simpl; tauto]).
  - injection H as <-. reflexivity.
Qed.

Lemma assoc_in {A} (key : string) (d : list (string * A)) (v : A) :
  assoc key d = Some v -> In (key, v) d.
Proof.
  induction d as [|[k x] d IH]; simpl; [discriminate|].
  destruct (String.eqb_spec key k).
  - intros [= ->]. subst. now left.
  - intros H. right. now apply IH.
Qed.

(** A message that qualifies for no event. *)
Definition silent_message (m : ChangeMessageInfo) : Prop :=
  forall text, msg_message m = Some text ->
    startswith "Uploaded patch set " text = false /\ ~ comment_grammar text.

(** A voter entry that is no cast vote. *)
Definition silent_vote (v : ApprovalInfo) : Prop :=
  vote_date v = None \/ vote_value v = None.

Lemma silent_messages_nothing (change : pydict)
    (messages : list ChangeMessageInfo) (ls : list (list pydict)) :
  Forall silent_message messages ->
  Forall2 (fun m l => message_step change m [] = Ok l) messages ls ->
  List.concat ls = [].
Proof.
  intros Hs HF. induction HF as [|m l ms ls Hm HF IH]; [reflexivity|].
  inversion Hs as [|? ? Hsm Hs']; subst. simpl.
  rewrite (IH Hs'), app_nil_r.
  pose proof Hm as Hm'. unfold message_step in Hm'.
  apply bind_ok in Hm'. destruct Hm' as (text & Ht & _).
  apply getitem_ok in Ht.
  destruct (Hsm text Ht) as [Hp Hg].
  now apply (message_step_comment change m text [] l Ht Hp Hm).
Qed.

Lemma silent_votes_nothing (change : pydict) (label : string)
    (votes : list ApprovalInfo) :
  forall out,
    Forall silent_vote votes ->
    for_reviews change label votes [] = Ok out ->
    out = [].
Proof.
  intros out Hs H. apply for_reviews_concat in H.
  destruct H as (ls & HF & ->).
  induction HF as [|v l vs ls Hv HF IH]; [reflexivity|].
  inversion Hs as [|? ? Hsv Hs']; subst. simpl.
  rewrite (IH Hs'), app_nil_r.
  apply review_step_cases in Hv.
  destruct Hsv as [E|E]; rewrite E in Hv.
  - exact Hv.
  - destruct (vote_date v); exact Hv.
Qed.

Lemma silent_labels_nothing (change : pydict)
    (labels : list (string * LabelInfo)) (keys : list string)
    (ls : list (list pydict)) :
  (forall label, In label keys -> Forall silent_vote (votes_of labels label)) ->
  Forall2 (fun label l =>
             for_reviews change label (votes_of labels label) [] = Ok l)
          keys ls ->
  List.concat ls = [].
Proof.
  intros Hs HF. induction HF as [|k l ks ls Hk HF IH]; [reflexivity|].
  simpl. rewrite IH by (intros; apply Hs; now right).
  rewrite app_nil_r.
  apply (silent_votes_nothing change k (votes_of labels k)); [|exact Hk].
  apply Hs. now left.
Qed.

(** ** C7 *)

Definition silent_labels (labels : list (string * LabelInfo)) : Prop :=
  forall label info vote,
    In (label, info) labels ->
    In vote (match label_all info with Some l => l | None => [] end) ->
    silent_vote vote.

Lemma silent_labels_votes (labels : list (string * LabelInfo)) (label : string) :
  silent_labels labels -> Forall silent_vote (votes_of labels label).
Proof.
  intros Hs. unfold votes_of.
  destruct (assoc label labels) as [info|] eqn:E; [|constructor].
  apply assoc_in in E. apply Forall_forall. intros vote Hv.
  exact (Hs label info vote E Hv).
Qed.

(** C7. A successful extraction returns, in this order: the Change
    record; a [ChangeCreatedEvent] with [id] = ["CCE"] + the change's id and
    the change's [created_at] and [author]; one closing event when the
    state is MERGED ([ChangeMergedEvent]) or CLOSED
    ([ChangeAbandonedEvent]) and none when it is OPEN; what the messages
    appended, message by message in their order; what the labels appended,
    label by label.  For status [NEW] with no message and no vote that
    qualifies, the result is the Change, in state OPEN, and the created
    event. *)
Theorem extraction_order (self : ReviewesFetcher) (review : ChangeInfo)
    (objs : list pydict) :
  extract_pr_objects self review = Ok objs ->
  exists change created closing messages msg_lists labels label_lists id state,
    objs = change :: created :: closing
           ++ List.concat msg_lists ++ List.concat label_lists /\
    dict_get "type" change = Some (VStr "Change") /\
    dict_get "id" change = Some (VStr id) /\
    dict_get "state" change = Some (VStr state) /\
    dict_get "type" created = Some (VStr "ChangeCreatedEvent") /\
    dict_get "id" created = Some (VStr ("CCE" +:+ id)) /\
    dict_get "created_at" created = dict_get "created_at" change /\
    dict_get "author" created = dict_get "author" change /\
    ((state = "OPEN"%string /\ closing = [])
     \/ (state = "MERGED"%string /\
         exists obj, closing = [obj] /\
                     dict_get "type" obj = Some (VStr "ChangeMergedEvent"))
     \/ (state = "CLOSED"%string /\
         exists obj, closing = [obj] /\
                     dict_get "type" obj = Some (VStr "ChangeAbandonedEvent"))) /\
    r_messages review = Some messages /\
    Forall2 (fun m l => message_step change m [] = Ok l) messages msg_lists /\
    r_labels review = Some labels /\
    Forall2 (fun label l =>
               for_reviews change label (votes_of labels label) [] = Ok l)
            (map fst labels) label_lists /\
    (r_status review = Some "NEW"%string ->
     Forall silent_message messages ->
     silent_labels labels ->
     objs = [change; created] /\ state = "OPEN"%string).
Proof.
  intros H.
  destruct (extract_pr_objects_ok self review objs H)
    as (c0 & change & created & closing & messages & msg_objs & labels
        & label_objs & Hd & Hc & Hcr & Hcl & Hm & Hfm & Hl & Hfl & ->).
  destruct (close_change_cases self review c0 change Hd Hc)
    as (id & author & status & state & updated_at & created_at & merged_at
        & Hid & Hstatus & Hmap & Htype & Hcid & Hauthor & Hstate & _ & _ & _
        & Hcases).
  destruct (created_event_fields change created Hcr)
    as (cobj & id' & -> & Hid' & Hct & Hci & Hcc & Hca).
  rewrite Hcid in Hid'. injection Hid' as <-.
  destruct (closed_event_fields change closing Hcl) as (st & Hst & Hclosing).
  rewrite Hstate in Hst. injection Hst as <-.
  destruct (for_messages_concat change messages msg_objs Hfm)
    as (msg_lists & HFm & ->).
  destruct (for_labels_concat change labels (map fst labels) label_objs Hfl)
    as (label_lists & HFl & ->).
  assert (Hclose :
    (state = "OPEN"%string /\ closing = [])
    \/ (state = "MERGED"%string /\
        exists obj, closing = [obj] /\
                    dict_get "type" obj = Some (VStr "ChangeMergedEvent"))
    \/ (state = "CLOSED"%string /\
        exists obj, closing = [obj] /\
                    dict_get "type" obj = Some (VStr "ChangeAbandonedEvent"))).
  { destruct (status_map_cases _ _ Hmap) as [[_ ->]|[[_ ->]|[_ ->]]];
      simpl in Hclosing.
    - left. auto.
    - right. left. split; [reflexivity|].
      destruct Hclosing as (obj & ? & ? & -> & _ & _ & Ht & _). eauto.
    - right. right. split; [reflexivity|].
      destruct Hclosing as (obj & ? & ? & -> & _ & _ & Ht & _). eauto. }
  exists change, cobj, closing, messages, msg_lists, labels, label_lists,
         id, state.
  split; [reflexivity|].
  do 7 (split; [assumption|]).
  split; [exact Hclose|].
  do 4 (split; [assumption|]).
  intros Hnew Hsm Hsl.
  rewrite Hstatus in Hnew. injection Hnew as ->.
  destruct (status_map_cases _ _ Hmap) as [[_ ->]|[[E _]|[E _]]];
    try discriminate.
  destruct Hclose as [[_ ->]|[[E _]|[E _]]]; try discriminate.
  rewrite (silent_messages_nothing change messages msg_lists Hsm HFm).
  rewrite (silent_labels_nothing change labels (map fst labels) label_lists);
    [auto | | exact HFl].
  intros label _. now apply silent_labels_votes.
Qed.

Lemma extraction_order_witness :
  exists change created,
    extract_pr_objects rf (sample_change "NEW" None None [] [])
    = Ok [change; created] /\
    dict_get "state" change = Some (VStr "OPEN") /\
    dict_get "type" created = Some (VStr "ChangeCreatedEvent").
Proof.
  destruct (extract_pr_objects rf (sample_change "NEW" None None [] []))
    as [objs|e] eqn:E; [|vm_compute in E; discriminate].
  destruct (extraction_order rf _ objs E)
    as (change & created & closing & messages & msg_lists & labels
        & label_lists & id & state & _ & _ & _ & Hstate & Ht & _ & _ & _ & _
        & Hm & _ & Hl & _ & Hnew).
  injection Hm as <-. injection Hl as <-.
  destruct Hnew as [-> ->].
  - reflexivity.
  - constructor.
  - intros label info vote [].
  - exists change, created. auto.
Defined.

(** ** C4 *)

Lemma diff_seconds_timestamp (a b : Datetime.datetime) :
  Datetime.diff_seconds a b = Datetime.timestamp a - Datetime.timestamp b.
Proof. unfold Datetime.diff_seconds, Datetime.timestamp. ring. Qed.

Lemma has_key_iff (k : string) (d : pydict) :
  has_key k d = true <-> exists v, dict_get k d = Some v.
Proof.
  unfold has_key. destruct (dict_get k d).
  - split; eauto.
  - split; [discriminate | intros (v & Hv); discriminate].
Qed.

Definition merged_change : ChangeInfo :=
  sample_change "MERGED" (Some "2020-04-08 11:15:31.000000000"%string)
    (Some alice) [] [].

(** C4. The Change record of a successful extraction has a [closed_at]
    exactly when its state is MERGED or CLOSED; the [closed_at] is the
    [merged_at] when MERGED and the [updated_at] when CLOSED; it has a
    [duration] exactly in those two states, and the duration is the
    [closed_at] minus the [created_at], in seconds. *)
Theorem closed_at_and_duration (self : ReviewesFetcher) (review : ChangeInfo)
    (objs : list pydict) :
  extract_pr_objects self review = Ok objs ->
  exists change rest state created_at,
    objs = change :: rest /\
    dict_get "type" change = Some (VStr "Change") /\
    dict_get "state" change = Some (VStr state) /\
    dict_get "created_at" change = Some (VStr created_at) /\
    (has_key "closed_at" change = true
     <-> state = "MERGED"%string \/ state = "CLOSED"%string) /\
    (state = "MERGED"%string ->
     dict_get "closed_at" change = dict_get "merged_at" change) /\
    (state = "CLOSED"%string ->
     dict_get "closed_at" change = dict_get "updated_at" change) /\
    (has_key "duration" change = true
     <-> state = "MERGED"%string \/ state = "CLOSED"%string) /\
    (state = "MERGED"%string \/ state = "CLOSED"%string ->
     exists closed_at closed created,
       dict_get "closed_at" change = Some (VStr closed_at) /\
       Datetime.strptime closed_at iso_format = Ok closed /\
       Datetime.strptime created_at iso_format = Ok created /\
       dict_get "duration" change
       = Some (VInt (Datetime.timestamp closed - Datetime.timestamp created))).
Proof.
  intros H.
  destruct (extract_pr_objects_ok self review objs H)
    as (c0 & change & created & closing & messages & msg_objs & labels
        & label_objs & Hd & Hc & _ & _ & _ & _ & _ & _ & ->).
  destruct (close_change_cases self review c0 change Hd Hc)
    as (id & author & status & state & updated_at & created_at & merged_at
        & _ & _ & _ & Htype & _ & _ & Hstate & Hupd & Hcre & Hmer & Hcases).
  exists change, (created ++ closing ++ msg_objs ++ label_objs), state,
         created_at.
  do 4 (split; [first [reflexivity | assumption]|]).
  destruct Hcases as [(-> & Hcl & Hdu & _)
                     |[(-> & Hcl & (dc & d0 & Hdc & Hd0 & Hdu) & _)
                      |(-> & _ & merged & -> & Hcl
                        & (dc & d0 & Hdc & Hd0 & Hdu) & _)]].
  - split; [|split; [|split; [|split]]].
    + rewrite has_key_iff, Hcl.
      split; [intros (v & Hv); discriminate | intros [E|E]; discriminate].
    + discriminate.
    + discriminate.
    + rewrite has_key_iff, Hdu.
      split; [intros (v & Hv); discriminate | intros [E|E]; discriminate].
    + intros [E|E]; discriminate.
  - split; [|split; [|split; [|split]]].
    + rewrite has_key_iff, Hcl. split; eauto.
    + discriminate.
    + intros _. now rewrite Hcl, Hupd.
    + rewrite has_key_iff, Hdu. split; eauto.
    + intros _. exists updated_at, dc, d0.
      rewrite <- diff_seconds_timestamp. auto.
  - split; [|split; [|split; [|split]]].
    + rewrite has_key_iff, Hcl. split; eauto.
    + intros _. now rewrite Hcl, Hmer.
    + discriminate.
    + rewrite has_key_iff, Hdu. split; eauto.
    + intros _. exists merged, dc, d0.
      rewrite <- diff_seconds_timestamp. auto.
Qed.

Lemma closed_at_and_duration_witness :
  exists change rest,
    extract_pr_objects rf merged_change = Ok (change :: rest) /\
    dict_get "closed_at" change = dict_get "merged_at" change /\
    has_key "duration" change = true.
Proof.
  destruct (extract_pr_objects rf merged_change) as [objs|e] eqn:E;
    [|vm_compute in E; discriminate].
  destruct (closed_at_and_duration rf _ objs E)
    as (change & rest & state & created_at & -> & _ & Hstate & _ & _ & Hm & _
        & Hdur & _).
  assert (Hs : state = "MERGED"%string).
  { vm_compute in E. injection E as <- _.
    vm_compute in Hstate. now injection Hstate as <-. }
  exists change, rest. split; [reflexivity|].
  split; [now apply Hm | apply Hdur; now left].
Defined.

(** ** C5 *)

Definition merged_no_submitter : ChangeInfo :=
  sample_change "MERGED" (Some "2020-04-08 11:15:31.000000000"%string)
    None [] [].

(** C5, as stated, fails: the Change record of a merged change whose raw
    record has no [submitter] has no [merged_by] key at all. *)
Lemma merged_by_key_missing :
  ~ (forall (self : ReviewesFetcher) (review : ChangeInfo)
            (change : pydict) (rest : list pydict),
        extract_pr_objects self review = Ok (change :: rest) ->
        exists v, dict_get "merged_by" change = Some v /\
                  (v = VNone \/ exists s, v = VStr s)).
Proof.
  intros H.
  destruct (extract_pr_objects rf merged_no_submitter) as [objs|e] eqn:E;
    [|vm_compute in E; discriminate].
  destruct objs as [|change rest]; [vm_compute in E; discriminate|].
  destruct (H rf merged_no_submitter change rest E) as (v & Hv & _).
  vm_compute in E. injection E as <- _.
  vm_compute in Hv. discriminate.
Qed.

(** C5, amended. The Change record of a successful extraction has
    [merged_by] = [None] when its state is not MERGED; when the state is
    MERGED and the raw record has a [submitter], [merged_by] is the
    submitter's attribution string; when the state is MERGED and there is
    no [submitter], the record has no [merged_by] key, and reading it with
    [get] gives [None]. *)
Theorem merged_by_field (self : ReviewesFetcher) (review : ChangeInfo)
    (objs : list pydict) :
  extract_pr_objects self review = Ok objs ->
  exists change rest state,
    objs = change :: rest /\
    dict_get "state" change = Some (VStr state) /\
    (state <> "MERGED"%string -> dict_get "merged_by" change = Some VNone) /\
    (state = "MERGED"%string ->
     match r_submitter review with
     | Some submitter =>
         exists by_, account_str submitter = Ok by_ /\
                     dict_get "merged_by" change = Some (VStr by_)
     | None =>
         dict_get "merged_by" change = None /\
         dict_get_default "merged_by" change = VNone
     end).
Proof.
  intros H.
  destruct (extract_pr_objects_ok self review objs H)
    as (c0 & change & created & closing & messages & msg_objs & labels
        & label_objs & Hd & Hc & _ & _ & _ & _ & _ & _ & ->).
  destruct (close_change_cases self review c0 change Hd Hc)
    as (id & author & status & state & updated_at & created_at & merged_at
        & _ & _ & _ & _ & _ & _ & Hstate & _ & _ & _ & Hcases).
  exists change, (created ++ closing ++ msg_objs ++ label_objs), state.
  split; [reflexivity|]. split; [assumption|].
  destruct Hcases as [(-> & _ & _ & Hby)
                     |[(-> & _ & _ & Hby)
                      |(-> & _ & merged & _ & _ & _ & Hby)]].
  - split; [auto | discriminate].
  - split; [auto | discriminate].
  - split; [intros Hn; now elim Hn|]. intros _.
    destruct (r_submitter review) as [submitter|]; [exact Hby|].
    split; [exact Hby|]. unfold dict_get_default. now rewrite Hby.
Qed.

Lemma merged_by_field_witness :
  exists change rest,
    extract_pr_objects rf merged_change = Ok (change :: rest) /\
    dict_get "merged_by" change = Some (VStr "Alice/7").
Proof.
  destruct (extract_pr_objects rf merged_change) as [objs|e] eqn:E;
    [|vm_compute in E; discriminate].
  destruct (merged_by_field rf _ objs E)
    as (change & rest & state & -> & Hstate & _ & Hm).
  assert (Hs : state = "MERGED"%string).
  { vm_compute in E. injection E as <- _.
    vm_compute in Hstate. now injection Hstate as <-. }
  destruct (Hm Hs) as (by_ & Hby & Hget).
  vm_compute in Hby. injection Hby as <-.
  exists change, rest. split; [reflexivity | exact Hget].
Defined.

(** ** What [extract_objects] returns *)

(** The objects of the records that extract, in order. *)
Definition extracted (self : ReviewesFetcher) (review : ChangeInfo)
  : list pydict :=
  match extract_pr_objects self review with
  | Ok objs => objs
  | Raise _ => []
  end.

(** The records that do not extract, with what they raised. *)
Definition failure (self : ReviewesFetcher) (review : ChangeInfo)
  : list (ChangeInfo * exn) :=
  match extract_pr_objects self review with
  | Ok _ => []
  | Raise e => [(review, e)]
  end.

Lemma extract_loop_spec (self : ReviewesFetcher) (reviewes : list ChangeInfo) :
  forall objects log,
    extract_loop self reviewes objects log
    = (objects ++ flat_map (extracted self) reviewes,
       log ++ flat_map (failure self) reviewes).
Proof.
  induction reviewes as [|review rest IH]; intros objects log; simpl.
  - now rewrite !app_nil_r.
  - unfold extracted at 1, failure at 1.
    destruct (extract_pr_objects self review) as [objs|e]; rewrite IH; simpl.
    + now rewrite app_assoc.
    + now rewrite <- app_assoc.
Qed.

(** An object that is an event, not a Change record. *)
Definition is_event (o : pydict) : Prop :=
  exists t, dict_get "type" o = Some (VStr t) /\ t <> "Change"%string.

Lemma message_step_events (change : pydict) (m : ChangeMessageInfo)
    (l : list pydict) :
  message_step change m [] = Ok l -> Forall is_event l.
Proof.
  unfold message_step. intros H.
  apply bind_ok in H. destruct H as (text & _ & H).
  destruct (startswith "Uploaded patch set " text).
  - apply bind_ok in H. destruct H as (obj & Hobj & H). injection H as <-.
    destruct (message_event_fields _ _ _ _ Hobj)
      as (? & ? & ? & ? & ? & _ & _ & _ & _ & _ & Ht & _).
    repeat constructor. eexists. split; [exact Ht | discriminate].
  - destruct (Re.matches message_re text).
    + apply bind_ok in H. destruct H as (obj & Hobj & H). injection H as <-.
      destruct (message_event_fields _ _ _ _ Hobj)
        as (? & ? & ? & ? & ? & _ & _ & _ & _ & _ & Ht & _).
      repeat constructor. eexists. split; [exact Ht | discriminate].
    + injection H as <-. constructor.
Qed.

Lemma review_step_events (change : pydict) (label : string)
    (v : ApprovalInfo) (l : list pydict) :
  review_step change label v [] = Ok l -> Forall is_event l.
Proof.
  intros H. apply review_step_cases in H.
  destruct (vote_date v), (vote_value v); try (subst l; constructor).
  destruct H as (obj & ? & ? & -> & _ & _ & Ht & _).
  repeat constructor. eexists. split; [exact Ht | discriminate].
Qed.

Lemma Forall2_concat_events {A} (step : A -> list pydict -> Prop)
    (xs : list A) (ls : list (list pydict)) :
  (forall x l, step x l -> Forall is_event l) ->
  Forall2 step xs ls -> Forall is_event (List.concat ls).
Proof.
  intros Hstep HF. induction HF as [|x l xs ls Hx HF IH]; simpl.
  - constructor.
  - apply Forall_app. split; [now apply (Hstep x) | exact IH].
Qed.

Lemma for_reviews_events (change : pydict) (label : string)
    (votes : list ApprovalInfo) (l : list pydict) :
  for_reviews change label votes [] = Ok l -> Forall is_event l.
Proof.
  intros H. apply for_reviews_concat in H. destruct H as (ls & HF & ->).
  apply (Forall2_concat_events _ _ _ (review_step_events change label) HF).
Qed.

(** Only the head of an extraction is a Change record. *)
Lemma extract_pr_objects_events (self : ReviewesFetcher) (review : ChangeInfo)
    (objs : list pydict) :
  extract_pr_objects self review = Ok objs ->
  exists c0 change rest,
    change_display self review = Ok c0 /\
    close_change review c0 = Ok change /\
    objs = change :: rest /\ Forall is_event rest.
Proof.
  intros H.
  destruct (extract_pr_objects_ok self review objs H)
    as (c0 & change & created & closing & messages & msg_objs & labels
        & label_objs & Hd & Hc & Hcr & Hcl & Hm & Hfm & Hl & Hfl & ->).
  exists c0, change, (created ++ closing ++ msg_objs ++ label_objs).
  do 3 (split; [first [reflexivity | assumption]|]).
  destruct (created_event_fields change created Hcr)
    as (cobj & id' & -> & _ & Hct & _).
  destruct (closed_event_fields change closing Hcl) as (st & Hst & Hclosing).
  destruct (for_messages_concat change messages msg_objs Hfm)
    as (msg_lists & HFm & ->).
  destruct (for_labels_concat change labels (map fst labels) label_objs Hfl)
    as (label_lists & HFl & ->).
  repeat (apply Forall_app; split).
  - repeat constructor. eexists. split; [exact Hct | discriminate].
  - destruct (eq_str st "MERGED" || eq_str st "CLOSED").
    + destruct Hclosing as (obj & ? & ? & -> & _ & _ & Ht & _).
      repeat constructor. eexists. split; [exact Ht|].
      destruct (eq_str st "MERGED"); discriminate.
    + subst closing. constructor.
  - apply (Forall2_concat_events _ _ _ (message_step_events change) HFm).
  - apply (Forall2_concat_events
             (fun label l =>
                for_reviews change label (votes_of labels label) [] = Ok l)
             (map fst labels) label_lists); [|exact HFl].
    intros label l. apply for_reviews_events.
Qed.

(** ** The objects of the messages and of the votes *)

(** The type of an object is one of [types]. *)
Definition type_in (types : list string) (obj : pydict) : Prop :=
  exists t, In t types /\ dict_get "type" obj = Some (VStr t).

(** [obj] is the event of type [type] of the message [comment]: it has
    the message's id, its normalized date and the attribution string of
    its author. *)
Definition event_of_message (type : string) (comment : ChangeMessageInfo)
    (obj : pydict) : Prop :=
  exists id date created_at account author,
    msg_id comment = Some id /\
    msg_date comment = Some date /\
    convert_date_for_db date = Ok created_at /\
    msg_author comment = Some account /\
    account_str account = Ok author /\
    dict_get "type" obj = Some (VStr type) /\
    dict_get "id" obj = Some (VStr id) /\
    dict_get "created_at" obj = Some (VStr created_at) /\
    dict_get "author" obj = Some (VStr author).

(** [obj] is the [ChangeReviewedEvent] of the voter entry [entry] of
    [label], cast on [date] with [value]. *)
Definition event_of_vote (label : string) (entry : ApprovalInfo)
    (date : string) (value : Z) (obj : pydict) : Prop :=
  exists created_at account,
    convert_date_for_db date = Ok created_at /\
    vote_account_id entry = Some account /\
    dict_get "type" obj = Some (VStr "ChangeReviewedEvent") /\
    dict_get "id" obj
    = Some (VStr (created_at +:+ "_" +:+ label +:+ "_" +:+ str_int value
                  +:+ "_" +:+ str_int account)) /\
    dict_get "created_at" obj = Some (VStr created_at) /\
    dict_get "author" obj
    = Some (VStr (str_opt (vote_name entry) +:+ "/" +:+ str_int account)) /\
    dict_get "approval" obj = Some (VStr (approval label value)).

(** A text of ASCII characters.  On these [is_digit] is Python's [\d];
    on a text with other characters [\d] also takes the decimal digits
    of other scripts, which the embedding does not have. *)
Definition ascii_text (s : string) : bool :=
  forallb (fun c => (nat_of_ascii c <? 128)%nat) (list_ascii_of_string s).

Lemma type_in_incl (types types' : list string) (obj : pydict) :
  incl types types' -> type_in types obj -> type_in types' obj.
Proof. intros Hi (t & Ht & H). exists t. split; [now apply Hi | exact H]. Qed.

Lemma type_in_one (t : string) (types : list string) (obj : pydict) :
  dict_get "type" obj = Some (VStr t) -> In t types -> type_in types obj.
Proof. intros H Ht. now exists t. Qed.

(** Proves that a list of type names is part of another one. *)
Ltac incl_types :=
  let t := fresh in
  let H := fresh in
  intros t H; cbn [In] in H |- *; tauto.

Lemma Forall2_concat_Forall {A B} (P : B -> Prop)
    (step : A -> list B -> Prop) (xs : list A) (ls : list (list B)) :
  (forall x l, step x l -> Forall P l) ->
  Forall2 step xs ls -> Forall P (List.concat ls).
Proof.
  intros Hstep HF. induction HF as [|x l xs ls Hx HF IH]; simpl.
  - constructor.
  - apply Forall_app. split; [now apply (Hstep x) | exact IH].
Qed.

Lemma Forall2_concat_map_Forall {A B} (P : B -> Prop)
    (step : A -> list (list B) -> Prop) (xs : list A)
    (lss : list (list (list B))) :
  (forall x ls, step x ls -> Forall P (List.concat ls)) ->
  Forall2 step xs lss ->
  Forall P (List.concat (map (@List.concat B) lss)).
Proof.
  intros Hstep HF. induction HF as [|x ls xs lss Hx HF IH]; simpl.
  - constructor.
  - apply Forall_app. split; [now apply (Hstep x) | exact IH].
Qed.

(** One round of the message loop. *)
Lemma message_step_cases (change : pydict) (comment : ChangeMessageInfo)
    (out : list pydict) :
  message_step change comment [] = Ok out ->
  exists text,
    msg_message comment = Some text /\
    if startswith "Uploaded patch set " text
    then exists obj, out = [obj] /\
                     event_of_message "ChangeCommitPushedEvent" comment obj
    else if Re.matches message_re text
    then exists obj, out = [obj] /\
                     event_of_message "ChangeCommentedEvent" comment obj
    else out = [].
Proof.
  unfold message_step. intros H.
  apply bind_ok in H. destruct H as (text & Ht & H).
  apply getitem_ok in Ht. exists text. split; [exact Ht|].
  destruct (startswith "Uploaded patch set " text).
  - apply bind_ok in H. destruct H as (obj & Hobj & H). injection H as <-.
    exists obj. split; [reflexivity|].
    exact (message_event_fields _ _ _ _ Hobj).
  - destruct (Re.matches message_re text).
    + apply bind_ok in H. destruct H as (obj & Hobj & H). injection H as <-.
      exists obj. split; [reflexivity|].
      exact (message_event_fields _ _ _ _ Hobj).
    + now injection H as <-.
Qed.

Lemma message_step_types (change : pydict) (comment : ChangeMessageInfo)
    (out : list pydict) :
  message_step change comment [] = Ok out ->
  Forall (type_in ["ChangeCommitPushedEvent"; "ChangeCommentedEvent"]%string)
         out.
Proof.
  intros H. destruct (message_step_cases _ _ _ H) as (text & _ & Hc).
  destruct (startswith "Uploaded patch set " text).
  - destruct Hc as (obj & -> & (? & ? & ? & ? & ? & _ & _ & _ & _ & _ & Ht & _)).
    constructor; [|constructor].
    apply (type_in_one _ _ _ Ht). now left.
  - destruct (Re.matches message_re text).
    + destruct Hc as (obj & -> & (? & ? & ? & ? & ? & _ & _ & _ & _ & _ & Ht & _)).
      constructor; [|constructor].
      apply (type_in_one _ _ _ Ht). right. now left.
    + subst out. constructor.
Qed.

(** One round of the loop over the voter entries of a label. *)
Lemma review_step_vote (change : pydict) (label : string)
    (entry : ApprovalInfo) (out : list pydict) :
  review_step change label entry [] = Ok out ->
  match vote_date entry, vote_value entry with
  | Some date, Some value =>
      exists obj, out = [obj] /\ event_of_vote label entry date value obj
  | _, _ => out = []
  end.
Proof.
  intros H. apply review_step_cases in H.
  destruct (vote_date entry) as [date|]; [|exact H].
  destruct (vote_value entry) as [value|]; [|exact H].
  destruct H as (obj & created & account & -> & Hc & Ha & Ht & Hid & Hcr
                 & Hau & Hap).
  exists obj. split; [reflexivity|].
  exists created, account. tauto.
Qed.

Lemma review_step_types (change : pydict) (label : string)
    (entry : ApprovalInfo) (out : list pydict) :
  review_step change label entry [] = Ok out ->
  Forall (type_in ["ChangeReviewedEvent"]%string) out.
Proof.
  intros H. apply review_step_vote in H.
  destruct (vote_date entry); [|subst out; constructor].
  destruct (vote_value entry); [|subst out; constructor].
  destruct H as (obj & -> & (? & ? & _ & _ & Ht & _)).
  constructor; [|constructor].
  apply (type_in_one _ _ _ Ht). now left.
Qed.

(** What the loop over the labels appended, label by label and entry by
    entry. *)
Lemma for_labels_votes (change : pydict) (labels : list (string * LabelInfo))
    (keys : list string) (ls : list (list pydict)) :
  Forall2 (fun label l =>
             for_reviews change label (votes_of labels label) [] = Ok l)
          keys ls ->
  exists vote_lists,
    Forall2 (fun label outs =>
               Forall2 (fun entry out =>
                          review_step change label entry [] = Ok out)
                       (votes_of labels label) outs)
            keys vote_lists /\
    ls = map (@List.concat pydict) vote_lists.
Proof.
  intros HF. induction HF as [|label l keys ls Hl HF (vote_lists & IH & ->)].
  - exists []. split; [constructor | reflexivity].
  - destruct (for_reviews_concat _ _ _ _ Hl) as (outs & Houts & ->).
    exists (outs :: vote_lists). split; [now constructor | reflexivity].
Qed.

(** The objects of a successful extraction: the Change record, the created
    event, the closing events, what each message gave and what each voter
    entry of each label gave. *)
Lemma extraction_events (self : ReviewesFetcher) (review : ChangeInfo)
    (objs : list pydict) :
  extract_pr_objects self review = Ok objs ->
  exists change created closing messages msg_lists labels vote_lists,
    objs = change :: created :: closing ++ List.concat msg_lists
           ++ List.concat (map (@List.concat pydict) vote_lists) /\
    type_in ["Change"]%string change /\
    type_in ["ChangeCreatedEvent"]%string created /\
    Forall (type_in ["ChangeMergedEvent"; "ChangeAbandonedEvent"]%string)
           closing /\
    r_messages review = Some messages /\
    Forall2 (fun comment out => message_step change comment [] = Ok out)
            messages msg_lists /\
    r_labels review = Some labels /\
    Forall2 (fun label outs =>
               Forall2 (fun entry out =>
                          review_step change label entry [] = Ok out)
                       (votes_of labels label) outs)
            (map fst labels) vote_lists.
Proof.
  intros H.
  destruct (extract_pr_objects_ok self review objs H)
    as (c0 & change & created & closing & messages & msg_objs & labels
        & label_objs & Hd & Hc & Hcr & Hcl & Hm & Hfm & Hl & Hfl & ->).
  destruct (close_change_cases self review c0 change Hd Hc)
    as (id & author & status & state & updated_at & created_at & merged_at
        & _ & _ & _ & Htype & _).
  destruct (created_event_fields change created Hcr)
    as (cobj & id' & -> & _ & Hct & _).
  destruct (closed_event_fields change closing Hcl) as (st & _ & Hclosing).
  destruct (for_messages_concat change messages msg_objs Hfm)
    as (msg_lists & HFm & ->).
  destruct (for_labels_concat change labels (map fst labels) label_objs Hfl)
    as (label_lists & HFl & ->).
  destruct (for_labels_votes change labels _ _ HFl) as (vote_lists & HFv & ->).
  exists change, cobj, closing, messages, msg_lists, labels, vote_lists.
  split; [reflexivity|].
  split; [apply (type_in_one _ _ _ Htype); now left|].
  split; [apply (type_in_one _ _ _ Hct); now left|].
  split; [|auto].
  destruct (eq_str st "MERGED" || eq_str st "CLOSED").
  - destruct Hclosing as (obj & ? & ? & -> & _ & _ & Ht & _).
    constructor; [|constructor].
    apply (type_in_one _ _ _ Ht).
    destruct (eq_str st "MERGED"); [now left | right; now left].
  - subst closing. constructor.
Qed.

(** ** C8 *)

(** C8. In a successful extraction the objects of the messages stand
    between the closing events and the objects of the votes, message by
    message; no other object is a [ChangeCommitPushedEvent] or a
    [ChangeCommentedEvent].  A message whose text starts with
    ["Uploaded patch set "] gives exactly one object, a
    [ChangeCommitPushedEvent] whose [id] is the message's id, whose
    [created_at] is the normalized message date and whose [author] is
    derived from the message's author; so it gives no
    [ChangeCommentedEvent], whatever the rest of the text is. *)
Theorem uploaded_patch_set_pushes (self : ReviewesFetcher)
    (review : ChangeInfo) (objs : list pydict) :
  extract_pr_objects self review = Ok objs ->
  exists change created closing messages msg_lists vote_objs,
    r_messages review = Some messages /\
    objs = change :: created :: closing ++ List.concat msg_lists ++ vote_objs /\
    Forall (type_in ["Change"; "ChangeCreatedEvent"; "ChangeMergedEvent";
                     "ChangeAbandonedEvent"; "ChangeReviewedEvent"]%string)
           (change :: created :: closing ++ vote_objs) /\
    Forall2 (fun comment out =>
               exists text,
                 msg_message comment = Some text /\
                 (startswith "Uploaded patch set " text = true ->
                  exists obj,
                    out = [obj] /\
                    event_of_message "ChangeCommitPushedEvent" comment obj))
            messages msg_lists.
Proof.
  intros H.
  destruct (extraction_events self review objs H)
    as (change & created & closing & messages & msg_lists & labels
        & vote_lists & -> & Hch & Hcr & Hcl & Hm & HFm & Hl & HFv).
  exists change, created, closing, messages, msg_lists,
         (List.concat (map (@List.concat pydict) vote_lists)).
  split; [exact Hm|]. split; [reflexivity|]. split.
  - constructor; [eapply type_in_incl; [|exact Hch]; incl_types|].
    constructor; [eapply type_in_incl; [|exact Hcr]; incl_types|].
    apply Forall_app. split.
    + eapply Forall_impl; [|exact Hcl].
      intros o. apply type_in_incl. incl_types.
    + refine (Forall2_concat_map_Forall _ _ _ _ _ HFv).
      intros label outs Houts.
      refine (Forall2_concat_Forall _ _ _ _ _ Houts).
      intros entry out Hout.
      eapply Forall_impl; [|exact (review_step_types _ _ _ _ Hout)].
      intros o. apply type_in_incl. incl_types.
  - revert HFm. apply Forall2_impl.
    intros comment out Hstep.
    destruct (message_step_cases _ _ _ Hstep) as (text & Ht & Hc).
    exists text. split; [exact Ht|].
    intros Hp. now rewrite Hp in Hc.
Qed.

(** A change in review with three messages and two voter entries. *)
Definition sample_history : ChangeInfo :=
  sample_change "NEW" None None
    [push_message; comment_message vote_with_body; comment_message vote_only]
    [("Code-Review"%string, mkLabel (Some [cast_vote; uncast_vote]))].

Lemma uploaded_patch_set_pushes_witness :
  exists objs obj,
    extract_pr_objects rf sample_history = Ok objs /\
    In obj objs /\
    dict_get "type" obj = Some (VStr "ChangeCommitPushedEvent") /\
    dict_get "id" obj = Some (VStr "m1").
Proof.
  destruct (extract_pr_objects rf sample_history) as [objs|e] eqn:E;
    [|vm_compute in E; discriminate].
  destruct (uploaded_patch_set_pushes rf sample_history objs E)
    as (change & created & closing & messages & msg_lists & vote_objs
        & Hm & Hobjs & _ & HF).
  injection Hm as <-.
  inversion HF as [|m out ms outs (text & Ht & Hp) HF' E1 E2].
  injection Ht as <-.
  destruct (Hp eq_refl)
    as (obj & Hout & id & date & created_at & account & author & Hid & _ & _
        & _ & _ & Htype & Hoid & _).
  injection Hid as <-.
  exists objs, obj. split; [reflexivity|]. split; [|split; assumption].
  rewrite Hobjs, <- E2, Hout. right. right.
  apply in_or_app. right. now left.
Defined.

(** ** C1 *)

(** C1. In a successful extraction the objects of the messages stand
    between the closing events and the objects of the votes, message by
    message; no other object is a [ChangeCommentedEvent].  A message
    whose text does not start with ["Uploaded patch set "] gives one
    object, a [ChangeCommentedEvent] with the message's id, normalized
    date and author, exactly when its text has the form: the header
    [Patch Set <digits>:], optionally a blank and one vote token
    [<label><sign><digits>] (the label being any non-empty run of
    non-blank characters), a blank line, and a non-empty line; otherwise
    it gives nothing.  This is for a text of ASCII characters, the digits
    being [0] to [9].  The text
    ["Patch Set 3: Code-Review+2\n\nLooks good"] gives the event, the text
    ["Patch Set 3: Code-Review+2"] gives nothing. *)
Theorem comment_event_iff_grammar (self : ReviewesFetcher)
    (review : ChangeInfo) (objs : list pydict) :
  extract_pr_objects self review = Ok objs ->
  exists change created closing messages msg_lists vote_objs,
    r_messages review = Some messages /\
    objs = change :: created :: closing ++ List.concat msg_lists ++ vote_objs /\
    Forall (type_in ["Change"; "ChangeCreatedEvent"; "ChangeMergedEvent";
                     "ChangeAbandonedEvent"; "ChangeReviewedEvent"]%string)
           (change :: created :: closing ++ vote_objs) /\
    Forall2 (fun comment out =>
               exists text,
                 msg_message comment = Some text /\
                 (startswith "Uploaded patch set " text = false ->
                  ascii_text text = true ->
                  (comment_grammar text <->
                   exists obj,
                     out = [obj] /\
                     event_of_message "ChangeCommentedEvent" comment obj) /\
                  (~ comment_grammar text -> out = []) /\
                  (text = vote_with_body ->
                   exists obj,
                     out = [obj] /\
                     event_of_message "ChangeCommentedEvent" comment obj) /\
                  (text = vote_only -> out = [])))
            messages msg_lists.
Proof.
  intros H.
  destruct (extraction_events self review objs H)
    as (change & created & closing & messages & msg_lists & labels
        & vote_lists & -> & Hch & Hcr & Hcl & Hm & HFm & Hl & HFv).
  exists change, created, closing, messages, msg_lists,
         (List.concat (map (@List.concat pydict) vote_lists)).
  split; [exact Hm|]. split; [reflexivity|]. split.
  - constructor; [eapply type_in_incl; [|exact Hch]; incl_types|].
    constructor; [eapply type_in_incl; [|exact Hcr]; incl_types|].
    apply Forall_app. split.
    + eapply Forall_impl; [|exact Hcl].
      intros o. apply type_in_incl. incl_types.
    + refine (Forall2_concat_map_Forall _ _ _ _ _ HFv).
      intros label outs Houts.
      refine (Forall2_concat_Forall _ _ _ _ _ Houts).
      intros entry out Hout.
      eapply Forall_impl; [|exact (review_step_types _ _ _ _ Hout)].
      intros o. apply type_in_incl. incl_types.
  - revert HFm. apply Forall2_impl.
    intros comment out Hstep.
    destruct (message_step_cases _ _ _ Hstep) as (text & Ht & Hc).
    exists text. split; [exact Ht|].
    intros Hp _. rewrite Hp in Hc.
    assert (Hiff : comment_grammar text <->
                   exists obj,
                     out = [obj] /\
                     event_of_message "ChangeCommentedEvent" comment obj).
    { rewrite <- message_re_grammar.
      destruct (Re.matches message_re text).
      - split; [intros _; exact Hc | reflexivity].
      - subst out. split; [discriminate|].
        intros (obj & Hout & _). discriminate. }
    assert (Hnot : ~ comment_grammar text -> out = []).
    { rewrite <- message_re_grammar.
      destruct (Re.matches message_re text); [intros Hn; now elim Hn|].
      intros _. exact Hc. }
    split; [exact Hiff|]. split; [exact Hnot|]. split.
    + intros ->. apply Hiff. apply message_re_grammar.
      vm_compute. reflexivity.
    + intros ->. apply Hnot. rewrite <- message_re_grammar.
      vm_compute. discriminate.
Qed.

Lemma comment_event_iff_grammar_witness :
  exists objs obj,
    extract_pr_objects rf sample_history = Ok objs /\
    In obj objs /\
    dict_get "type" obj = Some (VStr "ChangeCommentedEvent") /\
    dict_get "id" obj = Some (VStr "m2") /\
    List.length objs = 5%nat.
Proof.
  destruct (extract_pr_objects rf sample_history) as [objs|e] eqn:E;
    [|vm_compute in E; discriminate].
  destruct (comment_event_iff_grammar rf sample_history objs E)
    as (change & created & closing & messages & msg_lists & vote_objs
        & Hm & Hobjs & _ & HF).
  injection Hm as <-.
  inversion HF as [|m1 out1 ms1 outs1 _ HF1 E1 E2].
  inversion HF1 as [|m2 out2 ms2 outs2 (text & Ht & Hbody) HF2 E3 E4].
  injection Ht as <-.
  destruct (Hbody eq_refl eq_refl) as (_ & _ & Hev & _).
  destruct (Hev eq_refl)
    as (obj & Hout & id & date & created_at & account & author & Hid & _ & _
        & _ & _ & Htype & Hoid & _).
  injection Hid as <-.
  exists objs, obj. split; [reflexivity|]. split; [|split; [|split]].
  - rewrite Hobjs, <- E2, <- E4, Hout. right. right.
    apply in_or_app. right. apply in_or_app. left.
    cbn [List.concat]. apply in_or_app. right. now left.
  - exact Htype.
  - exact Hoid.
  - pose proof E as E'. vm_compute in E'. injection E' as <-. reflexivity.
Defined.

(** ** C2 *)

(** The sign of an approval: a ["+"] in front of a value that is not
    negative, the value's own ["-"] otherwise. *)
Lemma approval_signs (label : string) (value : Z) :
  (0 <= value -> approval label value = label +:+ "+" +:+ str_int value) /\
  (value < 0 -> approval label value = label +:+ "-" +:+ str_int (- value)).
Proof.
  rewrite approval_sign. split; intros Hv.
  - destruct (Z.ltb_spec value 0); [lia | reflexivity].
  - destruct (Z.ltb_spec value 0); [|lia].
    now rewrite (str_int_neg value Hv).
Qed.

(** C2. In a successful extraction the objects of the votes come last,
    label by label of the label map and, under a label, entry by entry of
    its voter entries; no other object is a [ChangeReviewedEvent].  A
    voter entry gives one object, a [ChangeReviewedEvent], when it has
    both a [date] and a [value], and nothing otherwise.  The event's [id]
    is the normalized date, the label, the value and the account id
    joined by underscores, its [created_at] is the normalized date, and
    its [approval] is the label followed by the value, with a ["+"] in
    front of a positive value and the value's own ["-"] for a negative
    one: [-1] under [Code-Review] gives ["Code-Review-1"]. *)
Theorem reviewed_event_iff_cast (self : ReviewesFetcher)
    (review : ChangeInfo) (objs : list pydict) :
  extract_pr_objects self review = Ok objs ->
  (exists change created closing msg_objs labels vote_lists,
      r_labels review = Some labels /\
      objs = change :: created :: closing ++ msg_objs
             ++ List.concat (map (@List.concat pydict) vote_lists) /\
      Forall (type_in ["Change"; "ChangeCreatedEvent"; "ChangeMergedEvent";
                       "ChangeAbandonedEvent"; "ChangeCommitPushedEvent";
                       "ChangeCommentedEvent"]%string)
             (change :: created :: closing ++ msg_objs) /\
      Forall2 (fun label outs =>
                 Forall2 (fun entry out =>
                            ((exists obj,
                                 out = [obj] /\
                                 dict_get "type" obj
                                 = Some (VStr "ChangeReviewedEvent"))
                             <-> (vote_date entry <> None /\
                                  vote_value entry <> None)) /\
                            match vote_date entry, vote_value entry with
                            | Some date, Some value =>
                                exists obj,
                                  out = [obj] /\
                                  event_of_vote label entry date value obj
                            | _, _ => out = []
                            end)
                         (votes_of labels label) outs)
              (map fst labels) vote_lists) /\
  (forall label value,
      (0 < value -> approval label value = label +:+ "+" +:+ str_int value) /\
      (value < 0 ->
       approval label value = label +:+ "-" +:+ str_int (- value))) /\
  approval "Code-Review" (-1) = "Code-Review-1"%string.
Proof.
  intros H. split; [|split].
  - destruct (extraction_events self review objs H)
      as (change & created & closing & messages & msg_lists & labels
          & vote_lists & -> & Hch & Hcr & Hcl & Hm & HFm & Hl & HFv).
    exists change, created, closing, (List.concat msg_lists), labels,
           vote_lists.
    split; [exact Hl|]. split; [reflexivity|]. split.
    + constructor; [eapply type_in_incl; [|exact Hch]; incl_types|].
      constructor; [eapply type_in_incl; [|exact Hcr]; incl_types|].
      apply Forall_app. split.
      * eapply Forall_impl; [|exact Hcl].
        intros o. apply type_in_incl. incl_types.
      * refine (Forall2_concat_Forall _ _ _ _ _ HFm).
        intros comment out Hout.
        eapply Forall_impl; [|exact (message_step_types _ _ _ Hout)].
        intros o. apply type_in_incl. incl_types.
    + revert HFv. apply Forall2_impl. intros label outs.
      apply Forall2_impl. intros entry out Hstep.
      apply review_step_vote in Hstep.
      destruct (vote_date entry) as [date|], (vote_value entry) as [value|];
        (split; [|exact Hstep]).
      * destruct Hstep as (obj & -> & (? & ? & _ & _ & Ht & _)).
        split; [intros _; split; discriminate | intros _; eauto].
      * subst out. split.
        -- intros (obj & Hout & _). discriminate.
        -- intros [_ Hn]. now elim Hn.
      * subst out. split.
        -- intros (obj & Hout & _). discriminate.
        -- intros [Hn _]. now elim Hn.
      * subst out. split.
        -- intros (obj & Hout & _). discriminate.
        -- intros [Hn _]. now elim Hn.
  - intros label value. destruct (approval_signs label value) as [Hp Hn].
    split; [intros Hv; apply Hp; lia | exact Hn].
  - reflexivity.
Qed.

Lemma reviewed_event_iff_cast_witness :
  exists objs obj,
    extract_pr_objects rf sample_history = Ok objs /\
    In obj objs /\
    dict_get "type" obj = Some (VStr "ChangeReviewedEvent") /\
    dict_get "id" obj = Some (VStr "2020-04-08T11:15:31Z_Code-Review_-1_7") /\
    dict_get "approval" obj = Some (VStr "Code-Review-1").
Proof.
  destruct (extract_pr_objects rf sample_history) as [objs|e] eqn:E;
    [|vm_compute in E; discriminate].
  destruct (reviewed_event_iff_cast rf sample_history objs E)
    as ((change & created & closing & msg_objs & labels & vote_lists
         & Hl & Hobjs & _ & HF) & _ & Hex).
  injection Hl as <-.
  inversion HF as [|label outs ls outss Houts HF1 E1 E2].
  inversion Houts as [|entry out es outs' [_ Hcast] Hrest E3 E4].
  destruct Hcast
    as (obj & Hout & created_at & account & Hc & Ha & Htype & Hid & _ & _
        & Hap).
  injection Ha as <-.
  vm_compute in Hc. injection Hc as <-.
  exists objs, obj. split; [reflexivity|]. split; [|split; [|split]].
  - rewrite Hobjs, <- E2, <- E4, Hout. right. right.
    apply in_or_app. right. apply in_or_app. right. now left.
  - exact Htype.
  - rewrite Hid. reflexivity.
  - rewrite Hap, Hex. reflexivity.
Defined.

(** A merged change without a usable [submitted] date does not get past
    the duration. *)
Lemma merged_without_submitted (self : ReviewesFetcher) (review : ChangeInfo)
    (c0 : pydict) :
  r_status review = Some "MERGED"%string ->
  truthy_str (r_submitted review) = false ->
  change_display self review = Ok c0 ->
  close_change review c0 = Raise TypeError.
Proof.
  intros Hs Ht H. unfold change_display in H.
  repeat inv_bind H.
  injection H as <-.
  rewrite Ht in E11. injection E11 as <-.
  rewrite Hs in E12. simpl in E12. injection E12 as <-.
  injection E13 as <-.
  match goal with
  | |- ?lhs = _ =>
      let r := eval cbn in lhs in
      change (lhs = Raise TypeError) with (r = Raise TypeError)
  end.
  reflexivity.
Qed.

(** ** C10 *)

Definition merged_not_submitted : ChangeInfo :=
  sample_change "MERGED" None (Some alice) [] [].

(** C10. A raw change with status MERGED and no true [submitted] field
    does not extract: if the Change record gets built, its [merged_at] and
    so its [closed_at] are [None] and the duration raises.  So every
    Change record in state MERGED that [extract_objects] returns has a
    [merged_at] and a [closed_at] that are dates. *)
Theorem merged_requires_submitted :
  (forall (self : ReviewesFetcher) (review : ChangeInfo),
      r_status review = Some "MERGED"%string ->
      truthy_str (r_submitted review) = false ->
      (exists e, extract_pr_objects self review = Raise e) /\
      extracted self review = [] /\
      (forall c0, change_display self review = Ok c0 ->
                  close_change review c0 = Raise TypeError)) /\
  (forall (self : ReviewesFetcher) (reviewes : list ChangeInfo)
          (change : pydict),
      In change (fst (extract_objects self reviewes)) ->
      dict_get "type" change = Some (VStr "Change") ->
      dict_get "state" change = Some (VStr "MERGED") ->
      exists merged,
        dict_get "merged_at" change = Some (VStr merged) /\
        dict_get "closed_at" change = Some (VStr merged)).
Proof.
  split.
  - intros self review Hs Ht.
    assert (Hraise : exists e, extract_pr_objects self review = Raise e).
    { destruct (extract_pr_objects self review) as [objs|e] eqn:E; [|eauto].
      exfalso.
      destruct (extract_pr_objects_ok self review objs E)
        as (c0 & change & ? & ? & ? & ? & ? & ? & Hd & Hc & _).
      rewrite (merged_without_submitted self review c0 Hs Ht Hd) in Hc.
      discriminate. }
    split; [exact Hraise|]. split.
    + unfold extracted. destruct Hraise as (e & ->). reflexivity.
    + intros c0. now apply merged_without_submitted.
  - intros self reviewes change Hin Htype Hstate.
    unfold extract_objects in Hin. rewrite extract_loop_spec in Hin.
    simpl in Hin. apply in_flat_map in Hin.
    destruct Hin as (review & _ & Hin).
    unfold extracted in Hin.
    destruct (extract_pr_objects self review) as [objs|e] eqn:E;
      [|destruct Hin].
    destruct (extract_pr_objects_events self review objs E)
      as (c0 & head & rest & Hd & Hc & -> & Hrest).
    destruct Hin as [<-|Hin].
    + destruct (close_change_cases self review c0 head Hd Hc)
        as (id & author & status & state & updated_at & created_at
            & merged_at & _ & _ & _ & _ & _ & _ & Hst & _ & _ & Hmer
            & Hcases).
      rewrite Hstate in Hst. injection Hst as <-.
      destruct Hcases as [(E' & _)|[(E' & _)|(_ & _ & merged & -> & Hcl & _)]];
        try discriminate.
      exists merged. auto.
    + rewrite Forall_forall in Hrest.
      destruct (Hrest change Hin) as (t & Ht & Hne).
      rewrite Htype in Ht. injection Ht as <-. now elim Hne.
Qed.

Lemma merged_requires_submitted_witness :
  extracted rf merged_not_submitted = [] /\
  exists merged,
    dict_get "merged_at" (hd [] (extracted rf merged_change))
    = Some (VStr merged).
Proof.
  destruct merged_requires_submitted as (Hfail & Hdates).
  split.
  - destruct (Hfail rf merged_not_submitted eq_refl eq_refl) as (_ & H & _).
    exact H.
  - destruct (Hdates rf [merged_change] (hd [] (extracted rf merged_change)))
      as (merged & Hm & _).
    + vm_compute. left. reflexivity.
    + vm_compute. reflexivity.
    + vm_compute. reflexivity.
    + exists merged. exact Hm.
Defined.

(** ** C6 *)

Definition unknown_status : ChangeInfo :=
  sample_change "DRAFT" None None [] [].

(** C6. [extract_objects] returns for every list of records: a record
    whose extraction raises adds no object and is only reported to the
    log, and the objects of every other record are returned, in order.  A
    record whose status is none of NEW, MERGED and ABANDONED is one whose
    extraction raises. *)
Theorem extract_objects_isolates_failures :
  (forall (self : ReviewesFetcher) (reviewes : list ChangeInfo),
      extract_objects self reviewes
      = (flat_map (extracted self) reviewes,
         flat_map (failure self) reviewes)) /\
  (forall (self : ReviewesFetcher) (before after : list ChangeInfo)
          (review : ChangeInfo) (e : exn),
      extract_pr_objects self review = Raise e ->
      fst (extract_objects self (before ++ review :: after))
      = fst (extract_objects self (before ++ after)) /\
      snd (extract_objects self (before ++ review :: after))
      = snd (extract_objects self before) ++ (review, e)
        :: snd (extract_objects self after)) /\
  (forall (self : ReviewesFetcher) (review : ChangeInfo) (status : string),
      r_status review = Some status ->
      assoc status status_map = None ->
      exists e, extract_pr_objects self review = Raise e).
Proof.
  split; [|split].
  - intros self reviewes. unfold extract_objects.
    now rewrite extract_loop_spec.
  - intros self before after review e He.
    unfold extract_objects. rewrite !extract_loop_spec. simpl.
    rewrite !flat_map_app. simpl.
    unfold extracted at 2, failure at 2. rewrite He. simpl.
    split; reflexivity.
  - intros self review status Hs Hmap.
    destruct (extract_pr_objects self review) as [objs|e] eqn:E; [|eauto].
    exfalso.
    destruct (extract_pr_objects_ok self review objs E)
      as (c0 & change & ? & ? & ? & ? & ? & ? & Hd & Hc & _).
    destruct (close_change_cases self review c0 change Hd Hc)
      as (? & ? & status' & state & ? & ? & ? & _ & Hs' & Hmap' & _).
    rewrite Hs in Hs'. injection Hs' as <-.
    rewrite Hmap in Hmap'. discriminate.
Qed.

Lemma extract_objects_isolates_failures_witness :
  fst (extract_objects rf [merged_change; unknown_status; merged_change])
  = fst (extract_objects rf [merged_change; merged_change]) /\
  List.length
    (snd (extract_objects rf [merged_change; unknown_status; merged_change]))
  = 1%nat.
Proof.
  destruct extract_objects_isolates_failures as (_ & Hskip & Hstatus).
  destruct (Hstatus rf unknown_status "DRAFT"%string eq_refl eq_refl) as (e & He).
  destruct (Hskip rf [merged_change] [merged_change] unknown_status e He)
    as (Hobjs & Hlog).
  split.
  - exact Hobjs.
  - change [merged_change; unknown_status; merged_change]
      with ([merged_change] ++ unknown_status :: [merged_change]).
    rewrite Hlog. vm_compute. reflexivity.
Defined.

(** ** Dates: [strptime] reads back the four-digit-year forms *)

Module DateFacts.
Import Re Datetime.

Arguments consumed : simpl never.

Definition digit_head (st : mstate) : Prop :=
  exists c t, snd st = String c t /\ is_digit c = true.

Lemma consumed_app (w tail : string) : consumed (w +:+ tail) tail = w.
Proof.
  unfold consumed. rewrite length_append.
  replace (String.length w + String.length tail - String.length tail)%nat
    with (String.length w) by lia.
  apply substring_append.
Qed.

Lemma consumed1 (a b : ascii) (t : string) :
  consumed (String a (String b t)) (String b t) = String a "".
Proof. exact (consumed_app (String a "") (String b t)). Qed.

Lemma consumed2 (a b : ascii) (t : string) :
  consumed (String a (String b t)) t = String a (String b "").
Proof. exact (consumed_app (String a (String b "")) t). Qed.

Lemma consumed4 (a b c d : ascii) (t : string) :
  consumed (String a (String b (String c (String d t)))) t
  = String a (String b (String c (String d ""))).
Proof. exact (consumed_app (String a (String b (String c (String d "")))) t). Qed.

Lemma Z_range_cases (P : Z -> Prop) (n : nat) :
  (forall i, (i < n)%nat -> P (Z.of_nat i)) ->
  forall z, 0 <= z < Z.of_nat n -> P z.
Proof.
  intros H z Hz. rewrite <- (Z2Nat.id z) by lia. apply H. lia.
Qed.

(** What a two-digit directive does on a zero-padded value: the value is
    read back, the two digits are the first match, and any other match
    stops before a digit. *)
Definition two_digit_field (d : ascii) (name : string) (v : Z) : Prop :=
  py_int (pad2 v) = Ok v /\
  forall caps tail, exists others,
    run (directive d)
        (caps, String (digit_char (v / 10 mod 10))
                 (String (digit_char (v mod 10)) tail))
    = ((name, pad2 v) :: caps, tail) :: others /\
    Forall digit_head others.

Ltac field_case :=
  split;
  [ vm_compute; reflexivity
  | intros caps tail;
    match goal with
    | |- context [run _ (_, String ?a (String ?b _))] =>
        let a' := eval vm_compute in a in
        let b' := eval vm_compute in b in
        change a with a'; change b with b'
    end;
    match goal with
    | |- context [pad2 ?v] =>
        let p := eval vm_compute in (pad2 v) in change (pad2 v) with p
    end;
    match goal with
    | |- exists others, ?lhs = _ /\ _ =>
        let r := eval cbv -[consumed] in lhs in change lhs with r
    end;
    rewrite ?consumed2, ?consumed1;
    eexists; split; [reflexivity|];
    repeat constructor; eexists; eexists; split; reflexivity ].

Lemma month_field (v : Z) : 1 <= v <= 12 -> two_digit_field "m" "m" v.
Proof.
  intros Hv. assert (H : 0 <= v < Z.of_nat 13) by lia.
  revert v H Hv. apply (Z_range_cases (fun v => 1 <= v <= 12 -> _)).
  intros i Hi.
  do 13 (destruct i as [|i]; [intros Hv; try lia; field_case|]).
  lia.
Qed.

Lemma day_field (v : Z) : 1 <= v <= 31 -> two_digit_field "d" "d" v.
Proof.
  intros Hv. assert (H : 0 <= v < Z.of_nat 32) by lia.
  revert v H Hv. apply (Z_range_cases (fun v => 1 <= v <= 31 -> _)).
  intros i Hi.
  do 32 (destruct i as [|i]; [intros Hv; try lia; field_case|]).
  lia.
Qed.

Lemma hour_field (v : Z) : 0 <= v <= 23 -> two_digit_field "H" "H" v.
Proof.
  intros Hv. assert (H : 0 <= v < Z.of_nat 24) by lia.
  revert v H Hv. apply (Z_range_cases (fun v => 0 <= v <= 23 -> _)).
  intros i Hi.
  do 24 (destruct i as [|i]; [intros Hv; field_case|]).
  lia.
Qed.

Lemma minute_field (v : Z) : 0 <= v <= 59 -> two_digit_field "M" "M" v.
Proof.
  intros Hv. assert (H : 0 <= v < Z.of_nat 60) by lia.
  revert v H Hv. apply (Z_range_cases (fun v => 0 <= v <= 59 -> _)).
  intros i Hi.
  do 60 (destruct i as [|i]; [intros Hv; field_case|]).
  lia.
Qed.

Lemma second_field (v : Z) : 0 <= v <= 59 -> two_digit_field "S" "S" v.
Proof.
  intros Hv. assert (H : 0 <= v < Z.of_nat 60) by lia.
  revert v H Hv. apply (Z_range_cases (fun v => 0 <= v <= 59 -> _)).
  intros i Hi.
  do 60 (destruct i as [|i]; [intros Hv; field_case|]).
  lia.
Qed.

(** The ten digit characters. *)
Lemma digit_char_spec (k : Z) :
  0 <= k <= 9 ->
  is_digit (digit_char k) = true /\
  is_space (digit_char k) = false /\
  Z.of_nat (nat_of_ascii (digit_char k)) - 48 = k.
Proof.
  intros Hk. assert (H : 0 <= k < Z.of_nat 10) by lia.
  revert k H Hk. apply (Z_range_cases (fun k => 0 <= k <= 9 -> _)).
  intros i Hi.
  do 10 (destruct i as [|i]; [intros _; vm_compute; auto|]).
  lia.
Qed.

Lemma year_digits (y : Z) :
  0 <= y <= 9999 ->
  10 * (10 * (10 * (10 * 0 + y / 1000 mod 10) + y / 100 mod 10)
        + y / 10 mod 10) + y mod 10 = y.
Proof. intros Hy. Z.div_mod_to_equations. lia. Qed.

Lemma year_field (y : Z) :
  0 <= y <= 9999 ->
  py_int (pad4 y) = Ok y /\
  forall caps tail,
    run (directive "Y")
        (caps, String (digit_char (y / 1000 mod 10))
                 (String (digit_char (y / 100 mod 10))
                    (String (digit_char (y / 10 mod 10))
                       (String (digit_char (y mod 10)) tail))))
    = [(("Y"%string, pad4 y) :: caps, tail)].
Proof.
  intros Hy.
  destruct (digit_char_spec (y / 1000 mod 10)) as (Ha & Sa & Va);
    [pose proof (Z.mod_pos_bound (y / 1000) 10); lia|].
  destruct (digit_char_spec (y / 100 mod 10)) as (Hb & _ & Vb);
    [pose proof (Z.mod_pos_bound (y / 100) 10); lia|].
  destruct (digit_char_spec (y / 10 mod 10)) as (Hc & _ & Vc);
    [pose proof (Z.mod_pos_bound (y / 10) 10); lia|].
  destruct (digit_char_spec (y mod 10)) as (Hd & _ & Vd);
    [pose proof (Z.mod_pos_bound y 10); lia|].
  split.
  - unfold pad4, pad2, py_int. rewrite Sa. unfold int_digits.
    rewrite Ha, Hb, Hc, Hd, Va, Vb, Vc, Vd.
    now rewrite (year_digits y Hy).
  - intros caps tail.
    change (directive "Y")
      with (Group "Y" (Seq digit (Seq digit (Seq digit digit)))).
    cbn [run digit fst snd flat_map map app].
    rewrite Ha. cbn [run digit fst snd flat_map map app].
    rewrite Hb. cbn [run digit fst snd flat_map map app].
    rewrite Hc. cbn [run digit fst snd flat_map map app].
    rewrite Hd. cbn [run digit fst snd flat_map map app].
    now rewrite consumed4.
Qed.

Lemma digit_not_separator (d : ascii) :
  is_digit d = true ->
  Ascii.eqb (lower "-") (lower d) = false /\
  Ascii.eqb (lower ":") (lower d) = false /\
  is_space d = false.
Proof.
  destruct d as [[] [] [] [] [] [] [] []]; vm_compute; intros H;
    try discriminate; auto.
Qed.

Lemma run_seq_first (r k : regex) (st good : mstate) (others : list mstate) :
  run r st = good :: others ->
  (forall o, In o others -> run k o = []) ->
  run (Seq r k) st = run k good.
Proof.
  intros Hr Hk. cbn [run]. rewrite Hr. cbn [flat_map].
  assert (E : flat_map (run k) others = []).
  { clear Hr. induction others as [|o os IH]; [reflexivity|].
    cbn [flat_map]. rewrite (Hk o) by now left.
    apply IH. intros o' Ho'. apply Hk. now right. }
  rewrite E. apply app_nil_r.
Qed.

Lemma separator_dies (sep : ascii) (k : regex) (o : mstate) :
  sep = "-"%char \/ sep = ":"%char ->
  digit_head o -> run (Seq (LitI sep) k) o = [].
Proof.
  intros Hsep (c & t & Ho & Hc). destruct o as [caps s]. simpl in Ho. subst s.
  destruct (digit_not_separator c Hc) as (H1 & H2 & _).
  cbn [run fst snd]. destruct Hsep as [-> | ->].
  - rewrite H1. reflexivity.
  - rewrite H2. reflexivity.
Qed.

Lemma blank_dies (k : regex) (o : mstate) :
  digit_head o -> run (Seq (Plus is_space) k) o = [].
Proof.
  intros (c & t & Ho & Hc). destruct o as [caps s]. simpl in Ho. subst s.
  destruct (digit_not_separator c Hc) as (_ & _ & H3).
  cbn [run fst snd plus_class]. rewrite H3. reflexivity.
Qed.

Lemma separator_step (sep : ascii) (k : regex) (caps : captures)
    (tail : string) :
  run (Seq (LitI sep) k) (caps, String sep tail) = run k (caps, tail).
Proof.
  cbn [run fst snd]. rewrite Ascii.eqb_refl.
  cbn [flat_map]. apply app_nil_r.
Qed.

Lemma field_then_separator (d : ascii) (name : string) (v : Z) (sep : ascii)
    (k : regex) (caps : captures) (tail : string) :
  two_digit_field d name v ->
  sep = "-"%char \/ sep = ":"%char ->
  run (Seq (directive d) (Seq (LitI sep) k))
      (caps, String (digit_char (v / 10 mod 10))
               (String (digit_char (v mod 10)) (String sep tail)))
  = run k ((name, pad2 v) :: caps, tail).
Proof.
  intros [_ Hf] Hsep.
  destruct (Hf caps (String sep tail)) as (others & Hrun & Hothers).
  rewrite (run_seq_first _ _ _ _ _ Hrun).
  - cbn [run fst snd flat_map]. rewrite Ascii.eqb_refl.
    cbn [flat_map]. apply app_nil_r.
  - intros o Ho. apply separator_dies; [exact Hsep|].
    rewrite Forall_forall in Hothers. now apply Hothers.
Qed.

Lemma field_then_blank (d : ascii) (name : string) (v : Z)
    (k : regex) (caps : captures) (c : ascii) (tail : string) :
  two_digit_field d name v ->
  is_digit c = true ->
  run (Seq (directive d) (Seq (Plus is_space) k))
      (caps, String (digit_char (v / 10 mod 10))
               (String (digit_char (v mod 10)) (String " " (String c tail))))
  = run k ((name, pad2 v) :: caps, String c tail).
Proof.
  intros [_ Hf] Hc.
  destruct (Hf caps (String " " (String c tail))) as (others & Hrun & Hothers).
  rewrite (run_seq_first _ _ _ _ _ Hrun).
  - destruct (digit_not_separator c Hc) as (_ & _ & H3).
    cbn [run fst snd plus_class]. rewrite H3.
    cbn [is_space nat_of_ascii map app flat_map fst snd].
    change (is_space " ") with true. cbn [map app flat_map].
    apply app_nil_r.
  - intros o Ho. apply blank_dies.
    rewrite Forall_forall in Hothers. now apply Hothers.
Qed.

Lemma field_at_end (d : ascii) (name : string) (v : Z) (caps : captures) :
  two_digit_field d name v ->
  hd_error (run (Seq (directive d) Eps)
              (caps, String (digit_char (v / 10 mod 10))
                       (String (digit_char (v mod 10)) "")))
  = Some ((name, pad2 v) :: caps, EmptyString).
Proof.
  intros [_ Hf].
  destruct (Hf caps EmptyString) as (others & Hrun & _).
  cbn [run]. rewrite Hrun. reflexivity.
Qed.

Definition query_format : string := "%Y-%m-%d %H:%M:%S".

(** The bounds the [datetime] constructor checks. *)
Lemma valid_bounds (dt : datetime) :
  valid dt = true ->
  1 <= year dt <= 9999 /\ 1 <= month dt <= 12 /\ 1 <= day dt <= 31 /\
  0 <= hour dt <= 23 /\ 0 <= minute dt <= 59 /\ 0 <= second dt <= 59.
Proof.
  unfold valid. rewrite !andb_true_iff, !Z.leb_le.
  intros H.
  assert (Hd : days_in_month (year dt) (month dt) <= 31).
  { unfold days_in_month.
    destruct (month dt =? 2); [destruct (is_leap (year dt)); lia|].
    destruct ((month dt =? 4) || (month dt =? 6) || (month dt =? 9)
              || (month dt =? 11)); lia. }
  lia.
Qed.

(** [strptime] reads back a date written in the layout of its format
    with a four-digit year. *)
Lemma strptime_iso_text (dt : datetime) :
  valid dt = true ->
  strptime (iso_text query_format dt) query_format = Ok dt.
Proof.
  intros Hvalid.
  destruct (valid_bounds dt Hvalid) as (Hy & Hm & Hd & HH & HM & HS).
  destruct dt as [y m d H M S]. cbn [year month day hour minute second] in *.
  destruct (year_field y) as [Yint Yrun]; [lia|].
  pose proof (month_field m Hm) as Fm.
  pose proof (day_field d Hd) as Fd.
  pose proof (hour_field H HH) as FH.
  pose proof (minute_field M HM) as FM.
  pose proof (second_field S HS) as FS.
  destruct (digit_char_spec (H / 10 mod 10)) as (Hh1 & _);
    [pose proof (Z.mod_pos_bound (H / 10) 10); lia|].
  assert (Hrun :
    re_match (pattern query_format)
      (iso_text query_format (mkDatetime y m d H M S))
    = Some ([("S", pad2 S); ("M", pad2 M); ("H", pad2 H); ("d", pad2 d);
             ("m", pad2 m); ("Y", pad4 y)]%string, EmptyString)).
  { unfold re_match.
    change (pattern query_format)
      with (Seq (directive "Y") (Seq (LitI "-")
           (Seq (directive "m") (Seq (LitI "-")
           (Seq (directive "d") (Seq (Plus is_space)
           (Seq (directive "H") (Seq (LitI ":")
           (Seq (directive "M") (Seq (LitI ":")
           (Seq (directive "S") Eps))))))))))).
    change (iso_text query_format (mkDatetime y m d H M S))
      with (String (digit_char (y / 1000 mod 10))
           (String (digit_char (y / 100 mod 10))
           (String (digit_char (y / 10 mod 10))
           (String (digit_char (y mod 10))
           (String "-"
           (String (digit_char (m / 10 mod 10)) (String (digit_char (m mod 10))
           (String "-"
           (String (digit_char (d / 10 mod 10)) (String (digit_char (d mod 10))
           (String " "
           (String (digit_char (H / 10 mod 10)) (String (digit_char (H mod 10))
           (String ":"
           (String (digit_char (M / 10 mod 10)) (String (digit_char (M mod 10))
           (String ":"
           (String (digit_char (S / 10 mod 10)) (String (digit_char (S mod 10))
           ""))))))))))))))))))).
    rewrite (run_seq_first _ _ _ _ [] (Yrun _ _)) by (intros o []).
    rewrite separator_step.
    rewrite (field_then_separator "m" "m" m "-" _ _ _ Fm) by auto.
    rewrite (field_then_blank "d" "d" d _ _ _ _ Fd Hh1).
    rewrite (field_then_separator "H" "H" H ":" _ _ _ FH) by auto.
    rewrite (field_then_separator "M" "M" M ":" _ _ _ FM) by auto.
    apply (field_at_end "S" "S" S _ FS). }
  unfold strptime. rewrite Hrun.
  unfold field. cbn [group String.eqb Ascii.eqb Bool.eqb].
  rewrite Yint.
  rewrite (proj1 Fm), (proj1 Fd), (proj1 FH), (proj1 FM), (proj1 FS).
  cbn [bind]. rewrite Hvalid. reflexivity.
Qed.

Lemma mod10_digit (z : Z) : is_digit (digit_char (z mod 10)) = true.
Proof.
  apply digit_char_spec. pose proof (Z.mod_pos_bound z 10). lia.
Qed.

Lemma replace_skip (c x : ascii) (by_ s : string) :
  Ascii.eqb x c = false ->
  replace c by_ (String x s) = String x (replace c by_ s).
Proof. intros H. cbn [replace]. now rewrite H. Qed.

Lemma digit_neq (x c : ascii) :
  is_digit x = true -> is_digit c = false -> Ascii.eqb x c = false.
Proof.
  intros Hx Hc. destruct (Ascii.eqb_spec x c); [|reflexivity].
  subst. congruence.
Qed.

(** The two [replace] calls of [convert_date_for_query] turn the ISO form
    of a date into the form its [strptime] reads. *)
Lemma replace_markers (dt : datetime) :
  replace "Z" "" (replace "T" " " (iso_text "%Y-%m-%dT%H:%M:%SZ" dt))
  = iso_text query_format dt.
Proof.
  destruct dt as [y m d H M S].
  change (iso_text "%Y-%m-%dT%H:%M:%SZ" (mkDatetime y m d H M S))
    with (String (digit_char (y / 1000 mod 10))
         (String (digit_char (y / 100 mod 10))
         (String (digit_char (y / 10 mod 10))
         (String (digit_char (y mod 10))
         (String "-"
         (String (digit_char (m / 10 mod 10)) (String (digit_char (m mod 10))
         (String "-"
         (String (digit_char (d / 10 mod 10)) (String (digit_char (d mod 10))
         (String "T"
         (String (digit_char (H / 10 mod 10)) (String (digit_char (H mod 10))
         (String ":"
         (String (digit_char (M / 10 mod 10)) (String (digit_char (M mod 10))
         (String ":"
         (String (digit_char (S / 10 mod 10)) (String (digit_char (S mod 10))
         "Z"))))))))))))))))))).
  change (iso_text query_format (mkDatetime y m d H M S))
    with (String (digit_char (y / 1000 mod 10))
         (String (digit_char (y / 100 mod 10))
         (String (digit_char (y / 10 mod 10))
         (String (digit_char (y mod 10))
         (String "-"
         (String (digit_char (m / 10 mod 10)) (String (digit_char (m mod 10))
         (String "-"
         (String (digit_char (d / 10 mod 10)) (String (digit_char (d mod 10))
         (String " "
         (String (digit_char (H / 10 mod 10)) (String (digit_char (H mod 10))
         (String ":"
         (String (digit_char (M / 10 mod 10)) (String (digit_char (M mod 10))
         (String ":"
         (String (digit_char (S / 10 mod 10)) (String (digit_char (S mod 10))
         ""))))))))))))))))))).
  repeat (rewrite (replace_skip "T")
            by first [reflexivity
                     | apply digit_neq; [apply mod10_digit | reflexivity]]).
  change (replace "T" " " (String "T" ?s)) with (String " " (replace "T" " " s)).
  repeat (rewrite (replace_skip "T")
            by first [reflexivity
                     | apply digit_neq; [apply mod10_digit | reflexivity]]).
  repeat (rewrite (replace_skip "Z")
            by first [reflexivity
                     | apply digit_neq; [apply mod10_digit | reflexivity]]).
  reflexivity.
Qed.

(** The decimal digit [z] in front of [rest]. *)
Definition digit_uint (z : Z) (rest : Decimal.uint) : Decimal.uint :=
  match z with
  | 0 => Decimal.D0 rest
  | 1 => Decimal.D1 rest
  | 2 => Decimal.D2 rest
  | 3 => Decimal.D3 rest
  | 4 => Decimal.D4 rest
  | 5 => Decimal.D5 rest
  | 6 => Decimal.D6 rest
  | 7 => Decimal.D7 rest
  | 8 => Decimal.D8 rest
  | _ => Decimal.D9 rest
  end.

(** Splits a goal about a digit [a] into its ten values. *)
Ltac digit_cases a :=
  let H := fresh in
  assert (H : a = 0 \/ a = 1 \/ a = 2 \/ a = 3 \/ a = 4 \/ a = 5 \/ a = 6
              \/ a = 7 \/ a = 8 \/ a = 9) by lia;
  repeat (destruct H as [-> | H]); [..|subst a].

Lemma digit_uint_string (a : Z) (rest : Decimal.uint) :
  0 <= a <= 9 ->
  NilEmpty.string_of_uint (digit_uint a rest)
  = String (digit_char a) (NilEmpty.string_of_uint rest).
Proof. intros Ha. digit_cases a; reflexivity. Qed.

Lemma digit_uint_acc (a : Z) (rest : Decimal.uint) (acc : positive) :
  0 <= a <= 9 ->
  Pos.of_uint_acc (digit_uint a rest) acc
  = Pos.of_uint_acc rest (Z.to_pos (a + 10 * Zpos acc)).
Proof. intros Ha. digit_cases a; reflexivity. Qed.

Lemma digit_uint_head (a : Z) (rest : Decimal.uint) :
  1 <= a <= 9 ->
  Pos.of_uint (digit_uint a rest) = Npos (Pos.of_uint_acc rest (Z.to_pos a)) /\
  Decimal.unorm (digit_uint a rest) = digit_uint a rest /\
  NilZero.string_of_uint (digit_uint a rest)
  = NilEmpty.string_of_uint (digit_uint a rest).
Proof. intros Ha. digit_cases a; try lia; repeat split. Qed.

(** From the year 1000 on, the decimal form of a year is its four-digit
    form. *)
Lemma str_int_pad4 (y : Z) : 1000 <= y <= 9999 -> str_int y = pad4 y.
Proof.
  intros Hy.
  set (a := y / 1000 mod 10). set (b := y / 100 mod 10).
  set (c := y / 10 mod 10). set (d := y mod 10).
  assert (Hd : 1 <= a <= 9 /\ 0 <= b <= 9 /\ 0 <= c <= 9 /\ 0 <= d <= 9 /\
               y = d + 10 * (c + 10 * (b + 10 * a))).
  { subst a b c d. Z.to_euclidean_division_equations. lia. }
  destruct Hd as (Ha & Hb & Hc & Hd & Hval).
  set (u := digit_uint a (digit_uint b (digit_uint c (digit_uint d Decimal.Nil)))).
  destruct (digit_uint_head a (digit_uint b (digit_uint c (digit_uint d Decimal.Nil))) Ha)
    as (Hhead & Hnorm & Hstr).
  assert (Hof : Z.of_int (Decimal.Pos u) = y).
  { unfold Z.of_int, Z.of_uint, u. rewrite Hhead.
    rewrite !digit_uint_acc by assumption.
    cbn [Pos.of_uint_acc Z.of_N].
    rewrite !Z2Pos.id by lia. lia. }
  unfold str_int. rewrite <- Hof at 1. rewrite DecimalZ.to_of.
  cbn [Decimal.norm]. unfold u. rewrite Hnorm.
  cbn [NilZero.string_of_int]. rewrite Hstr.
  rewrite !digit_uint_string by lia.
  reflexivity.
Qed.

Lemma strftime_cons (c : ascii) (rest : string) (dt : datetime) :
  strftime (String c rest) dt
  = if Ascii.eqb c "%" then
      match rest with
      | String d rest' =>
          (if Ascii.eqb d "Y" then str_int (year dt)
           else if Ascii.eqb d "m" then pad2 (month dt)
           else if Ascii.eqb d "d" then pad2 (day dt)
           else if Ascii.eqb d "H" then pad2 (hour dt)
           else if Ascii.eqb d "M" then pad2 (minute dt)
           else if Ascii.eqb d "S" then pad2 (second dt)
           else String c (String d EmptyString))
          +:+ strftime rest' dt
      | EmptyString => String c EmptyString
      end
    else String c (strftime rest dt).
Proof. reflexivity. Qed.

Lemma iso_text_cons (c : ascii) (rest : string) (dt : datetime) :
  iso_text (String c rest) dt
  = if Ascii.eqb c "%" then
      match rest with
      | String d rest' =>
          (if Ascii.eqb d "Y" then pad4 (year dt)
           else if Ascii.eqb d "m" then pad2 (month dt)
           else if Ascii.eqb d "d" then pad2 (day dt)
           else if Ascii.eqb d "H" then pad2 (hour dt)
           else if Ascii.eqb d "M" then pad2 (minute dt)
           else if Ascii.eqb d "S" then pad2 (second dt)
           else String c (String d EmptyString))
          +:+ iso_text rest' dt
      | EmptyString => String c EmptyString
      end
    else String c (iso_text rest dt).
Proof. reflexivity. Qed.

(** From the year 1000 on, [strftime] writes the four-digit-year form. *)
Lemma strftime_iso_text (fmt : string) (dt : datetime) :
  valid dt = true -> 1000 <= year dt ->
  strftime fmt dt = iso_text fmt dt.
Proof.
  intros Hvalid Hmodern.
  assert (Hy : str_int (year dt) = pad4 (year dt)).
  { apply str_int_pad4. pose proof (valid_bounds dt Hvalid). lia. }
  assert (H : forall f,
             strftime f dt = iso_text f dt /\
             forall c, strftime (String c f) dt = iso_text (String c f) dt).
  { induction f as [|a f [IH1 IH2]].
    - split; [reflexivity|]. intros c. reflexivity.
    - split; [apply IH2|]. intros c.
      rewrite (strftime_cons c), (iso_text_cons c).
      destruct (Ascii.eqb c "%").
      + now rewrite IH1, Hy.
      + now rewrite IH2. }
  apply H.
Qed.

(** Below the year 1000 it does not: the year is not padded. *)
Lemma strftime_year_999 :
  strftime "%Y-%m-%dT%H:%M:%SZ" (mkDatetime 999 1 2 0 0 0)
  = "999-01-02T00:00:00Z"%string.
Proof. vm_compute. reflexivity. Qed.

End DateFacts.

(** [convert_date_for_db] on a timestamp of the years from 1000 on: the
    last ten characters go, the rest is rewritten in the ISO form. *)
Lemma convert_date_for_db_modern (dt : Datetime.datetime) (suffix : string) :
  Datetime.valid dt = true ->
  1000 <= Datetime.year dt ->
  String.length suffix = 10%nat ->
  convert_date_for_db (Datetime.iso_text "%Y-%m-%d %H:%M:%S" dt +:+ suffix)
  = Ok (Datetime.iso_text "%Y-%m-%dT%H:%M:%SZ" dt).
Proof.
  intros Hvalid Hmodern Hlen. unfold convert_date_for_db, drop_last.
  rewrite length_append, Hlen.
  replace (String.length (Datetime.iso_text "%Y-%m-%d %H:%M:%S" dt) + 10 - 10)%nat
    with (String.length (Datetime.iso_text "%Y-%m-%d %H:%M:%S" dt)) by lia.
  rewrite substring_append.
  change "%Y-%m-%d %H:%M:%S"%string with DateFacts.query_format.
  rewrite (DateFacts.strptime_iso_text dt Hvalid). cbn [bind].
  now rewrite (DateFacts.strftime_iso_text _ dt Hvalid Hmodern).
Qed.

(** ** C9 *)

Definition april_8 : Datetime.datetime :=
  Datetime.mkDatetime 2020 4 8 0 0 0.

(** C9. For a valid date and time of the year 1000 or later,
    [convert_date_for_query] of its ISO form [YYYY-MM-DDTHH:MM:SSZ] is the
    bare date [YYYY-MM-DD], the first ten characters of the argument, and
    [convert_date_for_db] of its Gerrit form [YYYY-MM-DD HH:MM:SS] followed
    by a point and nine more characters is that ISO form.  So
    ["2020-04-08T00:00:00Z"] gives ["2020-04-08"], and
    ["2020-04-08 10:15:30.000000000"] gives ["2020-04-08T10:15:30Z"]. *)
Theorem date_conversions :
  (forall dt : Datetime.datetime,
      Datetime.valid dt = true ->
      1000 <= Datetime.year dt ->
      convert_date_for_query (Datetime.iso_text "%Y-%m-%dT%H:%M:%SZ" dt)
      = Ok (substring 0 10 (Datetime.iso_text "%Y-%m-%dT%H:%M:%SZ" dt)) /\
      substring 0 10 (Datetime.iso_text "%Y-%m-%dT%H:%M:%SZ" dt)
      = Datetime.iso_text "%Y-%m-%d" dt /\
      forall fraction : string,
        String.length fraction = 9%nat ->
        convert_date_for_db
          (Datetime.iso_text "%Y-%m-%d %H:%M:%S" dt +:+ "." +:+ fraction)
        = Ok (Datetime.iso_text "%Y-%m-%dT%H:%M:%SZ" dt)) /\
  convert_date_for_query "2020-04-08T00:00:00Z" = Ok "2020-04-08"%string /\
  convert_date_for_db "2020-04-08 10:15:30.000000000"
  = Ok "2020-04-08T10:15:30Z"%string.
Proof.
  split; [|split].
  - intros dt Hvalid Hmodern.
    assert (Hten : substring 0 10 (Datetime.iso_text "%Y-%m-%dT%H:%M:%SZ" dt)
                   = Datetime.iso_text "%Y-%m-%d" dt)
      by (destruct dt as [y m d H M S]; reflexivity).
    split; [|split].
    + rewrite Hten. unfold convert_date_for_query.
      rewrite DateFacts.replace_markers.
      change "%Y-%m-%d %H:%M:%S"%string with DateFacts.query_format.
      rewrite (DateFacts.strptime_iso_text dt Hvalid). cbn [bind].
      now rewrite (DateFacts.strftime_iso_text _ dt Hvalid Hmodern).
    + exact Hten.
    + intros fraction Hlen.
      apply (convert_date_for_db_modern dt ("." +:+ fraction) Hvalid Hmodern).
      change (S (String.length fraction) = 10%nat). now rewrite Hlen.
  - vm_compute. reflexivity.
  - vm_compute. reflexivity.
Qed.

Lemma date_conversions_witness :
  convert_date_for_query (Datetime.iso_text "%Y-%m-%dT%H:%M:%SZ" april_8)
  = Ok "2020-04-08"%string /\
  convert_date_for_db
    (Datetime.iso_text "%Y-%m-%d %H:%M:%S" april_8 +:+ "." +:+ "123456789")
  = Ok "2020-04-08T00:00:00Z"%string.
Proof.
  destruct date_conversions as (H & _).
  destruct (H april_8) as (Hq & _ & Hdb).
  - reflexivity.
  - simpl. lia.
  - split; [exact Hq|]. apply (Hdb "123456789"%string). reflexivity.
Defined.

(** * Further properties of the crawler *)

(** ** The normalized dates *)

Module IsoFacts.
Import Re Datetime DateFacts.

Lemma lower_digit (d : ascii) : is_digit d = true -> lower d = d.
Proof.
  destruct d as [[] [] [] [] [] [] [] []]; vm_compute; intros H;
    try discriminate; reflexivity.
Qed.

Lemma lower_not_digit (c : ascii) :
  is_digit c = false -> is_digit (lower c) = false.
Proof.
  destruct c as [[] [] [] [] [] [] [] []]; vm_compute; intros H;
    try discriminate; reflexivity.
Qed.

Lemma marker_dies (sep : ascii) (k : regex) (o : mstate) :
  is_digit sep = false ->
  digit_head o -> run (Seq (LitI sep) k) o = [].
Proof.
  intros Hsep (c & t & Ho & Hc). destruct o as [caps s]. simpl in Ho. subst s.
  cbn [run fst snd]. rewrite (lower_digit c Hc).
  destruct (Ascii.eqb_spec (lower sep) c) as [E|E]; [|reflexivity].
  apply lower_not_digit in Hsep. rewrite E in Hsep. congruence.
Qed.

Lemma field_then_marker (d : ascii) (name : string) (v : Z) (sep : ascii)
    (k : regex) (caps : captures) (tail : string) :
  two_digit_field d name v ->
  is_digit sep = false ->
  run (Seq (directive d) (Seq (LitI sep) k))
      (caps, String (digit_char (v / 10 mod 10))
               (String (digit_char (v mod 10)) (String sep tail)))
  = run k ((name, pad2 v) :: caps, tail).
Proof.
  intros [_ Hf] Hsep.
  destruct (Hf caps (String sep tail)) as (others & Hrun & Hothers).
  rewrite (run_seq_first _ _ _ _ _ Hrun).
  - apply separator_step.
  - intros o Ho. apply marker_dies; [exact Hsep|].
    rewrite Forall_forall in Hothers. now apply Hothers.
Qed.

(** [strptime] reads back a date written in the ISO form of the events. *)
Lemma strptime_iso_text_iso (dt : datetime) :
  valid dt = true ->
  strptime (iso_text iso_format dt) iso_format = Ok dt.
Proof.
  intros Hvalid.
  destruct (valid_bounds dt Hvalid) as (Hy & Hm & Hd & HH & HM & HS).
  destruct dt as [y m d H M S]. cbn [year month day hour minute second] in *.
  destruct (year_field y) as [Yint Yrun]; [lia|].
  pose proof (month_field m Hm) as Fm.
  pose proof (day_field d Hd) as Fd.
  pose proof (hour_field H HH) as FH.
  pose proof (minute_field M HM) as FM.
  pose proof (second_field S HS) as FS.
  assert (Hrun :
    re_match (pattern iso_format)
      (iso_text iso_format (mkDatetime y m d H M S))
    = Some ([("S", pad2 S); ("M", pad2 M); ("H", pad2 H); ("d", pad2 d);
             ("m", pad2 m); ("Y", pad4 y)]%string, EmptyString)).
  { unfold re_match.
    change (pattern iso_format)
      with (Seq (directive "Y") (Seq (LitI "-")
           (Seq (directive "m") (Seq (LitI "-")
           (Seq (directive "d") (Seq (LitI "T")
           (Seq (directive "H") (Seq (LitI ":")
           (Seq (directive "M") (Seq (LitI ":")
           (Seq (directive "S") (Seq (LitI "Z") Eps)))))))))))).
    change (iso_text iso_format (mkDatetime y m d H M S))
      with (String (digit_char (y / 1000 mod 10))
           (String (digit_char (y / 100 mod 10))
           (String (digit_char (y / 10 mod 10))
           (String (digit_char (y mod 10))
           (String "-"
           (String (digit_char (m / 10 mod 10)) (String (digit_char (m mod 10))
           (String "-"
           (String (digit_char (d / 10 mod 10)) (String (digit_char (d mod 10))
           (String "T"
           (String (digit_char (H / 10 mod 10)) (String (digit_char (H mod 10))
           (String ":"
           (String (digit_char (M / 10 mod 10)) (String (digit_char (M mod 10))
           (String ":"
           (String (digit_char (S / 10 mod 10)) (String (digit_char (S mod 10))
           "Z"))))))))))))))))))).
    rewrite (run_seq_first _ _ _ _ [] (Yrun _ _)) by (intros o []).
    rewrite separator_step.
    rewrite (field_then_marker "m" "m" m "-" _ _ _ Fm) by reflexivity.
    rewrite (field_then_marker "d" "d" d "T" _ _ _ Fd) by reflexivity.
    rewrite (field_then_marker "H" "H" H ":" _ _ _ FH) by reflexivity.
    rewrite (field_then_marker "M" "M" M ":" _ _ _ FM) by reflexivity.
    rewrite (field_then_marker "S" "S" S "Z" _ _ _ FS) by reflexivity.
    reflexivity. }
  unfold strptime. rewrite Hrun.
  unfold field. cbn [group String.eqb Ascii.eqb Bool.eqb].
  rewrite Yint.
  rewrite (proj1 Fm), (proj1 Fd), (proj1 FH), (proj1 FM), (proj1 FS).
  cbn [bind]. rewrite Hvalid. reflexivity.
Qed.

(** What [strptime] returns passed the [datetime] constructor's checks. *)
Lemma strptime_valid (s fmt : string) (dt : datetime) :
  strptime s fmt = Ok dt -> valid dt = true.
Proof.
  unfold strptime.
  destruct (re_match (pattern fmt) s) as [[found rest]|]; [|discriminate].
  destruct rest; [|discriminate].
  intros H. repeat inv_bind H.
  destruct (valid _) eqn:Hvalid; [|discriminate].
  injection H as <-. exact Hvalid.
Qed.

Lemma drop_last_append (w suffix : string) (n : nat) :
  String.length suffix = n -> drop_last n (w +:+ suffix) = w.
Proof.
  intros <-. unfold drop_last. rewrite length_append.
  replace (String.length w + String.length suffix - String.length suffix)%nat
    with (String.length w) by lia.
  apply substring_append.
Qed.

Lemma drop_last_short (s : string) (n : nat) :
  (String.length s <= n)%nat -> drop_last n s = EmptyString.
Proof.
  intros H. unfold drop_last.
  replace (String.length s - n)%nat with 0%nat by lia.
  destruct s; reflexivity.
Qed.

(** A date that [convert_date_for_db] returns is the ISO form of a valid
    date and time. *)
Lemma convert_date_for_db_iso (s r : string) :
  convert_date_for_db s = Ok r ->
  exists dt, valid dt = true /\ r = strftime iso_format dt.
Proof.
  unfold convert_date_for_db. intros H.
  apply bind_ok in H. destruct H as (dt & Hdt & H).
  injection H as <-. exists dt. split; [|reflexivity].
  exact (strptime_valid _ _ _ Hdt).
Qed.

End IsoFacts.

Definition april_8_morning : Datetime.datetime :=
  Datetime.mkDatetime 2020 4 8 10 15 30.

Definition april_9_morning : Datetime.datetime :=
  Datetime.mkDatetime 2020 4 9 10 15 30.

(** X1. [convert_date_for_db] drops the last ten characters of its
    argument, whatever they are, and rewrites what is left, a valid date
    and time of the year 1000 or later in the form [YYYY-MM-DD HH:MM:SS],
    in the ISO form. *)
Theorem convert_date_for_db_drops_suffix
    (dt : Datetime.datetime) (suffix : string) :
  Datetime.valid dt = true ->
  1000 <= Datetime.year dt ->
  String.length suffix = 10%nat ->
  convert_date_for_db (Datetime.iso_text "%Y-%m-%d %H:%M:%S" dt +:+ suffix)
  = Ok (Datetime.iso_text "%Y-%m-%dT%H:%M:%SZ" dt).
Proof.
  intros Hvalid Hmodern Hlen. unfold convert_date_for_db.
  rewrite (IsoFacts.drop_last_append _ suffix 10 Hlen).
  change "%Y-%m-%d %H:%M:%S"%string with DateFacts.query_format.
  rewrite (DateFacts.strptime_iso_text dt Hvalid). cbn [bind].
  now rewrite (DateFacts.strftime_iso_text _ dt Hvalid Hmodern).
Qed.

Lemma convert_date_for_db_drops_suffix_witness :
  convert_date_for_db
    (Datetime.iso_text "%Y-%m-%d %H:%M:%S" april_8_morning +:+ " not a n/a")
  = Ok "2020-04-08T10:15:30Z"%string.
Proof.
  rewrite (convert_date_for_db_drops_suffix april_8_morning " not a n/a").
  - reflexivity.
  - reflexivity.
  - simpl. lia.
  - reflexivity.
Defined.

(** X2. On an argument of at most ten characters, a bare date for one,
    [convert_date_for_db] raises [ValueError]: nothing is left for
    [strptime]. *)
Theorem convert_date_for_db_short (s : string) :
  (String.length s <= 10)%nat ->
  convert_date_for_db s = Raise ValueError.
Proof.
  intros H. unfold convert_date_for_db.
  rewrite (IsoFacts.drop_last_short s 10 H). reflexivity.
Qed.

Lemma convert_date_for_db_short_witness :
  convert_date_for_db "2020-04-08" = Raise ValueError.
Proof.
  apply convert_date_for_db_short. simpl. lia.
Defined.

Lemma replace_no_markers (dt : Datetime.datetime) :
  replace "Z" "" (replace "T" " " (Datetime.iso_text DateFacts.query_format dt))
  = Datetime.iso_text DateFacts.query_format dt.
Proof.
  destruct dt as [y m d H M S].
  change (Datetime.iso_text DateFacts.query_format
            (Datetime.mkDatetime y m d H M S))
    with (String (Datetime.digit_char (y / 1000 mod 10))
         (String (Datetime.digit_char (y / 100 mod 10))
         (String (Datetime.digit_char (y / 10 mod 10))
         (String (Datetime.digit_char (y mod 10))
         (String "-"
         (String (Datetime.digit_char (m / 10 mod 10))
         (String (Datetime.digit_char (m mod 10))
         (String "-"
         (String (Datetime.digit_char (d / 10 mod 10))
         (String (Datetime.digit_char (d mod 10))
         (String " "
         (String (Datetime.digit_char (H / 10 mod 10))
         (String (Datetime.digit_char (H mod 10))
         (String ":"
         (String (Datetime.digit_char (M / 10 mod 10))
         (String (Datetime.digit_char (M mod 10))
         (String ":"
         (String (Datetime.digit_char (S / 10 mod 10))
         (String (Datetime.digit_char (S mod 10))
         ""))))))))))))))))))).
  repeat (rewrite (DateFacts.replace_skip "T")
            by first [reflexivity
                     | apply DateFacts.digit_neq;
                       [apply DateFacts.mod10_digit | reflexivity]]).
  repeat (rewrite (DateFacts.replace_skip "Z")
            by first [reflexivity
                     | apply DateFacts.digit_neq;
                       [apply DateFacts.mod10_digit | reflexivity]]).
  reflexivity.
Qed.

(** X3. [convert_date_for_query] also takes the form
    [YYYY-MM-DD HH:MM:SS], without the markers, as the script at the end
    of the file passes it, and, for a date of the year 1000 or later,
    gives the same bare date: the time of day does not reach the query. *)
Theorem convert_date_for_query_blank_form (dt : Datetime.datetime) :
  Datetime.valid dt = true ->
  1000 <= Datetime.year dt ->
  convert_date_for_query (Datetime.iso_text "%Y-%m-%d %H:%M:%S" dt)
  = Ok (Datetime.iso_text "%Y-%m-%d" dt) /\
  convert_date_for_query (Datetime.iso_text "%Y-%m-%d %H:%M:%S" dt)
  = convert_date_for_query (Datetime.iso_text "%Y-%m-%dT%H:%M:%SZ" dt).
Proof.
  intros Hvalid Hmodern.
  assert (H : convert_date_for_query
                (Datetime.iso_text "%Y-%m-%d %H:%M:%S" dt)
              = Ok (Datetime.iso_text "%Y-%m-%d" dt)).
  { unfold convert_date_for_query.
    change "%Y-%m-%d %H:%M:%S"%string with DateFacts.query_format.
    rewrite replace_no_markers.
    rewrite (DateFacts.strptime_iso_text dt Hvalid). cbn [bind].
    now rewrite (DateFacts.strftime_iso_text _ dt Hvalid Hmodern). }
  split; [exact H|]. rewrite H.
  unfold convert_date_for_query.
  rewrite DateFacts.replace_markers.
  change "%Y-%m-%d %H:%M:%S"%string with DateFacts.query_format.
  rewrite (DateFacts.strptime_iso_text dt Hvalid). cbn [bind].
  now rewrite (DateFacts.strftime_iso_text _ dt Hvalid Hmodern).
Qed.

Lemma convert_date_for_query_blank_form_witness :
  convert_date_for_query "2020-04-08 10:15:30" = Ok "2020-04-08"%string.
Proof.
  destruct (convert_date_for_query_blank_form april_8_morning) as [H _].
  - reflexivity.
  - simpl. lia.
  - exact H.
Defined.

Lemma timedelta_iso (a b : Datetime.datetime) :
  Datetime.valid a = true -> Datetime.valid b = true ->
  timedelta (VStr (Datetime.iso_text iso_format a))
            (VStr (Datetime.iso_text iso_format b))
  = Ok (Datetime.timestamp a - Datetime.timestamp b).
Proof.
  intros Ha Hb. unfold timedelta, strptime_val.
  change "%Y-%m-%dT%H:%M:%SZ"%string with iso_format.
  rewrite (IsoFacts.strptime_iso_text_iso a Ha).
  cbn [bind].
  rewrite (IsoFacts.strptime_iso_text_iso b Hb).
  cbn [bind]. now rewrite diff_seconds_timestamp.
Qed.

(** X4. On two dates that [convert_date_for_db] returned for timestamps
    of the year 1000 or later, [timedelta] does not raise: it gives the
    seconds from the second one to the first one. *)
Theorem timedelta_of_normalized_dates
    (s1 s2 : string) (d1 d2 : Datetime.datetime) :
  Datetime.strptime (drop_last 10 s1) "%Y-%m-%d %H:%M:%S" = Ok d1 ->
  Datetime.strptime (drop_last 10 s2) "%Y-%m-%d %H:%M:%S" = Ok d2 ->
  1000 <= Datetime.year d1 ->
  1000 <= Datetime.year d2 ->
  exists r1 r2,
    convert_date_for_db s1 = Ok r1 /\
    convert_date_for_db s2 = Ok r2 /\
    timedelta (VStr r1) (VStr r2)
    = Ok (Datetime.timestamp d1 - Datetime.timestamp d2).
Proof.
  intros Hd1 Hd2 Hm1 Hm2.
  pose proof (IsoFacts.strptime_valid _ _ _ Hd1) as Hv1.
  pose proof (IsoFacts.strptime_valid _ _ _ Hd2) as Hv2.
  exists (Datetime.strftime iso_format d1), (Datetime.strftime iso_format d2).
  unfold convert_date_for_db. rewrite Hd1, Hd2. cbn [bind].
  split; [reflexivity|]. split; [reflexivity|].
  rewrite (DateFacts.strftime_iso_text _ d1 Hv1 Hm1).
  rewrite (DateFacts.strftime_iso_text _ d2 Hv2 Hm2).
  now apply timedelta_iso.
Qed.

Lemma timedelta_of_normalized_dates_witness :
  timedelta (VStr "2020-04-09T10:15:30Z") (VStr "2020-04-08T10:15:30Z")
  = Ok 86400.
Proof.
  destruct (timedelta_of_normalized_dates
              "2020-04-09 10:15:30.000000000" "2020-04-08 10:15:30.000000000"
              april_9_morning april_8_morning)
    as (r1 & r2 & H1 & H2 & H).
  - vm_compute. reflexivity.
  - vm_compute. reflexivity.
  - simpl. lia.
  - simpl. lia.
  - vm_compute in H1. injection H1 as <-.
    vm_compute in H2. injection H2 as <-.
    exact H.
Defined.

(** X5. Swapping the arguments of [timedelta] changes the sign of the
    result. *)
Theorem timedelta_swap (a b : pyval) (d : Z) :
  timedelta a b = Ok d -> timedelta b a = Ok (- d).
Proof.
  unfold timedelta. intros H.
  apply bind_ok in H. destruct H as (da & Ha & H).
  apply bind_ok in H. destruct H as (db & Hb & H).
  injection H as <-.
  rewrite Hb. cbn [bind]. rewrite Ha. cbn [bind].
  f_equal. rewrite !diff_seconds_timestamp. ring.
Qed.

Lemma timedelta_swap_witness :
  timedelta (VStr "2020-04-08T10:15:30Z") (VStr "2020-04-09T10:15:30Z")
  = Ok (- 86400).
Proof.
  apply (timedelta_swap (VStr "2020-04-09T10:15:30Z")
           (VStr "2020-04-08T10:15:30Z") 86400).
  vm_compute. reflexivity.
Defined.

(** ** The fields of the Change record *)

(** [review['project'].split('/')[0]] and the rest, joined again. *)
Definition prefix_of (project : string) : string :=
  hd EmptyString (split "/" project).

Definition shortname_of (project : string) : string :=
  join "/" (tl (split "/" project)).

(** What the dict display holds when it gets built. *)
Lemma change_display_ok (self : ReviewesFetcher) (review : ChangeInfo)
    (c0 : pydict) :
  change_display self review = Ok c0 ->
  exists id number branch project owner author title updated updated_at
         created created_at merged_at status state assignees additions
         deletions rev files commit text,
    r_id review = Some id /\
    r_number review = Some number /\
    r_branch review = Some branch /\
    r_project review = Some project /\
    r_owner review = Some owner /\
    account_str owner = Ok author /\
    r_subject review = Some title /\
    r_updated review = Some updated /\
    convert_date_for_db updated = Ok updated_at /\
    r_created review = Some created /\
    convert_date_for_db created = Ok created_at /\
    (if truthy_str (r_submitted review)
     then exists submitted d,
         r_submitted review = Some submitted /\
         convert_date_for_db submitted = Ok d /\ merged_at = VStr d
     else merged_at = VNone) /\
    r_status review = Some status /\
    assoc status status_map = Some state /\
    (if truthy_account (r_assignee review)
     then exists assignee a,
         r_assignee review = Some assignee /\
         account_str assignee = Ok a /\ assignees = [VStr a]
     else assignees = []) /\
    r_insertions review = Some additions /\
    r_deletions review = Some deletions /\
    first_revision review = Ok rev /\
    rev_files rev = Some files /\
    rev_commit rev = Some commit /\
    commit_message commit = Some text /\
    c0 = dict_of
        [("type", VStr "Change");
         ("id", VStr id);
         ("number", VInt number);
         ("target_branch", VStr branch);
         ("branch", VStr branch);
         ("repository_prefix", VStr (prefix_of project));
         ("repository_fullname", VStr project);
         ("repository_shortname", VStr (shortname_of project));
         ("url", VStr (base_url self +:+ "/" +:+ str_int number));
         ("author", VStr author);
         ("title", VStr title);
         ("updated_at", VStr updated_at);
         ("created_at", VStr created_at);
         ("merged_at", merged_at);
         ("mergeable", VBool (match r_mergeable review with
                              | Some v => eq_str v "true"
                              | None => false
                              end));
         ("state", VStr state);
         ("labels", VList []);
         ("assignees", VList assignees);
         ("additions", VInt additions);
         ("deletions", VInt deletions);
         ("commit_count", VInt 1);
         ("changed_files", VInt (Z.of_nat (List.length files)));
         ("changes_files_details", VList (map file_details files));
         ("text", VStr text)]%string.
Proof.
  unfold change_display. intros H.
  repeat inv_bind H.
  injection H as <-.
  repeat match goal with
         | E : getitem _ _ = Ok _ |- _ => apply getitem_ok in E
         end.
  rewrite E1 in E2. injection E2 as <-.
  rewrite E17 in E19. injection E19 as <-.
  rewrite E17 in E21. injection E21 as <-.
  rewrite E18 in E20. injection E20 as <-.
  exists x, x0, x1, x3, x4, x5, x6, x7, x8, x9, x10, x11, x12, x13, x14,
         x15, x16, x17, x18, x22, x23.
  do 11 (split; [assumption|]).
  split.
  { destruct (truthy_str (r_submitted review)).
    - destruct (r_submitted review) as [submitted|]; [|discriminate].
      apply bind_ok in E11. destruct E11 as (d & Hd & E11).
      injection E11 as <-. eauto.
    - now injection E11 as <-. }
  do 2 (split; [assumption|]).
  split.
  { destruct (truthy_account (r_assignee review)).
    - destruct (r_assignee review) as [assignee|]; [|discriminate].
      apply bind_ok in E14. destruct E14 as (a & Ha & E14).
      injection E14 as <-. eauto.
    - now injection E14 as <-. }
  do 6 (split; [assumption|]).
  reflexivity.
Qed.

(** The assignments after the display touch four keys only. *)
Lemma close_change_keeps (review : ChangeInfo) (c0 change : pydict)
    (k : string) :
  close_change review c0 = Ok change ->
  k <> "repository_fullname_and_number"%string ->
  k <> "closed_at"%string ->
  k <> "duration"%string ->
  k <> "merged_by"%string ->
  dict_get k change = dict_get k c0.
Proof.
  intros H K1 K2 K3 K4.
  apply String.eqb_neq in K1, K2, K3, K4.
  unfold close_change in H.
  apply bind_ok in H. destruct H as (fullname & _ & H).
  apply bind_ok in H. destruct H as (number & _ & H).
  cbv zeta in H.
  apply bind_ok in H. destruct H as (state1 & _ & H).
  apply bind_ok in H. destruct H as (c1 & H1 & H).
  apply bind_ok in H. destruct H as (state2 & _ & H).
  apply bind_ok in H. destruct H as (c2 & H2 & H).
  apply bind_ok in H. destruct H as (state3 & _ & H).
  apply bind_ok in H. destruct H as (c3 & H3 & H).
  apply bind_ok in H. destruct H as (state4 & _ & H).
  assert (E4 : dict_get k change = dict_get k c3).
  { destruct (eq_str state4 "MERGED").
    - destruct (r_submitter review).
      + apply bind_ok in H. destruct H as (by_ & _ & H).
        injection H as <-. now rewrite dict_get_set, K4.
      + now injection H as <-.
    - injection H as <-. now rewrite dict_get_set, K4. }
  assert (E3 : dict_get k c3 = dict_get k c2).
  { destruct (eq_str state3 "CLOSED" || eq_str state3 "MERGED").
    - apply bind_ok in H3. destruct H3 as (? & _ & H3).
      apply bind_ok in H3. destruct H3 as (? & _ & H3).
      apply bind_ok in H3. destruct H3 as (? & _ & H3).
      injection H3 as <-. now rewrite dict_get_set, K3.
    - now injection H3 as <-. }
  assert (E2 : dict_get k c2 = dict_get k c1).
  { destruct (eq_str state2 "MERGED").
    - apply bind_ok in H2. destruct H2 as (? & _ & H2).
      injection H2 as <-. now rewrite dict_get_set, K2.
    - now injection H2 as <-. }
  assert (E1 : dict_get k c1 = dict_get k c0).
  { destruct (eq_str state1 "CLOSED").
    - apply bind_ok in H1. destruct H1 as (? & _ & H1).
      injection H1 as <-. now rewrite !dict_get_set, K2, K1.
    - injection H1 as <-. now rewrite dict_get_set, K1. }
  congruence.
Qed.

(** The timestamp under a key of a record, when the key is there and
    [convert_date_for_db] reads it, is of the year 1000 or later. *)
Definition modern (date : option string) : bool :=
  match date with
  | Some s =>
      match Datetime.strptime (drop_last 10 s) "%Y-%m-%d %H:%M:%S" with
      | Ok dt => 1000 <=? Datetime.year dt
      | Raise _ => true
      end
  | None => true
  end.

Lemma timedelta_db (s1 s2 r1 r2 : string) :
  convert_date_for_db s1 = Ok r1 ->
  convert_date_for_db s2 = Ok r2 ->
  modern (Some s1) = true ->
  modern (Some s2) = true ->
  exists z, timedelta (VStr r1) (VStr r2) = Ok z.
Proof.
  unfold convert_date_for_db, modern. intros H1 H2 M1 M2.
  apply bind_ok in H1. destruct H1 as (d1 & Hd1 & H1). injection H1 as <-.
  apply bind_ok in H2. destruct H2 as (d2 & Hd2 & H2). injection H2 as <-.
  rewrite Hd1 in M1. rewrite Hd2 in M2. apply Z.leb_le in M1, M2.
  pose proof (IsoFacts.strptime_valid _ _ _ Hd1) as V1.
  pose proof (IsoFacts.strptime_valid _ _ _ Hd2) as V2.
  rewrite (DateFacts.strftime_iso_text _ d1 V1 M1).
  rewrite (DateFacts.strftime_iso_text _ d2 V2 M2).
  eexists. now apply timedelta_iso.
Qed.

(** Below the year 1000 [timedelta] does not take what
    [convert_date_for_db] returned: its [strptime] wants four digits. *)
Lemma timedelta_year_999 :
  convert_date_for_db "0999-01-02 00:00:00.000000000"
  = Ok "999-01-02T00:00:00Z"%string /\
  timedelta (VStr "999-01-02T00:00:00Z") (VStr "999-01-02T00:00:00Z")
  = Raise ValueError.
Proof. split; vm_compute; reflexivity. Qed.

(** Runs the left-hand side of the goal as far as it goes. *)
Ltac exec_goal :=
  match goal with
  | |- ?lhs = _ =>
      let r := eval cbn in lhs in
      let Heq := fresh in
      assert (Heq : lhs = r) by reflexivity;
      rewrite Heq; clear Heq
  end.

Definition no_account : AccountInfo := mkAccount (Some "Bob"%string) None [].

Definition merged_by_no_account : ChangeInfo :=
  sample_change "MERGED" (Some "2020-04-08 11:15:31.000000000"%string)
    (Some no_account) [] [].

(** X6. Once the dict display of a change is built, and when the
    timestamps [updated], [created] and [submitted] of the record are of
    the year 1000 or later, the assignments that follow it fail in two
    cases only: a MERGED change without a true [submitted] (C10), and a
    MERGED change whose [submitter] has no [_account_id], which raises
    [KeyError].  For any other such change they succeed: the duration
    does not raise on the normalized dates. *)
Theorem close_change_outcome (self : ReviewesFetcher) (review : ChangeInfo)
    (c0 : pydict) :
  change_display self review = Ok c0 ->
  modern (r_updated review) = true ->
  modern (r_created review) = true ->
  modern (r_submitted review) = true ->
  (r_status review <> Some "MERGED"%string ->
   exists change, close_change review c0 = Ok change) /\
  (r_status review = Some "MERGED"%string ->
   truthy_str (r_submitted review) = true ->
   match r_submitter review with
   | Some submitter =>
       (account_id submitter = None ->
        close_change review c0 = Raise (KeyError "_account_id")) /\
       (account_id submitter <> None ->
        exists change, close_change review c0 = Ok change)
   | None => exists change, close_change review c0 = Ok change
   end).
Proof.
  intros H Mupd Mcre Msub.
  destruct (change_display_ok self review c0 H)
    as (id & number & branch & project & owner & author & title & updated
        & updated_at & created & created_at & merged_at & status & state
        & assignees & additions & deletions & rev & files & commit & text
        & _ & _ & _ & _ & _ & _ & _ & Hru & Hupd & Hrc & Hcre & Hmer
        & Hstatus & Hmap & _ & _ & _ & _ & _ & _ & _ & ->).
  rewrite Hru in Mupd. rewrite Hrc in Mcre.
  destruct (timedelta_db _ _ _ _ Hupd Hcre Mupd Mcre) as (zc & Hzc).
  destruct (status_map_cases _ _ Hmap) as [[-> ->]|[[-> ->]|[-> ->]]].
  - split; [|rewrite Hstatus; discriminate].
    intros _. eexists. exec_goal. reflexivity.
  - split; [intros Hn; now elim Hn|].
    intros _ Ht. rewrite Ht in Hmer.
    destruct Hmer as (submitted & d & Hrs & Hd & ->).
    rewrite Hrs in Msub.
    destruct (timedelta_db _ _ _ _ Hd Hcre Msub Mcre) as (zm & Hzm).
    destruct (r_submitter review) as [submitter|] eqn:Hsub.
    + split.
      * intros Hnone. exec_goal. rewrite Hzm. exec_goal. rewrite Hsub.
        unfold account_str. rewrite Hnone. reflexivity.
      * intros Hsome. destruct (account_id submitter) as [uid|] eqn:Hid;
          [|now elim Hsome].
        eexists. exec_goal. rewrite Hzm. exec_goal. rewrite Hsub.
        unfold account_str. rewrite Hid. reflexivity.
    + eexists. exec_goal. rewrite Hzm. exec_goal. rewrite Hsub. reflexivity.
  - split; [|rewrite Hstatus; discriminate].
    intros _. eexists. exec_goal. rewrite Hzc. exec_goal. reflexivity.
Qed.

Lemma close_change_outcome_witness :
  exists c0,
    change_display rf merged_by_no_account = Ok c0 /\
    close_change merged_by_no_account c0 = Raise (KeyError "_account_id").
Proof.
  destruct (change_display rf merged_by_no_account) as [c0|e] eqn:E;
    [|vm_compute in E; discriminate].
  exists c0. split; [reflexivity|].
  destruct (close_change_outcome rf merged_by_no_account c0 E) as (_ & Hm).
  - vm_compute. reflexivity.
  - vm_compute. reflexivity.
  - vm_compute. reflexivity.
  - destruct (Hm eq_refl eq_refl) as (Hnone & _).
    exact (Hnone eq_refl).
Defined.

(** ** [split] and [join] *)

Lemma split_cons (sep x : ascii) (s : string) :
  split sep (String x s)
  = if Ascii.eqb x sep then EmptyString :: split sep s
    else match split sep s with
         | [] => [String x EmptyString]
         | w :: ws => String x w :: ws
         end.
Proof. reflexivity. Qed.

Lemma split_nonempty (sep : ascii) (s : string) : split sep s <> [].
Proof.
  destruct s as [|x s]; [discriminate|].
  rewrite split_cons.
  destruct (Ascii.eqb x sep); [discriminate|].
  destruct (split sep s); discriminate.
Qed.

Lemma join_cons (sep w : string) (ws : list string) :
  ws <> [] -> join sep (w :: ws) = w +:+ sep +:+ join sep ws.
Proof. intros H. destruct ws; [now elim H | reflexivity]. Qed.

Lemma join_split (sep : ascii) (s : string) :
  join (String sep "") (split sep s) = s.
Proof.
  induction s as [|x s IH]; [reflexivity|].
  rewrite split_cons.
  destruct (Ascii.eqb_spec x sep) as [->|Hx].
  - rewrite join_cons by apply split_nonempty. now rewrite IH.
  - pose proof (split_nonempty sep s) as Hne.
    destruct (split sep s) as [|w ws]; [now elim Hne|].
    destruct ws as [|w' ws].
    + change (join (String sep "") [w]) with w in IH.
      change (join (String sep "") [String x w]) with (String x w).
      now rewrite IH.
    + rewrite join_cons in IH |- * by discriminate.
      rewrite <- IH. reflexivity.
Qed.

Lemma split_head (sep : ascii) (s : string) :
  contains_char sep (hd EmptyString (split sep s)) = false.
Proof.
  induction s as [|x s IH]; [reflexivity|].
  rewrite split_cons.
  destruct (Ascii.eqb x sep) eqn:Hx; [reflexivity|].
  destruct (split sep s) as [|w ws]; cbn [hd contains_char] in *.
  - now rewrite Hx.
  - now rewrite Hx, IH.
Qed.

Lemma split_single (sep : ascii) (s : string) :
  tl (split sep s) = [] <-> contains_char sep s = false.
Proof.
  induction s as [|x s IH]; [cbn; tauto|].
  rewrite split_cons. cbn [contains_char].
  destruct (Ascii.eqb x sep) eqn:Hx; cbn [orb tl].
  - pose proof (split_nonempty sep s). split; [tauto | discriminate].
  - pose proof (split_nonempty sep s) as Hne.
    destruct (split sep s) as [|w ws]; [now elim Hne|].
    exact IH.
Qed.

(** ** X7 to X11: the fields of the Change record *)

Lemma extracted_change (self : ReviewesFetcher) (review : ChangeInfo)
    (objs : list pydict) :
  extract_pr_objects self review = Ok objs ->
  exists c0 change rest,
    change_display self review = Ok c0 /\
    close_change review c0 = Ok change /\
    objs = change :: rest.
Proof.
  intros H.
  destruct (extract_pr_objects_events self review objs H)
    as (c0 & change & rest & Hd & Hc & -> & _).
  eauto 6.
Qed.

(** X7. The Change record of a successful extraction copies the raw
    record's [id], [_number], [subject] and [branch] (as both [branch] and
    [target_branch]), builds [url] from the base URL and the number and
    [repository_fullname_and_number] from the project and the number, has
    no labels and one commit. *)
Theorem change_record_fields (self : ReviewesFetcher) (review : ChangeInfo)
    (objs : list pydict) :
  extract_pr_objects self review = Ok objs ->
  exists change rest id number branch project title,
    objs = change :: rest /\
    r_id review = Some id /\
    r_number review = Some number /\
    r_branch review = Some branch /\
    r_project review = Some project /\
    r_subject review = Some title /\
    dict_get "id" change = Some (VStr id) /\
    dict_get "number" change = Some (VInt number) /\
    dict_get "branch" change = Some (VStr branch) /\
    dict_get "target_branch" change = Some (VStr branch) /\
    dict_get "title" change = Some (VStr title) /\
    dict_get "url" change
    = Some (VStr (base_url self +:+ "/" +:+ str_int number)) /\
    dict_get "repository_fullname" change = Some (VStr project) /\
    dict_get "repository_fullname_and_number" change
    = Some (VStr (project +:+ "#" +:+ str_int number)) /\
    dict_get "labels" change = Some (VList []) /\
    dict_get "commit_count" change = Some (VInt 1).
Proof.
  intros H.
  destruct (extracted_change self review objs H)
    as (c0 & change & rest & Hd & Hc & ->).
  destruct (change_display_ok self review c0 Hd)
    as (id & number & branch & project & owner & author & title & updated
        & updated_at & created & created_at & merged_at & status & state
        & assignees & additions & deletions & rev & files & commit & text
        & Hid & Hnum & Hbr & Hpr & _ & _ & Hti & _ & _ & _ & _ & _ & _
        & _ & _ & _ & _ & _ & _ & _ & _ & ->).
  exists change, rest, id, number, branch, project, title.
  do 6 (split; [first [reflexivity | assumption]|]).
  assert (Hfn : dict_get "repository_fullname_and_number" change
                = Some (VStr (project +:+ "#" +:+ str_int number))).
  { unfold close_change in Hc.
    apply bind_ok in Hc. destruct Hc as (fullname & Hf & Hc).
    apply bind_ok in Hc. destruct Hc as (num & Hn & Hc).
    exec Hf. injection Hf as <-. exec Hn. injection Hn as <-.
    cbv zeta in Hc.
    apply bind_ok in Hc. destruct Hc as (state1 & _ & Hc).
    apply bind_ok in Hc. destruct Hc as (c1 & H1 & Hc).
    apply bind_ok in Hc. destruct Hc as (state2 & _ & Hc).
    apply bind_ok in Hc. destruct Hc as (c2 & H2 & Hc).
    apply bind_ok in Hc. destruct Hc as (state3 & _ & Hc).
    apply bind_ok in Hc. destruct Hc as (c3 & H3 & Hc).
    apply bind_ok in Hc. destruct Hc as (state4 & _ & Hc).
    assert (E1 : dict_get "repository_fullname_and_number" c1
                 = Some (VStr (project +:+ "#" +:+ str_int number))).
    { destruct (eq_str state1 "CLOSED").
      - apply bind_ok in H1. destruct H1 as (? & _ & H1).
        injection H1 as <-. rewrite ?dict_get_set. reflexivity.
      - injection H1 as <-. rewrite ?dict_get_set. reflexivity. }
    assert (E2 : dict_get "repository_fullname_and_number" c2
                 = Some (VStr (project +:+ "#" +:+ str_int number))).
    { destruct (eq_str state2 "MERGED").
      - apply bind_ok in H2. destruct H2 as (? & _ & H2).
        injection H2 as <-. rewrite dict_get_set. exact E1.
      - now injection H2 as <-. }
    assert (E3 : dict_get "repository_fullname_and_number" c3
                 = Some (VStr (project +:+ "#" +:+ str_int number))).
    { destruct (eq_str state3 "CLOSED" || eq_str state3 "MERGED").
      - apply bind_ok in H3. destruct H3 as (? & _ & H3).
        apply bind_ok in H3. destruct H3 as (? & _ & H3).
        apply bind_ok in H3. destruct H3 as (? & _ & H3).
        injection H3 as <-. rewrite dict_get_set. exact E2.
      - now injection H3 as <-. }
    destruct (eq_str state4 "MERGED").
    - destruct (r_submitter review).
      + apply bind_ok in Hc. destruct Hc as (by_ & _ & Hc).
        injection Hc as <-. rewrite dict_get_set. exact E3.
      + now injection Hc as <-.
    - injection Hc as <-. rewrite dict_get_set. exact E3. }
  repeat split; try exact Hfn;
    (rewrite (close_change_keeps review _ change _ Hc) by discriminate;
     reflexivity).
Qed.

Lemma change_record_fields_witness :
  exists change rest,
    extract_pr_objects rf merged_change = Ok (change :: rest) /\
    dict_get "url" change = Some (VStr "https://review.example.org/42") /\
    dict_get "repository_fullname_and_number" change
    = Some (VStr "zuul/zuul#42").
Proof.
  destruct (extract_pr_objects rf merged_change) as [objs|e] eqn:E;
    [|vm_compute in E; discriminate].
  destruct (change_record_fields rf _ objs E)
    as (change & rest & id & number & branch & project & title & -> & _
        & Hnum & _ & Hpr & _ & _ & _ & _ & _ & _ & Hurl & _ & Hfn & _).
  injection Hnum as <-. injection Hpr as <-.
  exists change, rest. split; [reflexivity|].
  split; [exact Hurl | exact Hfn].
Defined.

(** X8. [repository_prefix] is the part of the project name before its
    first ["/"] and contains none; when the project name has a ["/"], the
    prefix, a ["/"] and [repository_shortname] make up the project name
    again; when it has none, the prefix is the whole name and the
    shortname is empty. *)
Theorem repository_names (self : ReviewesFetcher) (review : ChangeInfo)
    (objs : list pydict) :
  extract_pr_objects self review = Ok objs ->
  exists change rest project prefix shortname,
    objs = change :: rest /\
    r_project review = Some project /\
    dict_get "repository_prefix" change = Some (VStr prefix) /\
    dict_get "repository_shortname" change = Some (VStr shortname) /\
    contains_char "/" prefix = false /\
    (contains_char "/" project = true ->
     project = prefix +:+ "/" +:+ shortname) /\
    (contains_char "/" project = false ->
     prefix = project /\ shortname = EmptyString).
Proof.
  intros H.
  destruct (extracted_change self review objs H)
    as (c0 & change & rest & Hd & Hc & ->).
  destruct (change_display_ok self review c0 Hd)
    as (id & number & branch & project & owner & author & title & updated
        & updated_at & created & created_at & merged_at & status & state
        & assignees & additions & deletions & rev & files & commit & text
        & _ & _ & _ & Hpr & _ & _ & _ & _ & _ & _ & _ & _ & _
        & _ & _ & _ & _ & _ & _ & _ & _ & ->).
  exists change, rest, project, (prefix_of project), (shortname_of project).
  split; [reflexivity|]. split; [assumption|].
  split; [rewrite (close_change_keeps review _ change _ Hc) by discriminate;
          reflexivity|].
  split; [rewrite (close_change_keeps review _ change _ Hc) by discriminate;
          reflexivity|].
  unfold prefix_of, shortname_of.
  split; [apply split_head|].
  pose proof (join_split "/" project) as Hjoin.
  pose proof (split_single "/" project) as Hsingle.
  pose proof (split_nonempty "/" project) as Hne.
  destruct (split "/" project) as [|w ws]; [now elim Hne|].
  cbn [hd tl] in *. split.
  - intros Hc1. destruct ws as [|w' ws].
    + destruct Hsingle as [Hs _]. rewrite Hs in Hc1 by reflexivity.
      discriminate.
    + rewrite join_cons in Hjoin by discriminate. now rewrite Hjoin.
  - intros Hc0. apply Hsingle in Hc0. subst ws. split; [|reflexivity].
    exact Hjoin.
Qed.

Lemma repository_names_witness :
  exists change rest,
    extract_pr_objects rf merged_change = Ok (change :: rest) /\
    dict_get "repository_prefix" change = Some (VStr "zuul") /\
    dict_get "repository_shortname" change = Some (VStr "zuul").
Proof.
  destruct (extract_pr_objects rf merged_change) as [objs|e] eqn:E;
    [|vm_compute in E; discriminate].
  destruct (repository_names rf _ objs E)
    as (change & rest & project & prefix & shortname & -> & _ & Hp & Hs & _).
  exists change, rest. split; [reflexivity|].
  vm_compute in E. injection E as <- _.
  split; reflexivity.
Defined.

Definition mergeable_true : ChangeInfo :=
  sample_change "NEW" None None [] [].

(** X9. The [mergeable] field of the Change record is a boolean, true
    only when the raw record holds the string ["true"] under [mergeable]:
    it is false when the key is absent and false for the JSON boolean
    [true]. *)
Theorem mergeable_only_for_string (self : ReviewesFetcher)
    (review : ChangeInfo) (objs : list pydict) :
  extract_pr_objects self review = Ok objs ->
  exists change rest b,
    objs = change :: rest /\
    dict_get "mergeable" change = Some (VBool b) /\
    (b = true <-> r_mergeable review = Some (VStr "true")) /\
    (r_mergeable review = None -> b = false) /\
    (forall flag, r_mergeable review = Some (VBool flag) -> b = false).
Proof.
  intros H.
  destruct (extracted_change self review objs H)
    as (c0 & change & rest & Hd & Hc & ->).
  destruct (change_display_ok self review c0 Hd)
    as (id & number & branch & project & owner & author & title & updated
        & updated_at & created & created_at & merged_at & status & state
        & assignees & additions & deletions & rev & files & commit & text
        & _ & _ & _ & _ & _ & _ & _ & _ & _ & _ & _ & _ & _
        & _ & _ & _ & _ & _ & _ & _ & _ & ->).
  exists change, rest,
    (match r_mergeable review with
     | Some v => eq_str v "true"
     | None => false
     end).
  split; [reflexivity|].
  split; [rewrite (close_change_keeps review _ change _ Hc) by discriminate;
          reflexivity|].
  destruct (r_mergeable review) as [v|].
  - split; [|split; [discriminate|]].
    + destruct v; cbn [eq_str]; try (split; discriminate).
      rewrite String.eqb_eq. split; [now intros -> | now intros [= ->]].
    + intros flag [= ->]. reflexivity.
  - split; [split; discriminate|]. split; [reflexivity | discriminate].
Qed.

Lemma mergeable_only_for_string_witness :
  exists change rest,
    extract_pr_objects rf mergeable_true = Ok (change :: rest) /\
    dict_get "mergeable" change = Some (VBool false).
Proof.
  destruct (extract_pr_objects rf mergeable_true) as [objs|e] eqn:E;
    [|vm_compute in E; discriminate].
  destruct (mergeable_only_for_string rf _ objs E)
    as (change & rest & b & -> & Hm & _ & _ & Hflag).
  rewrite (Hflag true eq_refl) in Hm.
  exists change, rest. split; [reflexivity | exact Hm].
Defined.

Definition empty_account : AccountInfo := mkAccount None None [].

Definition assigned (assignee : option AccountInfo) : ChangeInfo :=
  mkChange (Some "zuul~master~I42"%string) (Some 42) (Some "master"%string)
    (Some "zuul/zuul"%string) (Some alice) (Some "Fix it"%string)
    (Some "2020-04-09 10:15:30.000000000"%string)
    (Some "2020-04-08 10:15:30.000000000"%string)
    None None (Some "NEW"%string) assignee (Some 3) (Some 1)
    (Some sample_revisions) None (Some []) (Some []) None.

(** X10. [assignees] is a list of at most one attribution string: the
    assignee's, when the raw record has a non-empty [assignee] object, and
    the empty list when the key is absent or holds an empty object. *)
Theorem assignees_at_most_one (self : ReviewesFetcher) (review : ChangeInfo)
    (objs : list pydict) :
  extract_pr_objects self review = Ok objs ->
  exists change rest l,
    objs = change :: rest /\
    dict_get "assignees" change = Some (VList l) /\
    (List.length l <= 1)%nat /\
    (truthy_account (r_assignee review) = false -> l = []) /\
    (truthy_account (r_assignee review) = true ->
     exists assignee uid,
       r_assignee review = Some assignee /\
       account_id assignee = Some uid /\
       l = [VStr (str_opt (account_name assignee) +:+ "/" +:+ str_int uid)]).
Proof.
  intros H.
  destruct (extracted_change self review objs H)
    as (c0 & change & rest & Hd & Hc & ->).
  destruct (change_display_ok self review c0 Hd)
    as (id & number & branch & project & owner & author & title & updated
        & updated_at & created & created_at & merged_at & status & state
        & assignees & additions & deletions & rev & files & commit & text
        & _ & _ & _ & _ & _ & _ & _ & _ & _ & _ & _ & _ & _
        & _ & Hass & _ & _ & _ & _ & _ & _ & ->).
  exists change, rest, assignees.
  split; [reflexivity|].
  split; [rewrite (close_change_keeps review _ change _ Hc) by discriminate;
          reflexivity|].
  destruct (truthy_account (r_assignee review)).
  - destruct Hass as (assignee & a & Hsome & Ha & ->).
    split; [simpl; lia|]. split; [discriminate|]. intros _.
    unfold account_str in Ha.
    apply bind_ok in Ha. destruct Ha as (uid & Huid & Ha).
    apply getitem_ok in Huid. injection Ha as <-.
    exists assignee, uid. auto.
  - subst assignees. split; [simpl; lia|]. split; [reflexivity | discriminate].
Qed.

Lemma assignees_at_most_one_witness :
  (exists change rest,
      extract_pr_objects rf (assigned (Some empty_account))
      = Ok (change :: rest) /\
      dict_get "assignees" change = Some (VList [])) /\
  (exists change rest,
      extract_pr_objects rf (assigned (Some alice)) = Ok (change :: rest) /\
      dict_get "assignees" change = Some (VList [VStr "Alice/7"])).
Proof.
  split.
  - destruct (extract_pr_objects rf (assigned (Some empty_account)))
      as [objs|e] eqn:E; [|vm_compute in E; discriminate].
    destruct (assignees_at_most_one rf _ objs E)
      as (change & rest & l & -> & Hl & _ & Hnone & _).
    rewrite (Hnone eq_refl) in Hl.
    exists change, rest. split; [reflexivity | exact Hl].
  - destruct (extract_pr_objects rf (assigned (Some alice)))
      as [objs|e] eqn:E; [|vm_compute in E; discriminate].
    destruct (assignees_at_most_one rf _ objs E)
      as (change & rest & l & -> & Hl & _ & _ & Hsome).
    destruct (Hsome eq_refl) as (assignee & uid & Ha & Hu & ->).
    injection Ha as <-. injection Hu as <-.
    exists change, rest. split; [reflexivity | exact Hl].
Defined.

(** X11. [changed_files] and [changes_files_details] are read from the
    first revision of the raw record's revision map and from no other:
    [changed_files] is the number of its files and of the entries of
    [changes_files_details], one per file in the map's order, where a
    missing line count is 0. *)
Theorem files_of_first_revision (self : ReviewesFetcher)
    (review : ChangeInfo) (objs : list pydict) :
  extract_pr_objects self review = Ok objs ->
  exists change rest key rev others files details,
    objs = change :: rest /\
    r_revisions review = Some ((key, rev) :: others) /\
    rev_files rev = Some files /\
    dict_get "changed_files" change
    = Some (VInt (Z.of_nat (List.length files))) /\
    dict_get "changes_files_details" change = Some (VList details) /\
    List.length details = List.length files /\
    forall i path info,
      nth_error files i = Some (path, info) ->
      nth_error details i
      = Some (VDict [("additions",
                      VInt (match lines_inserted info with
                            | Some n => n | None => 0 end));
                     ("deletions",
                      VInt (match lines_deleted info with
                            | Some n => n | None => 0 end));
                     ("path", VStr path)]%string).
Proof.
  intros H.
  destruct (extracted_change self review objs H)
    as (c0 & change & rest & Hd & Hc & ->).
  destruct (change_display_ok self review c0 Hd)
    as (id & number & branch & project & owner & author & title & updated
        & updated_at & created & created_at & merged_at & status & state
        & assignees & additions & deletions & rev & files & commit & text
        & _ & _ & _ & _ & _ & _ & _ & _ & _ & _ & _ & _ & _
        & _ & _ & _ & _ & Hrev & Hfiles & _ & _ & ->).
  unfold first_revision in Hrev.
  apply bind_ok in Hrev. destruct Hrev as (revisions & Hrevs & Hrev).
  apply getitem_ok in Hrevs.
  destruct revisions as [|[key rev'] others]; [discriminate|].
  injection Hrev as ->.
  exists change, rest, key, rev, others, files, (map file_details files).
  split; [reflexivity|]. split; [assumption|]. split; [assumption|].
  split; [rewrite (close_change_keeps review _ change _ Hc) by discriminate;
          reflexivity|].
  split; [rewrite (close_change_keeps review _ change _ Hc) by discriminate;
          reflexivity|].
  split; [apply length_map|].
  intros i path info Hi.
  rewrite nth_error_map, Hi. reflexivity.
Qed.

Lemma files_of_first_revision_witness :
  exists change rest,
    extract_pr_objects rf merged_change = Ok (change :: rest) /\
    dict_get "changed_files" change = Some (VInt 1).
Proof.
  destruct (extract_pr_objects rf merged_change) as [objs|e] eqn:E;
    [|vm_compute in E; discriminate].
  destruct (files_of_first_revision rf _ objs E)
    as (change & rest & key & rev & others & files & details & -> & Hr & Hf
        & Hn & _).
  injection Hr as _ <- _. injection Hf as <-.
  exists change, rest. split; [reflexivity | exact Hn].
Defined.

(** ** X12: what the events copy from their change *)

(** The attributes [insert_change_attributes] copies. *)
Definition carries (change obj : pydict) : Prop :=
  dict_get "repository_prefix" obj = dict_get "repository_prefix" change /\
  dict_get "repository_fullname" obj = dict_get "repository_fullname" change /\
  dict_get "repository_shortname" obj
  = dict_get "repository_shortname" change /\
  dict_get "number" obj = dict_get "number" change /\
  dict_get "repository_fullname_and_number" obj
  = dict_get "repository_fullname_and_number" change /\
  dict_get "on_author" obj = dict_get "author" change /\
  dict_get "on_created_at" obj = dict_get "created_at" change.

Lemma insert_change_attributes_carries (obj change obj' : pydict) :
  insert_change_attributes obj change = Ok obj' -> carries change obj'.
Proof.
  unfold insert_change_attributes. intros H.
  apply bind_ok in H. destruct H as (v1 & H1 & H).
  apply bind_ok in H. destruct H as (v2 & H2 & H).
  apply bind_ok in H. destruct H as (v3 & H3 & H).
  apply bind_ok in H. destruct H as (v4 & H4 & H).
  apply bind_ok in H. destruct H as (v5 & H5 & H).
  apply bind_ok in H. destruct H as (v6 & H6 & H).
  apply bind_ok in H. destruct H as (v7 & H7 & H).
  injection H as <-.
  apply dict_getitem_ok in H1, H2, H3, H4, H5, H6, H7.
  unfold carries, dict_update. cbn [fold_left fst snd].
  rewrite H1, H2, H3, H4, H5, H6, H7.
  rewrite !dict_get_set.
  repeat split; reflexivity.
Qed.

Lemma message_step_carries (change : pydict) (m : ChangeMessageInfo)
    (l : list pydict) :
  message_step change m [] = Ok l -> Forall (carries change) l.
Proof.
  unfold message_step. intros H.
  apply bind_ok in H. destruct H as (text & _ & H).
  destruct (startswith "Uploaded patch set " text).
  - apply bind_ok in H. destruct H as (obj & Hobj & H). injection H as <-.
    unfold message_event in Hobj. do 5 inv_bind Hobj.
    constructor; [|constructor].
    now apply insert_change_attributes_carries in Hobj.
  - destruct (Re.matches message_re text).
    + apply bind_ok in H. destruct H as (obj & Hobj & H). injection H as <-.
      unfold message_event in Hobj. do 5 inv_bind Hobj.
      constructor; [|constructor].
    now apply insert_change_attributes_carries in Hobj.
    + injection H as <-. constructor.
Qed.

Lemma review_step_carries (change : pydict) (label : string)
    (v : ApprovalInfo) (l : list pydict) :
  review_step change label v [] = Ok l -> Forall (carries change) l.
Proof.
  unfold review_step. intros H.
  destruct (vote_date v); [|injection H as <-; constructor].
  destruct (vote_value v); [|injection H as <-; constructor].
  do 5 inv_bind H. injection H as <-.
  constructor; [|constructor].
  match goal with
  | E : insert_change_attributes _ _ = Ok _ |- _ =>
      now apply insert_change_attributes_carries in E
  end.
Qed.

Lemma Forall2_concat_all {A} (P : pydict -> Prop)
    (step : A -> list pydict -> Prop)
    (xs : list A) (ls : list (list pydict)) :
  (forall x l, step x l -> Forall P l) ->
  Forall2 step xs ls -> Forall P (List.concat ls).
Proof.
  intros Hstep HF. induction HF as [|x l xs ls Hx HF IH]; simpl.
  - constructor.
  - apply Forall_app. split; [now apply (Hstep x) | exact IH].
Qed.

(** X12. Every event of a successful extraction carries its change's
    [repository_prefix], [repository_fullname], [repository_shortname],
    [number] and [repository_fullname_and_number], the change's [author]
    as [on_author] and the change's [created_at] as [on_created_at]. *)
Theorem events_carry_change_attributes (self : ReviewesFetcher)
    (review : ChangeInfo) (objs : list pydict) :
  extract_pr_objects self review = Ok objs ->
  exists change events,
    objs = change :: events /\
    dict_get "type" change = Some (VStr "Change") /\
    Forall (carries change) events.
Proof.
  intros H.
  destruct (extract_pr_objects_ok self review objs H)
    as (c0 & change & created & closing & messages & msg_objs & labels
        & label_objs & Hd & Hc & Hcr & Hcl & Hm & Hfm & Hl & Hfl & ->).
  exists change, (created ++ closing ++ msg_objs ++ label_objs).
  split; [reflexivity|]. split.
  { destruct (close_change_cases self review c0 change Hd Hc)
      as (? & ? & ? & ? & ? & ? & ? & _ & _ & _ & Ht & _). exact Ht. }
  repeat (apply Forall_app; split).
  - unfold created_event in Hcr. do 5 inv_bind Hcr.
    injection Hcr as <-. constructor; [|constructor].
    match goal with
    | E : insert_change_attributes _ _ = Ok _ |- _ =>
        now apply insert_change_attributes_carries in E
    end.
  - unfold closed_event in Hcl.
    apply bind_ok in Hcl. destruct Hcl as (state & _ & Hcl).
    destruct (eq_str state "MERGED" || eq_str state "CLOSED").
    + do 5 inv_bind Hcl. injection Hcl as <-. constructor; [|constructor].
      match goal with
      | E : insert_change_attributes _ _ = Ok _ |- _ =>
          now apply insert_change_attributes_carries in E
      end.
    + injection Hcl as <-. constructor.
  - destruct (for_messages_concat change messages msg_objs Hfm)
      as (ls & HF & ->).
    apply (Forall2_concat_all _ _ _ _ (message_step_carries change) HF).
  - destruct (for_labels_concat change labels (map fst labels) label_objs Hfl)
      as (ls & HF & ->).
    apply (Forall2_concat_all (carries change)
             (fun label l =>
                for_reviews change label (votes_of labels label) [] = Ok l)
             (map fst labels) ls); [|exact HF].
    intros label l Hl'.
    destruct (for_reviews_concat change label _ l Hl') as (ls' & HF' & ->).
    apply (Forall2_concat_all _ _ _ _ (review_step_carries change label) HF').
Qed.

Lemma events_carry_change_attributes_witness :
  exists change created closing,
    extract_pr_objects rf merged_change = Ok [change; created; closing] /\
    dict_get "on_author" closing = dict_get "author" change.
Proof.
  destruct (extract_pr_objects rf merged_change) as [objs|e] eqn:E;
    [|vm_compute in E; discriminate].
  destruct (events_carry_change_attributes rf _ objs E)
    as (change & events & -> & _ & Hall).
  destruct events as [|created [|closing [|extra events]]];
    try (vm_compute in E; discriminate).
  exists change, created, closing. split; [reflexivity|].
  inversion Hall as [|? ? _ Hrest]; subst.
  inversion Hrest as [|? ? Hclosing _]; subst.
  apply Hclosing.
Defined.

(** ** X13 and X14: the batch *)

(** [obj['type'] == 'Change'] *)
Definition is_change (obj : pydict) : bool :=
  eq_str (dict_get_default "type" obj) "Change".

Definition extracts (self : ReviewesFetcher) (review : ChangeInfo) : bool :=
  match extract_pr_objects self review with
  | Ok _ => true
  | Raise _ => false
  end.

Lemma event_not_change (obj : pydict) : is_event obj -> is_change obj = false.
Proof.
  intros (t & Ht & Hne). unfold is_change, dict_get_default. rewrite Ht.
  cbn [eq_str]. now apply String.eqb_neq.
Qed.

Lemma filter_events (l : list pydict) :
  Forall is_event l -> filter is_change l = [].
Proof.
  induction 1 as [|obj l Hobj _ IH]; [reflexivity|].
  cbn [filter]. now rewrite (event_not_change obj Hobj).
Qed.

Lemma extracted_one_change (self : ReviewesFetcher) (review : ChangeInfo) :
  List.length (filter is_change (extracted self review))
  = if extracts self review then 1%nat else 0%nat.
Proof.
  unfold extracted, extracts.
  destruct (extract_pr_objects self review) as [objs|e] eqn:E; [|reflexivity].
  destruct (extract_pr_objects_events self review objs E)
    as (c0 & change & rest & Hd & Hc & -> & Hrest).
  destruct (close_change_cases self review c0 change Hd Hc)
    as (? & ? & ? & ? & ? & ? & ? & _ & _ & _ & Ht & _).
  cbn [filter]. unfold is_change at 1, dict_get_default. rewrite Ht.
  cbn [eq_str String.eqb Ascii.eqb Bool.eqb].
  now rewrite (filter_events rest Hrest).
Qed.

(** X13. [extract_objects] returns exactly one Change record for each raw
    record that extracts, and none for the others: the Change records of
    the result are as many as the records that extract. *)
Theorem one_change_per_record (self : ReviewesFetcher)
    (reviewes : list ChangeInfo) :
  List.length (filter is_change (fst (extract_objects self reviewes)))
  = List.length (filter (extracts self) reviewes) /\
  (List.length (filter (extracts self) reviewes)
   + List.length (snd (extract_objects self reviewes))
   = List.length reviewes)%nat.
Proof.
  unfold extract_objects. rewrite extract_loop_spec. cbn [fst snd app].
  split.
  - induction reviewes as [|review rest IH]; [reflexivity|].
    cbn [flat_map filter]. rewrite filter_app, length_app.
    rewrite extracted_one_change, IH.
    destruct (extracts self review); reflexivity.
  - induction reviewes as [|review rest IH]; [reflexivity|].
    cbn [flat_map filter]. rewrite length_app.
    unfold failure at 1, extracts at 1.
    destruct (extract_pr_objects self review); cbn [List.length]; lia.
Qed.

(** X14. The objects and the log of a batch are those of its parts, one
    after the other: a record's extraction depends on no other record. *)
Theorem extract_objects_app (self : ReviewesFetcher)
    (first second : list ChangeInfo) :
  extract_objects self (first ++ second)
  = (fst (extract_objects self first) ++ fst (extract_objects self second),
     snd (extract_objects self first) ++ snd (extract_objects self second)).
Proof.
  unfold extract_objects. rewrite !extract_loop_spec.
  cbn [fst snd app]. now rewrite !flat_map_app.
Qed.

(** ** X15 and X16: records that do not extract *)

Lemma Forall2_in_left {A B} (R : A -> B -> Prop) (xs : list A) (ys : list B)
    (x : A) :
  Forall2 R xs ys -> In x xs -> exists y, R x y.
Proof.
  induction 1 as [|a b xs ys Hab _ IH]; intros Hin; [destruct Hin|].
  destruct Hin as [<-|Hin]; eauto.
Qed.

Definition system_message : ChangeMessageInfo :=
  mkMessage (Some "m3"%string) (Some "Uploaded patch set 1."%string)
    (Some "2020-04-08 11:15:31.000000000"%string) None.

(** X15. A raw change does not extract when one of its messages has no
    [message] text, or has a text that starts with ["Uploaded patch set "]
    or matches the comment pattern and lacks an [id], a [date] or an
    [author]: a message that gives an event needs all three. *)
Theorem message_without_author_fails (self : ReviewesFetcher)
    (review : ChangeInfo) (messages : list ChangeMessageInfo)
    (m : ChangeMessageInfo) :
  r_messages review = Some messages ->
  In m messages ->
  (msg_message m = None
   \/ exists text,
        msg_message m = Some text /\
        (startswith "Uploaded patch set " text = true
         \/ Re.matches message_re text = true) /\
        (msg_id m = None \/ msg_date m = None \/ msg_author m = None)) ->
  exists e, extract_pr_objects self review = Raise e.
Proof.
  intros Hm Hin Hbad.
  destruct (extract_pr_objects self review) as [objs|e] eqn:E; [|eauto].
  exfalso.
  destruct (extract_pr_objects_ok self review objs E)
    as (c0 & change & created & closing & messages' & msg_objs & labels
        & label_objs & _ & _ & _ & _ & Hm' & Hfm & _).
  rewrite Hm in Hm'. injection Hm' as <-.
  destruct (for_messages_concat change messages msg_objs Hfm)
    as (ls & HF & _).
  destruct (Forall2_in_left _ _ _ m HF Hin) as (l & Hstep).
  unfold message_step in Hstep.
  apply bind_ok in Hstep. destruct Hstep as (text & Ht & Hstep).
  apply getitem_ok in Ht.
  destruct Hbad as [Hnone | (text' & Ht' & Hq & Hmissing)];
    [congruence|].
  rewrite Ht in Ht'. injection Ht' as <-.
  assert (Hev : exists type obj, message_event type m change = Ok obj).
  { destruct (startswith "Uploaded patch set " text).
    - apply bind_ok in Hstep. destruct Hstep as (obj & Hobj & _). eauto.
    - destruct Hq as [Hq|Hq]; [discriminate|]. rewrite Hq in Hstep.
      apply bind_ok in Hstep. destruct Hstep as (obj & Hobj & _). eauto. }
  destruct Hev as (type & obj & Hobj).
  destruct (message_event_fields _ _ _ _ Hobj)
    as (? & ? & ? & ? & ? & H1 & H2 & _ & H4 & _).
  destruct Hmissing as [H|[H|H]]; congruence.
Qed.

Lemma message_without_author_fails_witness :
  exists e,
    extract_pr_objects rf
      (sample_change "NEW" None None [system_message] [])
    = Raise e.
Proof.
  apply (message_without_author_fails rf _ [system_message] system_message).
  - reflexivity.
  - now left.
  - right. exists "Uploaded patch set 1."%string.
    split; [reflexivity|]. split; [left; reflexivity|].
    right. right. reflexivity.
Defined.

Definition anonymous_vote : ApprovalInfo :=
  mkApproval (Some "Carol"%string) None (Some 1)
    (Some "2020-04-08 11:15:31.000000000"%string).

(** X16. A raw change does not extract when a voter entry that has a
    [date] and a [value] has no [_account_id], or has a date that
    [convert_date_for_db] does not take. *)
Theorem vote_without_account_fails (self : ReviewesFetcher)
    (review : ChangeInfo) (labels : list (string * LabelInfo))
    (label : string) (v : ApprovalInfo) (date : string) (value : Z) :
  r_labels review = Some labels ->
  In label (map fst labels) ->
  In v (votes_of labels label) ->
  vote_date v = Some date ->
  vote_value v = Some value ->
  (vote_account_id v = None
   \/ exists e, convert_date_for_db date = Raise e) ->
  exists e, extract_pr_objects self review = Raise e.
Proof.
  intros Hl Hin Hv Hd Hval Hbad.
  destruct (extract_pr_objects self review) as [objs|e] eqn:E; [|eauto].
  exfalso.
  destruct (extract_pr_objects_ok self review objs E)
    as (c0 & change & created & closing & messages & msg_objs & labels'
        & label_objs & _ & _ & _ & _ & _ & _ & Hl' & Hfl & _).
  rewrite Hl in Hl'. injection Hl' as <-.
  destruct (for_labels_concat change labels (map fst labels) label_objs Hfl)
    as (ls & HF & _).
  destruct (Forall2_in_left _ _ _ label HF Hin) as (l & Hreviews).
  destruct (for_reviews_concat change label _ l Hreviews) as (ls' & HF' & _).
  destruct (Forall2_in_left _ _ _ v HF' Hv) as (l' & Hstep).
  apply review_step_cases in Hstep. rewrite Hd, Hval in Hstep.
  destruct Hstep as (obj & created' & account & _ & Hc & Ha & _).
  destruct Hbad as [Hnone | (e & He)]; congruence.
Qed.

Lemma vote_without_account_fails_witness :
  exists e,
    extract_pr_objects rf
      (sample_change "NEW" None None []
         [("Verified"%string, mkLabel (Some [anonymous_vote]))])
    = Raise e.
Proof.
  apply (vote_without_account_fails rf _
           [("Verified"%string, mkLabel (Some [anonymous_vote]))]
           "Verified" anonymous_vote
           "2020-04-08 11:15:31.000000000" 1).
  - reflexivity.
  - now left.
  - now left.
  - reflexivity.
  - reflexivity.
  - left. reflexivity.
Defined.

(** ** X17: [convert_date_for_query] on its own result *)

Lemma strptime_bare_date (dt : Datetime.datetime) :
  Datetime.valid dt = true ->
  Datetime.strptime (Datetime.iso_text "%Y-%m-%d" dt) DateFacts.query_format
  = Raise ValueError.
Proof.
  intros Hvalid.
  destruct (DateFacts.valid_bounds dt Hvalid) as (Hy & Hm & Hd & _).
  destruct dt as [y m d H M S].
  cbn [Datetime.year Datetime.month Datetime.day] in *.
  destruct (DateFacts.year_field y) as [_ Yrun]; [lia|].
  pose proof (DateFacts.month_field m Hm) as Fm.
  destruct (DateFacts.day_field d Hd) as [_ Fd].
  assert (Hrun :
    Re.re_match (Datetime.pattern DateFacts.query_format)
      (Datetime.iso_text "%Y-%m-%d" (Datetime.mkDatetime y m d H M S))
    = None).
  { unfold Re.re_match.
    change (Datetime.pattern DateFacts.query_format)
      with (Re.Seq (Datetime.directive "Y") (Re.Seq (Re.LitI "-")
           (Re.Seq (Datetime.directive "m") (Re.Seq (Re.LitI "-")
           (Re.Seq (Datetime.directive "d") (Re.Seq (Re.Plus is_space)
           (Re.Seq (Datetime.directive "H") (Re.Seq (Re.LitI ":")
           (Re.Seq (Datetime.directive "M") (Re.Seq (Re.LitI ":")
           (Re.Seq (Datetime.directive "S") Re.Eps))))))))))).
    change (Datetime.iso_text "%Y-%m-%d" (Datetime.mkDatetime y m d H M S))
      with (String (Datetime.digit_char (y / 1000 mod 10))
           (String (Datetime.digit_char (y / 100 mod 10))
           (String (Datetime.digit_char (y / 10 mod 10))
           (String (Datetime.digit_char (y mod 10))
           (String "-"
           (String (Datetime.digit_char (m / 10 mod 10))
           (String (Datetime.digit_char (m mod 10))
           (String "-"
           (String (Datetime.digit_char (d / 10 mod 10))
           (String (Datetime.digit_char (d mod 10)) "")))))))))).
    rewrite (DateFacts.run_seq_first _ _ _ _ [] (Yrun _ _)) by (intros o []).
    rewrite DateFacts.separator_step.
    rewrite (DateFacts.field_then_separator "m" "m" m "-" _ _ _ Fm) by auto.
    destruct (Fd (("m"%string, Datetime.pad2 m)
                  :: ("Y"%string, Datetime.pad4 y) :: []) EmptyString)
      as (others & Hd1 & Hothers).
    rewrite (DateFacts.run_seq_first _ _ _ _ _ Hd1).
    - reflexivity.
    - intros o Ho. apply DateFacts.blank_dies.
      rewrite Forall_forall in Hothers. now apply Hothers. }
  unfold Datetime.strptime. now rewrite Hrun.
Qed.

Lemma replace_bare_date (dt : Datetime.datetime) :
  replace "Z" "" (replace "T" " " (Datetime.iso_text "%Y-%m-%d" dt))
  = Datetime.iso_text "%Y-%m-%d" dt.
Proof.
  destruct dt as [y m d H M S].
  change (Datetime.iso_text "%Y-%m-%d" (Datetime.mkDatetime y m d H M S))
    with (String (Datetime.digit_char (y / 1000 mod 10))
         (String (Datetime.digit_char (y / 100 mod 10))
         (String (Datetime.digit_char (y / 10 mod 10))
         (String (Datetime.digit_char (y mod 10))
         (String "-"
         (String (Datetime.digit_char (m / 10 mod 10))
         (String (Datetime.digit_char (m mod 10))
         (String "-"
         (String (Datetime.digit_char (d / 10 mod 10))
         (String (Datetime.digit_char (d mod 10)) "")))))))))).
  repeat (rewrite (DateFacts.replace_skip "T")
            by first [reflexivity
                     | apply DateFacts.digit_neq;
                       [apply DateFacts.mod10_digit | reflexivity]]).
  repeat (rewrite (DateFacts.replace_skip "Z")
            by first [reflexivity
                     | apply DateFacts.digit_neq;
                       [apply DateFacts.mod10_digit | reflexivity]]).
  reflexivity.
Qed.

(** X17. [convert_date_for_query] does not take the bare date
    [YYYY-MM-DD] it returns: it raises [ValueError], and so does [get],
    before any request is made. *)
Theorem bare_date_is_rejected (dt : Datetime.datetime) :
  Datetime.valid dt = true ->
  convert_date_for_query (Datetime.iso_text "%Y-%m-%d" dt) = Raise ValueError /\
  forall (self : ReviewesFetcher) (responses : list (list ChangeInfo)),
    get self responses (Datetime.iso_text "%Y-%m-%d" dt)
    = (Raise ValueError, []).
Proof.
  intros Hvalid.
  assert (H : convert_date_for_query (Datetime.iso_text "%Y-%m-%d" dt)
              = Raise ValueError).
  { unfold convert_date_for_query. rewrite replace_bare_date.
    change "%Y-%m-%d %H:%M:%S"%string with DateFacts.query_format.
    now rewrite (strptime_bare_date dt Hvalid). }
  split; [exact H|].
  intros self responses. unfold get. now rewrite H.
Qed.

Lemma bare_date_is_rejected_witness :
  get rf [[more_record]] "2020-04-08" = (Raise ValueError, []).
Proof.
  destruct (bare_date_is_rejected april_8) as [_ H].
  - reflexivity.
  - exact (H rf [[more_record]]).
Defined.

(** ** X18: a header that votes on two labels *)

Lemma append_inj_l (a x y : string) : a +:+ x = a +:+ y -> x = y.
Proof.
  induction a as [|c a IH]; [auto|].
  change (String c a +:+ ?z) with (String c (a +:+ z)).
  intros [= H]. auto.
Qed.

Lemma digits_then_colon (a b r r' : string) :
  ReFacts.all_chars is_digit a ->
  ReFacts.all_chars is_digit b ->
  a +:+ String ":" r = b +:+ String ":" r' ->
  r = r'.
Proof.
  revert b. induction a as [|c a IH]; intros b Ha Hb H.
  - destruct b as [|c' b]; [now injection H|].
    injection H as <- _.
    apply ReFacts.all_chars_cons in Hb. destruct Hb as [Hc _]. discriminate.
  - apply ReFacts.all_chars_cons in Ha. destruct Ha as [Hc Ha].
    destruct b as [|c' b].
    + injection H as -> _. discriminate.
    + injection H as _ H.
      apply ReFacts.all_chars_cons in Hb. destruct Hb as [_ Hb].
      exact (IH b Ha Hb H).
Qed.

Lemma blank_is_no_line_feed (a b r r' : string) :
  ReFacts.all_chars not_blank a ->
  ReFacts.all_chars not_newline a ->
  ReFacts.all_chars not_blank b ->
  a +:+ String " " r = b +:+ String LF r' ->
  False.
Proof.
  revert b. induction a as [|c a IH]; intros b Ha1 Ha2 Hb H.
  - destruct b as [|c' b]; [discriminate|].
    injection H as <- _.
    apply ReFacts.all_chars_cons in Hb. destruct Hb as [Hc _]. discriminate.
  - apply ReFacts.all_chars_cons in Ha1. destruct Ha1 as [_ Ha1].
    apply ReFacts.all_chars_cons in Ha2. destruct Ha2 as [Hc Ha2].
    destruct b as [|c' b].
    + injection H as -> _. discriminate.
    + injection H as _ H.
      apply ReFacts.all_chars_cons in Hb. destruct Hb as [_ Hb].
      exact (IH b Ha1 Ha2 Hb H).
Qed.

Lemma vote_token_not_blank (token : string) :
  vote_token token -> ReFacts.all_chars not_blank token.
Proof.
  intros (label & sg & ds & -> & _ & Hlabel & Hsg & _ & Hds).
  apply ReFacts.all_chars_app. split; [exact Hlabel|].
  apply ReFacts.all_chars_cons. split.
  - destruct Hsg as [-> | ->]; reflexivity.
  - intros c Hc. specialize (Hds c Hc).
    unfold not_blank. destruct (Ascii.eqb_spec c " ") as [->|]; [|reflexivity].
    discriminate.
Qed.

Definition two_votes : string :=
  "Patch Set 3: Code-Review+2 Verified+1" +:+ NL +:+ NL +:+ "Looks good".

(** X18. A text whose header goes on after a first token, as in
    [Patch Set 3: Code-Review+2 Verified+1], does not match the comment
    pattern, whatever follows: a message that votes on two labels gives no
    [ChangeCommentedEvent], even with a comment in its body. *)
Theorem second_vote_blocks_comment (n token rest : string) :
  digits n ->
  ReFacts.all_chars not_blank token ->
  ReFacts.all_chars not_newline token ->
  ~ comment_grammar ("Patch Set " +:+ n +:+ ": " +:+ token +:+ " " +:+ rest) /\
  forall (change : pydict) (comment : ChangeMessageInfo)
         (objects : list pydict),
    msg_message comment
    = Some ("Patch Set " +:+ n +:+ ": " +:+ token +:+ " " +:+ rest) ->
    message_step change comment objects = Ok objects.
Proof.
  intros Hn Ht1 Ht2.
  assert (Hno : ~ comment_grammar
                  ("Patch Set " +:+ n +:+ ": " +:+ token +:+ " " +:+ rest)).
  { intros (n' & vote & line & rest' & E & Hn' & Hvote & _).
    apply append_inj_l in E.
    change (": " +:+ token +:+ " " +:+ rest)
      with (String ":" (String " " (token +:+ String " " rest))) in E.
    change (":" +:+ vote +:+ NL +:+ NL +:+ line +:+ rest')
      with (String ":" (vote +:+ String LF (NL +:+ line +:+ rest'))) in E.
    apply (digits_then_colon n n') in E; [|apply Hn | apply Hn'].
    destruct Hvote as [-> | (tok & -> & Htok)].
    - discriminate.
    - injection E as E.
      rewrite append_assoc in E.
      apply vote_token_not_blank in Htok.
      exact (blank_is_no_line_feed _ _ _ _ Ht1 Ht2 Htok E). }
  split; [exact Hno|].
  intros change comment objects Hm.
  unfold message_step. rewrite Hm. cbn [getitem bind].
  change (startswith "Uploaded patch set "
            ("Patch Set " +:+ n +:+ ": " +:+ token +:+ " " +:+ rest))
    with false.
  cbv iota.
  destruct (Re.matches message_re _) eqn:E; [|reflexivity].
  apply message_re_grammar in E. now elim Hno.
Qed.

Lemma second_vote_blocks_comment_witness :
  message_step sample_attributes (comment_message two_votes) [] = Ok [].
Proof.
  destruct (second_vote_blocks_comment "3" "Code-Review+2"
              ("Verified+1" +:+ NL +:+ NL +:+ "Looks good")) as [_ H].
  - split; [discriminate|].
    intros c [<-|[]]. reflexivity.
  - intros c Hc. simpl in Hc.
    repeat (destruct Hc as [<-|Hc]; [reflexivity|]). destruct Hc.
  - intros c Hc. simpl in Hc.
    repeat (destruct Hc as [<-|Hc]; [reflexivity|]). destruct Hc.
  - apply (H sample_attributes (comment_message two_votes) []).
    reflexivity.
Defined.

(** ** X19 and X20: who closed and who wrote a change *)

(** X19. The closing event of a successful extraction has the [id]
    ["CCLE"] + the change's id and the change's [closed_at] as
    [created_at].  A [ChangeAbandonedEvent] has the author [None]; a
    [ChangeMergedEvent] has the submitter's attribution string as author
    when the raw record has a submitter, and [None] when it has none. *)
Theorem closing_event_fields (self : ReviewesFetcher) (review : ChangeInfo)
    (objs : list pydict) :
  extract_pr_objects self review = Ok objs ->
  forall state change,
    hd_error objs = Some change ->
    dict_get "state" change = Some (VStr state) ->
    state <> "OPEN"%string ->
    exists created closing rest id,
      objs = change :: created :: closing :: rest /\
      dict_get "id" change = Some (VStr id) /\
      dict_get "id" closing = Some (VStr ("CCLE" +:+ id)) /\
      dict_get "created_at" closing = dict_get "closed_at" change /\
      (state = "CLOSED"%string ->
       dict_get "type" closing = Some (VStr "ChangeAbandonedEvent") /\
       dict_get "author" closing = Some VNone) /\
      (state = "MERGED"%string ->
       dict_get "type" closing = Some (VStr "ChangeMergedEvent") /\
       match r_submitter review with
       | Some submitter =>
           exists by_, account_str submitter = Ok by_ /\
                       dict_get "author" closing = Some (VStr by_)
       | None => dict_get "author" closing = Some VNone
       end).
Proof.
  intros H state change Hhd Hstate Hopen.
  destruct (extract_pr_objects_ok self review objs H)
    as (c0 & change' & created & closing & messages & msg_objs & labels
        & label_objs & Hd & Hc & Hcr & Hcl & _ & _ & _ & _ & ->).
  cbn [hd_error] in Hhd. injection Hhd as ->.
  destruct (close_change_cases self review c0 change Hd Hc)
    as (id & author & status & state' & updated_at & created_at & merged_at
        & _ & _ & _ & _ & Hid & _ & Hstate' & _ & _ & _ & Hcases).
  rewrite Hstate in Hstate'. injection Hstate' as <-.
  destruct (created_event_fields change created Hcr)
    as (cobj & id' & -> & _).
  destruct (closed_event_fields change closing Hcl) as (st & Hst & Hclosing).
  rewrite Hstate in Hst. injection Hst as <-.
  destruct Hcases as [(-> & _)
                     |[(-> & Hcl' & _ & Hby)
                      |(-> & _ & merged & _ & Hcl' & _ & Hby)]].
  - now elim Hopen.
  - cbn [eq_str String.eqb Ascii.eqb Bool.eqb orb] in Hclosing.
    destruct Hclosing as (obj & id'' & closed_at & -> & Hid'' & Hca & Ht & Hi
                          & Hcreated & Hauthor).
    rewrite Hid in Hid''. injection Hid'' as <-.
    exists cobj, obj, (msg_objs ++ label_objs), id.
    split; [reflexivity|]. split; [assumption|]. split; [assumption|].
    split; [now rewrite Hcreated, Hca|].
    split; [|discriminate]. intros _. split; [exact Ht|].
    rewrite Hauthor. unfold dict_get_default. now rewrite Hby.
  - cbn [eq_str String.eqb Ascii.eqb Bool.eqb orb] in Hclosing.
    destruct Hclosing as (obj & id'' & closed_at & -> & Hid'' & Hca & Ht & Hi
                          & Hcreated & Hauthor).
    rewrite Hid in Hid''. injection Hid'' as <-.
    exists cobj, obj, (msg_objs ++ label_objs), id.
    split; [reflexivity|]. split; [assumption|]. split; [assumption|].
    split; [now rewrite Hcreated, Hca|].
    split; [discriminate|]. intros _. split; [exact Ht|].
    rewrite Hauthor. unfold dict_get_default.
    destruct (r_submitter review) as [submitter|].
    + destruct Hby as (by_ & Hacc & Hget). rewrite Hget. eauto.
    + now rewrite Hby.
Qed.

Lemma closing_event_fields_witness :
  exists change created closing,
    extract_pr_objects rf merged_change = Ok [change; created; closing] /\
    dict_get "author" closing = Some (VStr "Alice/7").
Proof.
  destruct (extract_pr_objects rf merged_change) as [objs|e] eqn:E;
    [|vm_compute in E; discriminate].
  destruct objs as [|change objs]; [vm_compute in E; discriminate|].
  destruct (closing_event_fields rf _ _ E "MERGED" change)
    as (created & closing & rest & id & Hobjs & _ & _ & _ & _ & Hm).
  - reflexivity.
  - vm_compute in E. injection E as <- _. reflexivity.
  - discriminate.
  - destruct (Hm eq_refl) as (_ & by_ & Hby & Hauthor).
    vm_compute in Hby. injection Hby as <-.
    injection Hobjs as ->.
    destruct rest as [|extra rest]; [|vm_compute in E; discriminate].
    exists change, created, closing. split; [reflexivity | exact Hauthor].
Defined.

Definition nameless : AccountInfo := mkAccount None (Some 9) [].

Definition owned_by (owner : AccountInfo) : ChangeInfo :=
  mkChange (Some "zuul~master~I42"%string) (Some 42) (Some "master"%string)
    (Some "zuul/zuul"%string) (Some owner) (Some "Fix it"%string)
    (Some "2020-04-09 10:15:30.000000000"%string)
    (Some "2020-04-08 10:15:30.000000000"%string)
    None None (Some "NEW"%string) None (Some 3) (Some 1)
    (Some sample_revisions) None (Some []) (Some []) None.

(** X20. The [author] of the Change record is the owner's name, a ["/"]
    and the owner's account id; an owner without a name gives
    ["None/<id>"].  A raw record whose owner has no [_account_id] does not
    extract. *)
Theorem change_author (self : ReviewesFetcher) (review : ChangeInfo) :
  (forall objs,
      extract_pr_objects self review = Ok objs ->
      exists change rest owner uid,
        objs = change :: rest /\
        r_owner review = Some owner /\
        account_id owner = Some uid /\
        dict_get "author" change
        = Some (VStr (str_opt (account_name owner) +:+ "/" +:+ str_int uid)) /\
        (account_name owner = None ->
         dict_get "author" change = Some (VStr ("None/" +:+ str_int uid)))) /\
  (forall owner,
      r_owner review = Some owner ->
      account_id owner = None ->
      exists e, extract_pr_objects self review = Raise e).
Proof.
  assert (Hok : forall objs,
             extract_pr_objects self review = Ok objs ->
             exists change rest owner uid,
               objs = change :: rest /\
               r_owner review = Some owner /\
               account_id owner = Some uid /\
               dict_get "author" change
               = Some (VStr (str_opt (account_name owner) +:+ "/"
                             +:+ str_int uid))).
  { intros objs H.
    destruct (extracted_change self review objs H)
      as (c0 & change & rest & Hd & Hc & ->).
    destruct (change_display_ok self review c0 Hd)
      as (id & number & branch & project & owner & author & title & updated
          & updated_at & created & created_at & merged_at & status & state
          & assignees & additions & deletions & rev & files & commit & text
          & _ & _ & _ & _ & Howner & Hauthor & _ & _ & _ & _ & _ & _ & _
          & _ & _ & _ & _ & _ & _ & _ & _ & ->).
    unfold account_str in Hauthor.
    apply bind_ok in Hauthor. destruct Hauthor as (uid & Huid & Hauthor).
    apply getitem_ok in Huid. injection Hauthor as <-.
    exists change, rest, owner, uid.
    do 3 (split; [first [reflexivity | assumption]|]).
    rewrite (close_change_keeps review _ change _ Hc) by discriminate.
    reflexivity. }
  split.
  - intros objs H.
    destruct (Hok objs H) as (change & rest & owner & uid & -> & Ho & Hu & Ha).
    exists change, rest, owner, uid.
    do 4 (split; [first [reflexivity | assumption]|]).
    intros Hname. rewrite Ha, Hname. reflexivity.
  - intros owner Ho Hnone.
    destruct (extract_pr_objects self review) as [objs|e] eqn:E; [|eauto].
    exfalso.
    destruct (Hok objs eq_refl) as (? & ? & owner' & uid & _ & Ho' & Hu & _).
    congruence.
Qed.

Lemma change_author_witness :
  (exists change rest,
      extract_pr_objects rf (owned_by nameless) = Ok (change :: rest) /\
      dict_get "author" change = Some (VStr "None/9")) /\
  exists e, extract_pr_objects rf (owned_by no_account) = Raise e.
Proof.
  split.
  - destruct (change_author rf (owned_by nameless)) as [Hok _].
    destruct (extract_pr_objects rf (owned_by nameless)) as [objs|e] eqn:E;
      [|vm_compute in E; discriminate].
    destruct (Hok objs eq_refl)
      as (change & rest & owner & uid & -> & Ho & Hu & _ & Hnone).
    injection Ho as <-. injection Hu as <-.
    exists change, rest. split; [reflexivity|].
    exact (Hnone eq_refl).
  - destruct (change_author rf (owned_by no_account)) as [_ Hfail].
    exact (Hfail no_account eq_refl eq_refl).
Defined.
